(** * Filipino emigrants dashboard: CSV import, aggregation and row editing

    A shallow embedding of the data-shaping code of the dashboard pages
    ([BarChartPage], [TreemapPage], [FlowMapPage], [HorizontalChartPage],
    [LineChartPage], [DensityPlotPage]), of the store service they call and
    of the input shaping of the forecasting network, followed by the
    properties proved about them.

    Conventions of the embedding:
    - a JavaScript object used as a record (a CSV row, a form, a stored
      document) is a finite map from property names to values;
    - the dashboards count people, so numbers are integers (exact in double
      arithmetic below 2^53) together with [NaN], which the code branches on;
      the one place where fractions appear, the percentage column, is
      computed with binary64 floats as the source does;
    - an [async] handler is a function from the page state and the store to
      the page state and the store; a store call that rejects is a call whose
      next outcome in the store's script is a fault. *)

From Stdlib Require Import ZArith Ascii String PrimFloat FloatOps SpecFloat Uint63.
From stdpp Require Import gmap strings list pretty sorting.

Local Open Scope Z_scope.

(** ** The JavaScript fragment the pages use *)

Module JS.

(** The numbers of the model are the whole numbers and [NaN]. A number
    of the language is a double: the model follows the pages on the whole
    numbers up to 2^53 in absolute value, among which the arithmetic of
    doubles is the arithmetic of integers; fractions and the infinities
    are outside it. *)
Inductive number := NaN | Num (z : Z).

Inductive value :=
  | undefined
  | null
  | Str (s : string)
  | VNum (n : number).

#[global] Instance number_eq_dec : EqDecision number.
Proof. solve_decision. Defined.

#[global] Instance value_eq_dec : EqDecision value.
Proof. solve_decision. Defined.

Abbreviation obj := (gmap string value).

(** [o[k]]: a missing property reads as [undefined]. *)
Definition get (o : obj) (k : string) : value := default undefined (o !! k).

(** [{ ...o, [k]: v }] and [o[k] = v]. *)
Definition set (o : obj) (k : string) (v : value) : obj := <[k := v]> o.

Definition int (z : Z) : value := VNum (Num z).

(** *** Characters and strings (ASCII) *)

Definition code (c : ascii) : nat := nat_of_ascii c.

(** [\s] and the white space that [trim] and [Number] strip. *)
Definition is_space (c : ascii) : bool :=
  ((9 <=? code c)%nat && (code c <=? 13)%nat) || (code c =? 32)%nat.

Definition is_digit (c : ascii) : bool :=
  (48 <=? code c)%nat && (code c <=? 57)%nat.

Definition is_upper (c : ascii) : bool :=
  (65 <=? code c)%nat && (code c <=? 90)%nat.

Definition is_lower (c : ascii) : bool :=
  (97 <=? code c)%nat && (code c <=? 122)%nat.

Definition lower_char (c : ascii) : ascii :=
  if is_upper c then ascii_of_nat (code c + 32) else c.

Definition upper_char (c : ascii) : ascii :=
  if is_lower c then ascii_of_nat (code c - 32) else c.

Definition chars (s : string) : list ascii := list_ascii_of_string s.
Definition text (l : list ascii) : string := string_of_list_ascii l.

(** [s.toLowerCase()] *)
Definition toLowerCase (s : string) : string :=
  text (lower_char <$> chars s).

(** [s.charAt(0).toUpperCase() + s.slice(1)] *)
Definition capitalize (s : string) : string :=
  match chars s with
  | [] => ""
  | c :: l => text (upper_char c :: l)
  end.

Fixpoint drop_spaces (l : list ascii) : list ascii :=
  match l with
  | c :: l' => if is_space c then drop_spaces l' else l
  | [] => []
  end.

Definition trim_chars (l : list ascii) : list ascii :=
  reverse (drop_spaces (reverse (drop_spaces l))).

(** [s.trim()] *)
Definition trim (s : string) : string := text (trim_chars (chars s)).

(** [s.replace(/\s+/g, ' ')]: every run of white space becomes one space;
    [in_run] tells that the previous character was white space. *)
Fixpoint collapse_spaces (in_run : bool) (l : list ascii) : list ascii :=
  match l with
  | [] => []
  | c :: l' =>
      if is_space c then
        if in_run then collapse_spaces true l'
        else " "%char :: collapse_spaces true l'
      else c :: collapse_spaces false l'
  end.

Definition replace_spaces (s : string) : string :=
  text (collapse_spaces false (chars s)).

(** [s.replace(/([A-Z])/g, ' $1')]: a space before every capital. *)
Fixpoint space_capitals (l : list ascii) : list ascii :=
  match l with
  | [] => []
  | c :: l' =>
      if is_upper c then " "%char :: c :: space_capitals l'
      else c :: space_capitals l'
  end.

Definition replace_capitals (s : string) : string :=
  text (space_capitals (chars s)).

(** [s.replace('-', ' ')]: the first hyphen only. *)
Fixpoint replace_first_hyphen (l : list ascii) : list ascii :=
  match l with
  | [] => []
  | c :: l' =>
      if (code c =? 45)%nat then " "%char :: l'
      else c :: replace_first_hyphen l'
  end.

Definition replace_hyphen (s : string) : string :=
  text (replace_first_hyphen (chars s)).

Fixpoint is_suffix_chars (suf l : list ascii) : bool :=
  bool_decide (suf = l) ||
  match l with
  | [] => false
  | _ :: l' => is_suffix_chars suf l'
  end.

(** [s.endsWith(suf)] *)
Definition endsWith (s suf : string) : bool :=
  is_suffix_chars (chars suf) (chars s).

(** *** Conversions *)

(** [Boolean(v)] *)
Definition ToBoolean (v : value) : bool :=
  match v with
  | undefined | null => false
  | Str s => negb (bool_decide (s = ""))
  | VNum NaN => false
  | VNum (Num z) => negb (z =? 0)
  end.

Fixpoint digits_value (acc : Z) (l : list ascii) : option Z :=
  match l with
  | [] => Some acc
  | c :: l' =>
      if is_digit c
      then digits_value (10 * acc + Z.of_nat (code c - 48)) l'
      else None
  end.

Definition unsigned_literal (l : list ascii) : option Z :=
  match l with
  | [] => None
  | _ => digits_value 0 l
  end.

(** [Number(s)] on a string: white space is stripped, the empty string is
    0, an optionally signed run of decimal digits is that integer.
    Literals that denote values outside the integers of this model
    (fractions, exponents, radix prefixes, [Infinity]) are not recognised
    and read as [NaN], like every other text. *)
Definition StringToNumber (s : string) : number :=
  match trim_chars (chars s) with
  | [] => Num 0
  | c :: l =>
      if (code c =? 45)%nat then
        match unsigned_literal l with Some z => Num (- z) | None => NaN end
      else if (code c =? 43)%nat then
        match unsigned_literal l with Some z => Num z | None => NaN end
      else
        match unsigned_literal (c :: l) with Some z => Num z | None => NaN end
  end.

(** [Number(v)] *)
Definition Number (v : value) : number :=
  match v with
  | undefined => NaN
  | null => Num 0
  | Str s => StringToNumber s
  | VNum n => n
  end.

(** [isNaN(v)] *)
Definition isNaN (v : value) : bool :=
  match Number v with NaN => true | Num _ => false end.

(** [String(n)], in plain decimal digits: the notation of the language
    for whole numbers below 10^21. *)
Definition number_to_string (n : number) : string :=
  match n with
  | NaN => "NaN"
  | Num z => pretty z
  end.

(** [String(v)] *)
Definition ToString (v : value) : string :=
  match v with
  | undefined => "undefined"
  | null => "null"
  | Str s => s
  | VNum n => number_to_string n
  end.

(** *** Operators *)

(** [a || b] *)
Definition orElse (a b : value) : value := if ToBoolean a then a else b.

(** [a + b] on numbers: the sum of the integers, which is the sum of the
    doubles as long as it stays within 2^53 in absolute value. *)
Definition add_number (a b : number) : number :=
  match a, b with
  | Num x, Num y => Num (x + y)
  | _, _ => NaN
  end.

(** [a - b] on numbers *)
Definition sub_number (a b : number) : number :=
  match a, b with
  | Num x, Num y => Num (x - y)
  | _, _ => NaN
  end.

(** [a + b]: concatenation as soon as one side is a string. *)
Definition add (a b : value) : value :=
  match a, b with
  | Str _, _ | _, Str _ => Str (ToString a +:+ ToString b)
  | _, _ => VNum (add_number (Number a) (Number b))
  end.

(** [a === b] on numbers: [NaN] equals nothing. *)
Definition strict_eq_number (a b : number) : bool :=
  match a, b with
  | Num x, Num y => x =? y
  | _, _ => false
  end.

(** [v > n] with a number on the right: numeric comparison, false on
    [NaN]. *)
Definition greater (v : value) (n : Z) : bool :=
  match Number v with
  | Num z => n <? z
  | NaN => false
  end.

(** [Math.max(a, b)] *)
Definition Math_max (a b : number) : number :=
  match a, b with
  | Num x, Num y => Num (Z.max x y)
  | _, _ => NaN
  end.

(** [Math.round(x)]: the numbers of the model are whole already. *)
Definition Math_round (n : number) : number := n.

(** [Object.values(o)], for an object whose own keys are [keys] in the
    order they were first written. *)
Definition ObjectValues (keys : list string) (o : obj) : list value :=
  get o <$> keys.

(** *** [Set] and [Array.prototype.sort] *)

Fixpoint Set_add_all (seen l : list value) : list value :=
  match l with
  | [] => seen
  | x :: l' =>
      if bool_decide (x ∈ seen) then Set_add_all seen l'
      else Set_add_all (seen ++ [x]) l'
  end.

(** [Array.from(new Set(l))]: first occurrences, in insertion order. *)
Definition ArrayFromSet (l : list value) : list value := Set_add_all [] l.

(** A comparator result [v] keeps [a] before [b] unless [v > 0]; a [NaN]
    result counts as 0. *)
Definition keeps_order (v : number) : bool :=
  match v with
  | Num z => z <=? 0
  | NaN => true
  end.

Fixpoint sort_insert {A} (cmp : A -> A -> number) (x : A) (l : list A) : list A :=
  match l with
  | [] => [x]
  | y :: l' =>
      if keeps_order (cmp x y) then x :: y :: l'
      else y :: sort_insert cmp x l'
  end.

(** [l.sort(cmp)]. The language fixes the result only for a consistent
    comparator, and asks for a stable sort; on such a comparator every
    stable sort returns what this insertion sort returns. *)
Definition sort {A} (cmp : A -> A -> number) (l : list A) : list A :=
  foldr (sort_insert cmp) [] l.

(** *** binary64 arithmetic for the percentage column *)

(** The double nearest to an integer (itself below 2^53), for [|z| < 2^63]. *)
Definition Z2float (z : Z) : float :=
  if z <? 0 then PrimFloat.opp (PrimFloat.of_uint63 (Uint63.of_Z (- z)))
  else PrimFloat.of_uint63 (Uint63.of_Z z).

Definition to_float (n : number) : float :=
  match n with
  | NaN => PrimFloat.nan
  | Num z => Z2float z
  end.

(** The integer [n] with [n / 10] nearest to [m * 2^e], the larger one on
    a tie. *)
Definition tenths (m : positive) (e : Z) : Z :=
  if 0 <=? e then 10 * Z.pos m * 2 ^ e
  else (20 * Z.pos m + 2 ^ (- e)) / 2 ^ (1 - e).

Definition fixed_digits (n : Z) : string :=
  pretty (n / 10) +:+ "." +:+ pretty (n mod 10).

(** [x.toFixed(1)], for [|x| < 1e21]. *)
Definition toFixed1 (x : float) : string :=
  match Prim2SF x with
  | S754_nan => "NaN"
  | S754_infinity false => "Infinity"
  | S754_infinity true => "-Infinity"
  | S754_zero _ => "0.0"
  | S754_finite s m e =>
      (if s then "-" else "") +:+ fixed_digits (tenths m e)
  end.

End JS.

Import JS.

(** ** The CSV parser (the PapaParse library, as the pages configure it)

    The pages call [Papa.parse(file, { header: true, skipEmptyLines: true })].
    The library is not part of the repository; this is its documented
    behaviour on plain text: fields separated by commas, rows by line feeds,
    no quoted field, distinct header names. The first row that is not empty
    names the columns, every later row becomes an object, and a row whose
    number of fields differs from the header's is reported in [errors]
    (type [FieldMismatch], code [TooFewFields] or [TooManyFields]) while
    its fields, as far as the header reaches, are still delivered. *)

Module Papa.

Record error := { type : string; code : string; row : nat }.

Record results := { data : list obj; errors : list error }.

Fixpoint split (sep : ascii) (l : list ascii) : list (list ascii) :=
  match l with
  | [] => [[]]
  | c :: l' =>
      if bool_decide (c = sep) then [] :: split sep l'
      else
        match split sep l' with
        | cur :: rest => (c :: cur) :: rest
        | [] => [[c]]
        end
  end.

(** [skipEmptyLines: true] *)
Definition is_empty_line (l : list ascii) : bool := bool_decide (l = []).

Definition lines (s : string) : list (list ascii) :=
  List.filter (fun l => negb (is_empty_line l)) (split "010"%char (chars s)).

Definition fields_of (l : list ascii) : list string :=
  text <$> split ","%char l.

(** [row[header[j]] = fields[j]] for the [j] below both lengths. *)
Definition row_object (header fields : list string) : obj :=
  foldl (fun o kv => set o kv.1 (Str kv.2)) ∅ (zip header fields).

Definition mismatch (header : list string) (i : nat) (fields : list string)
  : list error :=
  if (length header <? length fields)%nat then
    [{| type := "FieldMismatch"; code := "TooManyFields"; row := i |}]
  else if (length fields <? length header)%nat then
    [{| type := "FieldMismatch"; code := "TooFewFields"; row := i |}]
  else [].

Definition parse (s : string) : results :=
  match fields_of <$> lines s with
  | [] => {| data := []; errors := [] |}
  | header :: rows =>
      {| data := row_object header <$> rows;
         errors := concat (imap (mismatch header) rows) |}
  end.

(** A text from its lines, a line feed between two of them. *)
Definition text_of_lines (ls : list string) : string :=
  match ls with
  | [] => ""
  | l :: rest => foldl (fun acc x => acc +:+ String "010"%char x) l rest
  end.

(** The [File] handed to [Papa.parse]: its name, and its text unless
    reading it fails (the [error] callback). *)
Record file := { name : string; contents : option string }.

End Papa.

(** ** The document store and the service module

    [addDoc], [getDocs], [updateDoc] and [deleteDoc] of the store client, on
    one collection. [docs] lists the documents in creation order; [script]
    gives the outcome of the calls to come: a call goes through, or it
    rejects with an error that carries a code (network, permission, ...);
    past the end of the script every call goes through. The store itself
    returns a collection in the order of the document ids, which it draws
    at random; of that order nothing is known here, and [well_formed]
    states what is known of the ids. *)

Module Firestore.

Inductive outcome := fulfilled | rejected (code : string).

Record store := {
  docs : list (string * obj);
  next_id : nat;
  script : list outcome;
}.

(** An empty collection on which every call goes through. *)
Definition empty : store := {| docs := []; next_id := 0; script := [] |}.

(** The outcome the script gives to the next call. *)
Definition next_outcome (s : store) : outcome * store :=
  match script s with
  | [] => (fulfilled, s)
  | o :: rest => (o, {| docs := docs s; next_id := next_id s; script := rest |})
  end.

(** Does the next call reject? *)
Definition rejects (s : store) : bool :=
  match script s with
  | rejected _ :: _ => true
  | _ => false
  end.

(** The store once the next call has had its outcome. *)
Definition spent (s : store) : store :=
  {| docs := docs s; next_id := next_id s; script := tail (script s) |}.

Definition with_docs (d : list (string * obj)) (s : store) : store :=
  {| docs := d; next_id := next_id s; script := script s |}.

(** [addDoc(collection, data)]: a new document under a fresh id. *)
Definition addDoc (data : obj) (s : store) : outcome * store :=
  match next_outcome s with
  | (rejected code, s1) => (rejected code, s1)
  | (fulfilled, s1) =>
      (fulfilled, {| docs := docs s1 ++ [(pretty (next_id s1), data)];
                     next_id := S (next_id s1);
                     script := script s1 |})
  end.

(** [snapshot.docs.map(doc => ({ id: doc.id, ...doc.data() }))] *)
Definition with_id (d : string * obj) : obj := d.2 ∪ {[ "id" := Str d.1 ]}.

Definition getDocs (s : store) : option (list obj) * store :=
  match next_outcome s with
  | (rejected _, s1) => (None, s1)
  | (fulfilled, s1) => (Some (with_id <$> docs s1), s1)
  end.

Definition has_doc (id : string) (s : store) : bool :=
  bool_decide (id ∈ (docs s).*1).

(** [updateDoc(ref, data)]: the fields of [data] are written into the
    document, its other fields stay; rejects with [not-found] when the
    document does not exist. *)
Definition update_in (id : string) (data : obj) (d : string * obj)
  : string * obj :=
  if bool_decide (d.1 = id) then (d.1, data ∪ d.2) else d.

Definition updateDoc (id : string) (data : obj) (s : store) : outcome * store :=
  match next_outcome s with
  | (rejected code, s1) => (rejected code, s1)
  | (fulfilled, s1) =>
      if has_doc id s1
      then (fulfilled, with_docs (update_in id data <$> docs s1) s1)
      else (rejected "not-found", s1)
  end.

(** [deleteDoc(ref)]: deleting a document that does not exist succeeds. *)
Definition deleteDoc (id : string) (s : store) : outcome * store :=
  match next_outcome s with
  | (rejected code, s1) => (rejected code, s1)
  | (fulfilled, s1) =>
      (fulfilled,
       with_docs (List.filter (fun d => negb (bool_decide (d.1 = id))) (docs s1)) s1)
  end.

(** The ids of the documents are ids that the store has given out: no two
    documents share one, and each is the id numbered by some number below
    [next_id], so that the next id given is new. *)
Definition well_formed (s : store) : bool :=
  bool_decide (NoDup (docs s).*1)
  && forallb (fun id => bool_decide (id ∈ pretty <$> seq 0 (next_id s)))
             (docs s).*1.

End Firestore.

(** The service module exports the same four functions once per dataset
    ([addEmigrant], [addEmigrantSex], [addEmigrantAge], [addEmigrantOccu],
    [addEmigrantEdu], [addEmigrantCountry], and so on), each on its own
    collection; a page only ever touches its own. *)

Module emigrantsService.

Definition addEmigrant := Firestore.addDoc.
Definition getEmigrants := Firestore.getDocs.
Definition updateEmigrant := Firestore.updateDoc.
Definition deleteEmigrant := Firestore.deleteDoc.

End emigrantsService.

(** ** The code the six pages repeat

    Every page keeps the same state and has the same handlers; what changes
    from page to page is the list of categories, the test a CSV row must
    pass, how its year is read, the header spellings tried for a category,
    and the message shown when an update rejects. These are the parameters
    of the section; each page module below fixes them to what its source
    has. The other message texts are those of [BarChartPage] (some pages
    end them with a full stop). [showMessage] also arms a timer that blanks
    the message three seconds later; the timer is not part of the model. *)

Module Page.

Import Firestore emigrantsService.

Record message := { text : string; type : string }.

Record state := {
  records : list obj;      (* [emigrants], [records] or [data] *)
  selectedYear : string;
  editingId : value;
  editForm : obj;
  csvFileName : string;
  msg : message;
  loading : bool;
  form : obj;
}.

Definition setRecords (v : list obj) (st : state) : state :=
  {| records := v; selectedYear := selectedYear st; editingId := editingId st;
     editForm := editForm st; csvFileName := csvFileName st; msg := msg st;
     loading := loading st; form := form st |}.

Definition setSelectedYear (v : string) (st : state) : state :=
  {| records := records st; selectedYear := v; editingId := editingId st;
     editForm := editForm st; csvFileName := csvFileName st; msg := msg st;
     loading := loading st; form := form st |}.

Definition setEditingId (v : value) (st : state) : state :=
  {| records := records st; selectedYear := selectedYear st; editingId := v;
     editForm := editForm st; csvFileName := csvFileName st; msg := msg st;
     loading := loading st; form := form st |}.

Definition setEditForm (v : obj) (st : state) : state :=
  {| records := records st; selectedYear := selectedYear st;
     editingId := editingId st; editForm := v; csvFileName := csvFileName st;
     msg := msg st; loading := loading st; form := form st |}.

Definition setCsvFileName (v : string) (st : state) : state :=
  {| records := records st; selectedYear := selectedYear st;
     editingId := editingId st; editForm := editForm st; csvFileName := v;
     msg := msg st; loading := loading st; form := form st |}.

Definition setMessage (v : message) (st : state) : state :=
  {| records := records st; selectedYear := selectedYear st;
     editingId := editingId st; editForm := editForm st;
     csvFileName := csvFileName st; msg := v; loading := loading st;
     form := form st |}.

Definition setLoading (v : bool) (st : state) : state :=
  {| records := records st; selectedYear := selectedYear st;
     editingId := editingId st; editForm := editForm st;
     csvFileName := csvFileName st; msg := msg st; loading := v;
     form := form st |}.

Definition setForm (v : obj) (st : state) : state :=
  {| records := records st; selectedYear := selectedYear st;
     editingId := editingId st; editForm := editForm st;
     csvFileName := csvFileName st; msg := msg st; loading := loading st;
     form := v |}.

Definition showMessage (t ty : string) (st : state) : state :=
  setMessage {| text := t; type := ty |} st.

(** The state a page mounts with, before its first fetch. *)
Definition initial (defaultForm : obj) : state :=
  {| records := []; selectedYear := "All"; editingId := null; editForm := ∅;
     csvFileName := ""; msg := {| text := ""; type := "" |};
     loading := false; form := defaultForm |}.

Definition fetchData (st : state) (s : store) : state * store :=
  let st1 := setLoading true st in
  match getEmigrants s with
  | (Some fetched, s1) => (setLoading false (setRecords fetched st1), s1)
  | (None, s1) =>
      (setLoading false (showMessage "❌ Error fetching data" "error" st1), s1)
  end.

Definition handleChange (name v : string) (st : state) : state :=
  setForm (set (form st) name (Str v)) st.

Definition handleEditChange (name v : string) (st : state) : state :=
  setEditForm (set (editForm st) name (Str v)) st.

Definition handleCancel (st : state) : state :=
  setEditForm ∅ (setEditingId null st).

(** [window.confirm] answers [confirmed]. *)
Definition handleDelete (confirmed : bool) (id : string)
    (st : state) (s : store) : state * store :=
  if negb confirmed then (st, s)
  else
    match deleteEmigrant id s with
    | (fulfilled, s1) =>
        let (st2, s2) := fetchData st s1 in
        (showMessage "🗑️ Record deleted successfully!" "success" st2, s2)
    | (rejected _, s1) => (showMessage "❌ Error deleting record." "error" st, s1)
    end.

(** [for (const record of records) { await addEmigrant(record); }]: the
    loop stops at the first call that rejects. *)
Fixpoint addAll (recs : list obj) (s : store) : outcome * store :=
  match recs with
  | [] => (fulfilled, s)
  | r :: rest =>
      match addEmigrant r s with
      | (fulfilled, s1) => addAll rest s1
      | (rejected code, s1) => (rejected code, s1)
      end
  end.

(** The message Save shows when the update rejects, whatever the error, on
    every page but the education one. *)
Definition updateFailed (code : string) : string := "❌ Error updating record".

(** [Number(v) || 0] *)
Definition NumberOr0 (v : value) : value := orElse (VNum (Number v)) (int 0).

(** [row[h1] || row[h2] || ... || 0] *)
Definition firstOf (row : obj) (hs : list string) : value :=
  foldr (fun h rest => orElse (get row h) rest) (int 0) hs.

(** What the user can do on a page: type in the add form or in the row
    being edited, press a button, pick a file, pick a year. *)
Inductive event :=
  | Change (name v : string)
  | EditChange (name v : string)
  | ClickAdd
  | ClickEdit (r : obj)
  | ClickSave (id : string)
  | ClickCancel
  | ClickDelete (confirmed : bool) (id : string)
  | Upload (file : option Papa.file)
  | SelectYear (v : string).

Section Handlers.

(** A category: the name its form field carries and the field it is
    stored under (the same on every page but the education one). *)
Context (columns : list (string * string)).
Context (defaultForm : obj).
Context (rowValid : obj -> bool) (rowYear : obj -> value).
Context (headers : string * string -> list string).

(** The message Save shows for an update rejected with a given error code:
    the same for every code, except on the education page. *)
Context (failureMessage : string -> string).

(** [getRecordFromForm] ([convertToSafeData] on the education page; the
    civil-status and sex pages write it inline in [handleAdd] and
    [handleSave]). *)
Definition getRecordFromForm (sourceForm : obj) : obj :=
  foldl (fun record c => set record c.2 (NumberOr0 (get sourceForm c.1)))
        {[ "year" := VNum (Number (get sourceForm "year")) ]} columns.

Definition handleAdd (st : state) (s : store) : state * store :=
  if negb (ToBoolean (get (form st) "year")) then
    (showMessage "❌ Year is required" "error" st, s)
  else
    match addEmigrant (getRecordFromForm (form st)) s with
    | (fulfilled, s1) =>
        let (st2, s2) := fetchData (setForm defaultForm st) s1 in
        (showMessage "✅ Record added successfully!" "success" st2, s2)
    | (rejected _, s1) => (showMessage "❌ Error adding record" "error" st, s1)
    end.

(** The text-valued form of a record ([convertToDisplayData]). *)
Definition formState (r : obj) : obj :=
  foldl (fun f c => set f c.1 (Str (ToString (orElse (get r c.2) (Str "")))))
        {[ "year" := Str (ToString (orElse (get r "year") (Str ""))) ]} columns.

Definition handleEdit (r : obj) (st : state) : state :=
  setEditForm (formState r) (setEditingId (get r "id") st).

Definition handleSave (id : string) (st : state) (s : store) : state * store :=
  match updateEmigrant id (getRecordFromForm (editForm st)) s with
  | (fulfilled, s1) =>
      let (st2, s2) := fetchData (setEditForm ∅ (setEditingId null st)) s1 in
      (showMessage "✅ Record updated successfully!" "success" st2, s2)
  | (rejected code, s1) => (showMessage (failureMessage code) "error" st, s1)
  end.

(** The record built from an accepted CSV row. *)
Definition recordFromRow (row : obj) : obj :=
  foldl (fun record c => set record c.2 (NumberOr0 (firstOf row (headers c))))
        {[ "year" := rowYear row ]} columns.

(** [results.data.filter(...).map(...)] *)
Definition recordsToAdd (rows : list obj) : list obj :=
  recordFromRow <$> List.filter rowValid rows.

(** The [complete] callback of [Papa.parse]. *)
Definition complete (results : Papa.results) (st : state) (s : store)
  : state * store :=
  if (0 <? length (Papa.errors results))%nat then
    (setCsvFileName "" (showMessage "❌ Error parsing CSV file" "error" st), s)
  else
    let recs := recordsToAdd (Papa.data results) in
    match addAll recs s with
    | (fulfilled, s1) =>
        let st1 := showMessage
          ("✅ " +:+ pretty (length recs) +:+ " records uploaded successfully!")
          "success" st in
        let (st2, s2) := fetchData st1 s1 in
        (setCsvFileName "" st2, s2)
    | (rejected _, s1) =>
        (setCsvFileName "" (showMessage "❌ Error processing CSV data" "error" st), s1)
    end.

(** [handleCSVUpload], on [e.target.files[0]]. *)
Definition handleCSVUpload (file : option Papa.file) (st : state) (s : store)
  : state * store :=
  match file with
  | None => (setCsvFileName "" st, s)
  | Some f =>
      if negb (endsWith (toLowerCase (Papa.name f)) ".csv") then
        (showMessage "❌ Please select a CSV file" "error" st, s)
      else
        let st1 := setCsvFileName (Papa.name f) st in
        match Papa.contents f with
        | Some txt => complete (Papa.parse txt) st1 s
        | None =>
            (setCsvFileName "" (showMessage "❌ Error reading CSV file" "error" st1), s)
        end
  end.

(** The handler each control is wired to. *)
Definition step (p : state * store) (e : event) : state * store :=
  match e with
  | Change name v => (handleChange name v p.1, p.2)
  | EditChange name v => (handleEditChange name v p.1, p.2)
  | ClickAdd => handleAdd p.1 p.2
  | ClickEdit r => (handleEdit r p.1, p.2)
  | ClickSave id => handleSave id p.1 p.2
  | ClickCancel => (handleCancel p.1, p.2)
  | ClickDelete confirmed id => handleDelete confirmed id p.1 p.2
  | Upload file => handleCSVUpload file p.1 p.2
  | SelectYear v => (setSelectedYear v p.1, p.2)
  end.

Definition run (es : list event) (p : state * store) : state * store :=
  foldl step p es.

(** Typing into the row being edited: one [EditChange] per keystroke. *)
Definition typing (edits : list (string * string)) : list event :=
  (fun e => EditChange e.1 e.2) <$> edits.

End Handlers.

(** [Array.from(new Set(records.map(r => r.year).filter(Boolean))).map(Number)],
    then [ys.sort((a, b) => a - b)]. *)
Definition years (recs : list obj) : list number :=
  sort sub_number
    (Number <$> ArrayFromSet (List.filter ToBoolean ((fun r => get r "year") <$> recs))).

Definition filteredRecords (recs : list obj) (selected : string) : list obj :=
  if bool_decide (selected = "All") then recs
  else List.filter
         (fun r => strict_eq_number (Number (get r "year")) (Number (Str selected)))
         recs.

(** [records.reduce((sum, item) => sum + (item[field] || 0), 0)] *)
Definition total (recs : list obj) (field : string) : value :=
  foldl (fun sum item => add sum (orElse (get item field) (int 0))) (int 0) recs.

(** The year selector: [<option value={y}>] hands [String(y)] to
    [setSelectedYear]. *)
Definition option_value (y : number) : string := number_to_string y.


(** The summary card of the age, occupation, education and destination
    pages. A category is the pair of the key it is shown under and the field
    it is stored under:
    [fields.forEach(f => { totalBy[f] = records.reduce((sum, record) => sum +
    (record[f] || 0), 0); })],
    [grandTotal = Object.values(totalBy).reduce((sum, value) => sum + value, 0)],
    [{ ...totalBy, total: grandTotal }]. *)
Definition totalBy (columns : list (string * string)) (recs : list obj) : obj :=
  foldl (fun o c => set o c.1 (total recs c.2)) ∅ columns.

Definition grandTotal (columns : list (string * string)) (recs : list obj)
  : value :=
  foldl (fun sum v => add sum v) (int 0)
        (ObjectValues columns.*1 (totalBy columns recs)).

Definition totals (columns : list (string * string)) (recs : list obj) : obj :=
  set (totalBy columns recs) "total" (grandTotal columns recs).

End Page.

(** ** The pages *)

(** Civil status ([src/pages/BarChartPage.jsx]). *)
Module BarChartPage.

Definition civilStatusFields : list string :=
  ["single"; "married"; "widower"; "separated"; "divorced"; "notReported"].

Definition allFormFields : list string := "year" :: civilStatusFields.

Definition columns : list (string * string) :=
  (fun f => (f, f)) <$> civilStatusFields.

Definition defaultForm : obj :=
  list_to_map ((fun f => (f, Str "")) <$> allFormFields).

(** [row.year && !isNaN(Number(row.year))] *)
Definition rowValid (row : obj) : bool :=
  ToBoolean (get row "year") && negb (isNaN (get row "year")).

(** [Number(row.year)] *)
Definition rowYear (row : obj) : value := VNum (Number (get row "year")).

(** [row[field]], [row[Field]], [row[field.replace(/([A-Z])/g, ' $1').trim()]] *)
Definition headers (c : string * string) : list string :=
  [c.1; capitalize c.1; trim (replace_capitals c.1)].

Definition getRecordFromForm := Page.getRecordFromForm columns.
Definition handleAdd := Page.handleAdd columns defaultForm.
Definition handleEdit := Page.handleEdit columns.
Definition handleSave := Page.handleSave columns Page.updateFailed.
Definition handleCancel := Page.handleCancel.
Definition recordFromRow := Page.recordFromRow columns rowYear headers.
Definition recordsToAdd := Page.recordsToAdd columns rowValid rowYear headers.
Definition complete := Page.complete columns rowValid rowYear headers.
Definition handleCSVUpload := Page.handleCSVUpload columns rowValid rowYear headers.
Definition years := Page.years.
Definition filteredRecords := Page.filteredRecords.

(** The page as the user drives it, one event after the other. *)
Definition run :=
  Page.run columns defaultForm rowValid rowYear headers Page.updateFailed.

(** [filteredRecords.reduce((acc, cur) => { civilStatusFields.forEach(field
    => { acc[field] += cur[field] || 0; }); return acc; }, { single: 0, ... })] *)
Definition totals (filtered : list obj) : obj :=
  foldl (fun acc cur =>
           foldl (fun acc field =>
                    set acc field (add (get acc field) (orElse (get cur field) (int 0))))
                 acc civilStatusFields)
        (list_to_map ((fun f => (f, int 0)) <$> civilStatusFields))
        filtered.

End BarChartPage.

(** Sex (the second component of [src/pages/FlowMapPage.jsx]). *)
Module LineChartPage.

Definition sexFields : list string := ["male"; "female"].

Definition columns : list (string * string) := (fun f => (f, f)) <$> sexFields.

Definition rowValid : obj -> bool := BarChartPage.rowValid.
Definition rowYear : obj -> value := BarChartPage.rowYear.

(** [row[field]], [row[Field]] *)
Definition headers (c : string * string) : list string :=
  [c.1; capitalize c.1].

Definition recordFromRow := Page.recordFromRow columns rowYear headers.
Definition recordsToAdd := Page.recordsToAdd columns rowValid rowYear headers.
Definition complete := Page.complete columns rowValid rowYear headers.

(** [(a, b) => a.year - b.year] *)
Definition byYear (a b : obj) : number :=
  sub_number (Number (get a "year")) (Number (get b "year")).

(** [[...emigrants].sort((a, b) => a.year - b.year)] *)
Definition sortedEmigrants (emigrants : list obj) : list obj :=
  sort byYear emigrants.

(** [sortedEmigrants.reduce((acc, cur) => { acc.male += cur.male || 0;
    acc.female += cur.female || 0;
    acc.total += (cur.male || 0) + (cur.female || 0); return acc; },
    { male: 0, female: 0, total: 0 })] *)
Definition totals (emigrants : list obj) : obj :=
  foldl (fun acc cur =>
           let acc1 :=
             set acc "male" (add (get acc "male") (orElse (get cur "male") (int 0))) in
           let acc2 :=
             set acc1 "female"
                 (add (get acc1 "female") (orElse (get cur "female") (int 0))) in
           set acc2 "total"
               (add (get acc2 "total")
                    (add (orElse (get cur "male") (int 0))
                         (orElse (get cur "female") (int 0)))))
        {[ "male" := int 0; "female" := int 0; "total" := int 0 ]}
        (sortedEmigrants emigrants).

End LineChartPage.

(** Age (the second component of [src/pages/BarChartPage.jsx]). *)
Module DensityPlotPage.

Definition ageGroups : list string :=
  ["14-Below"; "15-19"; "20-24"; "25-29"; "30-34"; "35-39"; "40-44";
   "45-49"; "50-54"; "55-59"; "60-64"; "65-69"; "70-above"].

Definition columns : list (string * string) := (fun f => (f, f)) <$> ageGroups.

Definition rowValid : obj -> bool := BarChartPage.rowValid.
Definition rowYear : obj -> value := BarChartPage.rowYear.

(** [row[group]], [row[group.replace('-', ' ')]], [row[group.toLowerCase()]] *)
Definition headers (c : string * string) : list string :=
  [c.1; replace_hyphen c.1; toLowerCase c.1].

Definition recordFromRow := Page.recordFromRow columns rowYear headers.
Definition recordsToAdd := Page.recordsToAdd columns rowValid rowYear headers.
Definition complete := Page.complete columns rowValid rowYear headers.

Definition filteredRecords := Page.filteredRecords.

(** The summary card; it is computed from all the records, whatever year
    is selected. *)
Definition totals := Page.totals columns.

(** A point of the density plot. *)
Record point := { ageGroup : string; total : value }.

(** [ageGroups.map(ageGroup => ({ ageGroup, total: filteredRecords.reduce(
    (sum, emigrant) => sum + (emigrant[ageGroup] || 0), 0) }))] *)
Definition densityData (filtered : list obj) : list point :=
  (fun g => {| ageGroup := g; total := Page.total filtered g |}) <$> ageGroups.

End DensityPlotPage.

(** Occupation ([TreemapPage], [src/unnamed/part_000]). *)
Module TreemapPage.

Definition occuFields : list string :=
  ["Professional"; "Managerial"; "Clerical"; "Sales"; "Service";
   "Agriculture"; "Production"; "Armed Forces"; "Housewives"; "Retirees";
   "Students"; "Minors"; "Out of School Youth"; "No Occupation Reported"].

Definition allFormFields : list string := "year" :: occuFields.

Definition columns : list (string * string) := (fun f => (f, f)) <$> occuFields.

Definition defaultForm : obj :=
  list_to_map ((fun f => (f, Str "")) <$> allFormFields).

(** [row.year || row.Year] *)
Definition rowValid (row : obj) : bool :=
  ToBoolean (orElse (get row "year") (get row "Year")).

(** [Number(row.year || row.Year) || 0] *)
Definition rowYear (row : obj) : value :=
  Page.NumberOr0 (orElse (get row "year") (get row "Year")).

(** [row[field]], [row[field.toLowerCase()]],
    [row[field.replace(/\s+/g, ' ').toLowerCase()]] *)
Definition headers (c : string * string) : list string :=
  [c.1; toLowerCase c.1; toLowerCase (replace_spaces c.1)].

Definition getRecordFromForm := Page.getRecordFromForm columns.
Definition handleAdd := Page.handleAdd columns defaultForm.
Definition handleEdit := Page.handleEdit columns.
Definition handleSave := Page.handleSave columns Page.updateFailed.
Definition handleCancel := Page.handleCancel.
Definition recordFromRow := Page.recordFromRow columns rowYear headers.
Definition recordsToAdd := Page.recordsToAdd columns rowValid rowYear headers.
Definition complete := Page.complete columns rowValid rowYear headers.
Definition handleCSVUpload := Page.handleCSVUpload columns rowValid rowYear headers.
Definition years := Page.years.
Definition filteredRecords := Page.filteredRecords.


(** The summary card, computed from all the records. *)
Definition totals := Page.totals columns.

(** [filteredRecords.reduce((acc, cur) => { occuFields.forEach(f => {
    const value = Math.max(Number(cur[f]) || 0, 0);
    acc[f] = (acc[f] || 0) + value; }); return acc; },
    Object.fromEntries(occuFields.map(f => [f, 0])))] *)
Definition rawTotals (filtered : list obj) : obj :=
  foldl (fun acc cur =>
           foldl (fun acc f =>
                    let value :=
                      VNum (Math_max (Number (Page.NumberOr0 (get cur f))) (Num 0)) in
                    set acc f (add (orElse (get acc f) (int 0)) value))
                 acc occuFields)
        (list_to_map ((fun f => (f, int 0)) <$> occuFields))
        filtered.

(** [Object.values(rawTotals || {}).reduce((a, b) => a + (b || 0), 0)] *)
Definition totalRaw (rawTotals : obj) : value :=
  foldl (fun a b => add a (orElse b (int 0))) (int 0)
        (ObjectValues occuFields rawTotals).

(** A tile of the treemap: its label, the size it is drawn with and the
    count it stands for. *)
Record tile := { name : string; size : JS.value; value : JS.value }.

(** [(a, b) => b.value - a.value] *)
Definition byValueDescending (a b : tile) : number :=
  sub_number (Number (value b)) (Number (value a)).

(** [occuFields.filter(f => (rawTotals[f] || 0) > 0).map(f => ({ name: f,
    size: normalizedTotals[f], value: Math.round(rawTotals[f] || 0) }))
    .sort((a, b) => b.value - a.value)]; the memo reads [rawTotals] and
    [normalizedTotals]. *)
Definition chartData (rawTotals normalizedTotals : obj) : list tile :=
  sort byValueDescending
    ((fun f => {| name := f;
                  size := get normalizedTotals f;
                  value := VNum (Math_round (Number (orElse (get rawTotals f) (int 0)))) |})
       <$> List.filter (fun f => greater (orElse (get rawTotals f) (int 0)) 0) occuFields).

End TreemapPage.

(** Education ([src/pages/HorizontalChartPage.jsx]). *)
Module HorizontalChartPage.

(** Display name and the field it is stored under. *)
Definition eduFieldMappings : list (string * string) :=
  [("Not of Schooling Age", "notOfSchoolingAge");
   ("No Formal Education", "noFormalEducation");
   ("Elementary Level", "elementaryLevel");
   ("Elementary Graduate", "elementaryGraduate");
   ("High School Level", "highSchoolLevel");
   ("High School Graduate", "highSchoolGraduate");
   ("Vocational Level", "vocationalLevel");
   ("Vocational Graduate", "vocationalGraduate");
   ("College Level", "collegeLevel");
   ("College Graduate", "collegeGraduate");
   ("Post Graduate Level", "postGraduateLevel");
   ("Post Graduate", "postGraduate");
   ("Non-Formal Education", "nonFormalEducation");
   ("Not Reported / No Response", "notReportedNoResponse")].

Definition eduDisplayNames : list string := eduFieldMappings.*1.
Definition eduSafeFields : list string := eduFieldMappings.*2.

Definition rowValid : obj -> bool := TreemapPage.rowValid.
Definition rowYear : obj -> value := TreemapPage.rowYear.

(** [row[displayName]], [row[safeField]], [row[displayName.toLowerCase()]],
    [row[safeField.toLowerCase()]] *)
Definition headers (c : string * string) : list string :=
  [c.1; c.2; toLowerCase c.1; toLowerCase c.2].

Definition convertToSafeData := Page.getRecordFromForm eduFieldMappings.
Definition convertToDisplayData := Page.formState eduFieldMappings.
Definition handleEdit := Page.handleEdit eduFieldMappings.

(** The message for the [error.code] of a rejected update; an error without
    code has the empty code here. *)
Definition errorMessage (code : string) : string :=
  if bool_decide (code = "") then "❌ Error updating record"
  else if bool_decide (code = "not-found") then "❌ Record not found in database"
  else if bool_decide (code = "permission-denied")
       then "❌ Permission denied - check Firebase rules"
  else if bool_decide (code = "invalid-argument")
       then "❌ Invalid data format - check field names"
  else "❌ Database error: " +:+ code.

(** [handleSave] checks the id and the year before it sends anything. *)
Definition handleSave (id : string) (st : Page.state) (s : Firestore.store)
  : Page.state * Firestore.store :=
  if bool_decide (id = "") then
    (Page.showMessage "❌ Error: No record ID found" "error" st, s)
  else if negb (ToBoolean (get (Page.editForm st) "year"))
          || isNaN (get (Page.editForm st) "year") then
    (Page.showMessage "❌ Please enter a valid year" "error" st, s)
  else Page.handleSave eduFieldMappings errorMessage id st s.
Definition recordFromRow := Page.recordFromRow eduFieldMappings rowYear headers.
Definition recordsToAdd := Page.recordsToAdd eduFieldMappings rowValid rowYear headers.
Definition complete := Page.complete eduFieldMappings rowValid rowYear headers.

Definition allFormFields : list string := "year" :: eduDisplayNames.

Definition defaultForm : obj :=
  list_to_map ((fun f => (f, Str "")) <$> allFormFields).

Definition handleAdd := Page.handleAdd eduFieldMappings defaultForm.

(** The controls of this page are wired as on every page, Save to the
    page's own [handleSave]. *)
Definition step (p : Page.state * Firestore.store) (e : Page.event)
  : Page.state * Firestore.store :=
  match e with
  | Page.ClickSave id => handleSave id p.1 p.2
  | _ => Page.step eduFieldMappings defaultForm rowValid rowYear headers
                   errorMessage p e
  end.

Definition run (es : list Page.event) (p : Page.state * Firestore.store)
  : Page.state * Firestore.store :=
  foldl step p es.

Definition filteredRecords := Page.filteredRecords.

(** The summary card, computed from all the records and keyed by the
    display names. *)
Definition totals := Page.totals eduFieldMappings.

(** A bar of the chart. *)
Record bar := { name : string; total : value }.

(** [(a, b) => a.total - b.total] *)
Definition byTotal (a b : bar) : number :=
  sub_number (Number (total a)) (Number (total b)).

(** [eduDisplayNames.map(displayName => ({ name: displayName,
    total: filteredRecords.reduce((sum, item) => sum + (item[safeField] || 0),
    0) })).sort((a, b) => a.total - b.total)] *)
Definition chartData (filtered : list obj) : list bar :=
  sort byTotal
    ((fun c => {| name := c.1; total := Page.total filtered c.2 |})
       <$> eduFieldMappings).

End HorizontalChartPage.

(** Destination country ([src/pages/FlowMapPage.jsx]). *)
Module FlowMapPage.

Definition countries : list string :=
  ["USA"; "CANADA"; "JAPAN"; "AUSTRALIA"; "ITALY"; "NEW ZEALAND";
   "UNITED KINGDOM"; "GERMANY"; "SOUTH KOREA"; "SPAIN"; "OTHERS"].

Definition columns : list (string * string) := (fun f => (f, f)) <$> countries.

(** [row.year || row.Year || row.YEAR] *)
Definition rowValid (row : obj) : bool :=
  ToBoolean (orElse (orElse (get row "year") (get row "Year")) (get row "YEAR")).

(** [Number(row.year || row.Year || row.YEAR) || 0] *)
Definition rowYear (row : obj) : value :=
  Page.NumberOr0 (orElse (orElse (get row "year") (get row "Year")) (get row "YEAR")).

Definition headers : string * string -> list string := TreemapPage.headers.

Definition recordFromRow := Page.recordFromRow columns rowYear headers.
Definition recordsToAdd := Page.recordsToAdd columns rowValid rowYear headers.
Definition complete := Page.complete columns rowValid rowYear headers.
Definition years := Page.years.
Definition filteredRecords := Page.filteredRecords.

(** [countries.forEach(country => { total += filteredRecords.reduce(...) })] *)
Definition totalEmigrants (data : list obj) (selectedYear : string) : value :=
  foldl (fun total country =>
           add total (Page.total (filteredRecords data selectedYear) country))
        (int 0) countries.

(** [totalEmigrants > 0 ? ((total / totalEmigrants) * 100).toFixed(1) : 0] *)
Definition share (total totalEmigrants : value) : value :=
  if greater totalEmigrants 0 then
    Str (toFixed1
           (PrimFloat.mul
              (PrimFloat.div (to_float (Number total))
                             (to_float (Number totalEmigrants)))
              (Z2float 100)))
  else int 0.

(** The [percentage] of a row of the country table. *)
Definition percentage (data : list obj) (selectedYear country : string) : value :=
  share (Page.total (filteredRecords data selectedYear) country)
        (totalEmigrants data selectedYear).


(** The summary card, computed from all the records. *)
Definition totals := Page.totals columns.

End FlowMapPage.

(** ** The specification's wording

    The definitions the properties below compare the code with: what the
    specification calls the total of a category, the grand total, the
    percentage, the year list, the test of an imported row and the column
    spellings. *)

Module Spec.

(** A stored value that is a number or is absent (missing, [null], the
    empty string): no text. Every record the pages write is like that. *)
Definition is_count (v : value) : bool :=
  match v with
  | Str s => bool_decide (s = "")
  | _ => true
  end.

Definition numeric_year (r : obj) : Prop := is_count (get r "year") = true.

Definition numeric_fields (fields : list string) (r : obj) : Prop :=
  Forall (fun f => is_count (get r f) = true) fields.

(** [record[category]], "treating missing fields as 0". *)
Definition count (r : obj) (f : string) : Z :=
  match get r f with
  | VNum (Num z) => z
  | _ => 0
  end.

(** "total(category) = sum of record[category] over the selected records" *)
Definition total (recs : list obj) (f : string) : Z :=
  foldr (fun r acc => count r f + acc) 0 recs.

(** "grandTotal = sum of total(category) over all categories" *)
Definition grandTotal (recs : list obj) (fields : list string) : Z :=
  foldr (fun f acc => total recs f + acc) 0 fields.

(** "percentage(category) = total(category) / grandTotal * 100, rounded to
    1 decimal; defined as 0 when grandTotal = 0" *)
Definition percentage (t g : Z) : value :=
  if g =? 0 then int 0
  else Str (toFixed1 (PrimFloat.mul (PrimFloat.div (Z2float t) (Z2float g))
                                    (Z2float 100))).

(** "sorted ascending set of all record.year values present" *)
Definition distinctYears (recs : list obj) : list number :=
  sort sub_number (Number <$> ArrayFromSet ((fun r => get r "year") <$> recs)).

(** "a non-empty, numeric-coercible year value", under "any of several
    case variants of the header name: year, Year, YEAR" *)
Definition hasNumericYear (row : obj) : bool :=
  existsb (fun k => ToBoolean (get row k) && negb (isNaN (get row k)))
          ["year"; "Year"; "YEAR"].

(** "the canonical category name verbatim, then a lower-cased variant,
    then a whitespace-collapsed-lower-cased variant" *)
Definition spellings (f : string) : list string :=
  [f; toLowerCase f; toLowerCase (replace_spaces f)].

(** "Save converts every field back to a number (non-numeric -> 0)" *)
Definition savedField (editForm : obj) (name : string) : value :=
  Page.NumberOr0 (get editForm name).

End Spec.

(** ** The forecasting models ([src/forecasting/models/mlpModel.js])

    The models are built and trained by a tensor library; what the file
    computes itself is the shape of the input. A sample is an array of
    time steps, a time step an array of feature values. *)

Module mlpModel.

(** [X.map(seq => seq.flat())] *)
Definition flattenSequences {A} (X : list (list (list A))) : list (list A) :=
  (fun seq => concat seq) <$> X.

(** [const inputSize = lookback * features] *)
Definition inputSize (lookback features : nat) : nat := (lookback * features)%nat.

End mlpModel.

(** ** Whole numbers read off a value

    What the properties of the tables and charts measure records with: the
    test that a stored value is a number, the whole number that
    [Number(v) || 0] makes of any value, and sums over a list of records. *)

Module Reading.

(** The value is a number, and not [NaN]. *)
Definition is_int (v : value) : bool :=
  match v with
  | VNum (Num _) => true
  | _ => false
  end.

(** Every field of [fields] holds a number. *)
Definition whole (fields : list string) (r : obj) : bool :=
  forallb (fun f => is_int (get r f)) fields.

(** Every record holds a number in every field of [fields]. *)
Definition all_whole (fields : list string) (recs : list obj) : bool :=
  forallb (whole fields) recs.

(** [Number(v) || 0], as an integer. *)
Definition numberOr0 (v : value) : Z :=
  match Number v with
  | Num z => z
  | NaN => 0
  end.

(** The sum of [Math.max(Number(r[f]) || 0, 0)] over the records. *)
Definition clamped (recs : list obj) (f : string) : Z :=
  foldr (fun r acc => Z.max (numberOr0 (get r f)) 0 + acc) 0 recs.

(** A whole number within the range in which every whole number is a
    double, so that a sum of whole numbers which stays within it is the
    same in the double arithmetic of the pages and here. *)
Definition exact (z : Z) : bool := Z.abs z <=? 2 ^ 53.

(** The sum of the absolute values of a field over the records: a bound of
    every sum of that field over some of the records, in any order. *)
Definition mass (recs : list obj) (f : string) : Z :=
  foldr (fun r acc => Z.abs (Spec.count r f) + acc) 0 recs.

(** The year of a record, 0 when it is not a number. *)
Definition year (r : obj) : Z := numberOr0 (get r "year").

Definition sum (zs : list Z) : Z := foldr Z.add 0 zs.

End Reading.


(** * Properties *)

(** ** Reading back a printed number *)

Section Printing.

Lemma digits_value_app l1 l2 acc :
  digits_value acc (l1 ++ l2)
  = match digits_value acc l1 with
    | Some a => digits_value a l2
    | None => None
    end.
Proof.
  revert acc. induction l1 as [|c l1 IH]; intros acc; [done|].
  cbn. destruct (is_digit c); [apply IH|done].
Qed.

Lemma pretty_N_char_digit x :
  (x < 10)%N →
  is_digit (pretty_N_char x) = true ∧
  Z.of_nat (code (pretty_N_char x) - 48) = Z.of_N x ∧
  is_space (pretty_N_char x) = false.
Proof.
  intros Hx.
  assert (x = 0 ∨ x = 1 ∨ x = 2 ∨ x = 3 ∨ x = 4 ∨ x = 5 ∨ x = 6
          ∨ x = 7 ∨ x = 8 ∨ x = 9)%N as Hc by lia.
  repeat destruct Hc as [->|Hc]; try subst x; done.
Qed.

(** The decimal digits [pretty] puts before [s], read back. *)
Lemma pretty_N_go_digits x : ∀ s,
  ∃ d, chars (pretty_N_go x s) = d ++ chars s ∧
       Forall (fun c => is_digit c = true ∧ is_space c = false) d ∧
       ((0 < x)%N → d ≠ []) ∧
       ∀ acc, digits_value acc d = Some (acc * 10 ^ Z.of_nat (length d) + Z.of_N x).
Proof.
  induction (N.lt_wf_0 x) as [x _ IH]; intros s.
  destruct (decide (x = 0)%N) as [->|Hx].
  - exists []. rewrite pretty_N_go_0. repeat split; [done|lia|].
    intros acc. cbn. f_equal. lia.
  - rewrite pretty_N_go_step by lia.
    destruct (IH (x `div` 10)%N) with (s := String (pretty_N_char (x `mod` 10)) s)
      as (d & Hd & Hall & _ & Hval).
    { apply N.div_lt; lia. }
    destruct (pretty_N_char_digit (x `mod` 10)%N) as (Hdig & Hcode & Hsp).
    { apply N.mod_lt. lia. }
    exists (d ++ [pretty_N_char (x `mod` 10)]). repeat split.
    + rewrite Hd. cbn. by rewrite <- app_assoc.
    + apply Forall_app. split; [done|]. by repeat constructor.
    + intros _. by destruct d.
    + intros acc. rewrite digits_value_app, Hval. cbn. rewrite Hdig, Hcode.
      f_equal. rewrite length_app. cbn.
      rewrite Nat2Z.inj_add, Z.pow_add_r by lia.
      pose proof (N.div_mod x 10).
      assert (Z.of_N x = 10 * Z.of_N (x `div` 10) + Z.of_N (x `mod` 10)) by lia.
      lia.
Qed.

Lemma drop_spaces_id l :
  (∀ c, head l = Some c → is_space c = false) → drop_spaces l = l.
Proof. destruct l as [|c l]; [done|]. intros H. cbn. by rewrite (H c). Qed.

Lemma trim_chars_id l :
  Forall (fun c => is_space c = false) l → trim_chars l = l.
Proof.
  intros Hl. unfold trim_chars.
  rewrite (drop_spaces_id l).
  2:{ intros c Hc. destruct l; simplify_eq/=. by inversion Hl. }
  rewrite drop_spaces_id; [apply reverse_involutive|].
  intros c Hc. apply head_Some_elem_of in Hc.
  rewrite elem_of_reverse in Hc. rewrite Forall_forall in Hl. by apply Hl.
Qed.

Lemma digit_is_no_sign c :
  is_digit c = true → (code c =? 45)%nat = false ∧ (code c =? 43)%nat = false.
Proof.
  unfold is_digit. intros [?%Nat.leb_le ?%Nat.leb_le]%andb_true_iff.
  split; apply Nat.eqb_neq; lia.
Qed.

Lemma StringToNumber_positive (p : positive) :
  StringToNumber (pretty (Z.pos p)) = Num (Z.pos p).
Proof.
  unfold pretty, pretty_Z, pretty, pretty_positive, pretty, pretty_N.
  cbn [decide]. case_decide; [done|].
  destruct (pretty_N_go_digits (N.pos p) "") as (d & Hd & Hall & Hne & Hval).
  unfold StringToNumber. rewrite Hd. cbn [chars list_ascii_of_string].
  rewrite app_nil_r. rewrite trim_chars_id.
  2:{ eapply Forall_impl; [exact Hall|]. by intros ? []. }
  destruct d as [|c d]; [by destruct Hne|].
  inversion Hall as [|?? [Hc _] _]; subst.
  destruct (digit_is_no_sign c Hc) as [-> ->].
  unfold unsigned_literal. rewrite Hval. f_equal; cbn; lia.
Qed.

Lemma StringToNumber_negative (p : positive) :
  StringToNumber (pretty (Z.neg p)) = Num (Z.neg p).
Proof.
  unfold pretty, pretty_Z, pretty, pretty_positive, pretty, pretty_N.
  cbn [decide]. case_decide; [done|].
  destruct (pretty_N_go_digits (N.pos p) "") as (d & Hd & Hall & Hne & Hval).
  unfold StringToNumber.
  change (chars ("-" +:+ pretty_N_go (N.pos p) ""))
    with ("-"%char :: chars (pretty_N_go (N.pos p) "")).
  rewrite Hd. cbn [chars list_ascii_of_string].
  rewrite app_nil_r. rewrite trim_chars_id.
  2:{ constructor; [done|]. eapply Forall_impl; [exact Hall|]. by intros ? []. }
  cbn. destruct d as [|c d]; [by destruct Hne|].
  unfold unsigned_literal. rewrite Hval. f_equal; cbn; lia.
Qed.

(** The year selector hands back the year it shows:
    [Number(String(y))] is [y]. *)
Lemma Number_option_value n : Number (Str (Page.option_value n)) = n.
Proof.
  destruct n as [|[|p|p]]; [done|done|..]; cbn.
  - apply StringToNumber_positive.
  - apply StringToNumber_negative.
Qed.

Lemma option_value_not_All n : Page.option_value n ≠ "All".
Proof.
  intros H. pose proof (Number_option_value n) as Hn. rewrite H in Hn.
  destruct n as [|z]; [by rewrite <- H in Hn|]. discriminate Hn.
Qed.

End Printing.

(** ** The store *)

Section Store.

Import Firestore emigrantsService Page.

Lemma next_outcome_spent s :
  next_outcome s
  = (match script s with rejected c :: _ => rejected c | _ => fulfilled end, spent s).
Proof. unfold next_outcome, spent. destruct s as [d n [|[|c] sc]]; done. Qed.

Lemma addDoc_ok data s :
  rejects s = false →
  addDoc data s =
    (fulfilled, {| docs := docs s ++ [(pretty (next_id s), data)];
                   next_id := S (next_id s);
                   script := tail (script s) |}).
Proof.
  unfold addDoc, rejects. rewrite next_outcome_spent. unfold spent.
  destruct (script s) as [|[|c] sc]; done.
Qed.

Lemma addDoc_fault data s code rest :
  script s = rejected code :: rest →
  addDoc data s
  = (rejected code, {| docs := docs s; next_id := next_id s; script := rest |}).
Proof. unfold addDoc, next_outcome. intros ->. done. Qed.

(** No call rejects: every record is stored, in the order of the list. *)
Lemma addAll_ok recs : ∀ s,
  Forall (eq fulfilled) (take (length recs) (script s)) →
  addAll recs s =
    (fulfilled,
     {| docs := docs s ++ zip (pretty <$> seq (next_id s) (length recs)) recs;
        next_id := (next_id s + length recs)%nat;
        script := drop (length recs) (script s) |}).
Proof.
  induction recs as [|r recs IH]; intros s Hs.
  - cbn. rewrite app_nil_r, Nat.add_0_r. by destruct s.
  - cbn [addAll]. unfold addEmigrant. rewrite addDoc_ok.
    2:{ unfold rejects. destruct (script s) as [|[|c] ?]; cbn in *; [done..|].
        by inversion Hs. }
    rewrite IH; cbn.
    + f_equal. f_equal.
      * rewrite <- app_assoc. reflexivity.
      * lia.
      * destruct (script s); cbn; [by rewrite !drop_nil|done].
    + destruct (script s) as [|b sc]; cbn in *; [by rewrite take_nil|].
      by inversion Hs.
Qed.

(** The call for record [k] rejects: the [k] records before it are stored
    and stay, the loop ends there. *)
Lemma addAll_fault recs : ∀ s k code rest,
  script s = replicate k fulfilled ++ rejected code :: rest →
  (k < length recs)%nat →
  addAll recs s =
    (rejected code,
     {| docs := docs s ++ zip (pretty <$> seq (next_id s) k) (take k recs);
        next_id := (next_id s + k)%nat;
        script := rest |}).
Proof.
  induction recs as [|r recs IH]; intros s k code rest Hs Hk; [cbn in Hk; lia|].
  destruct k as [|k]; cbn in Hs.
  - cbn [addAll]. unfold addEmigrant. rewrite (addDoc_fault _ _ code rest Hs).
    cbn. by rewrite app_nil_r, Nat.add_0_r.
  - cbn [addAll]. unfold addEmigrant.
    rewrite addDoc_ok by (unfold rejects; by rewrite Hs).
    rewrite (IH _ k code rest); cbn.
    + f_equal. f_equal; [rewrite <- app_assoc; reflexivity | lia].
    + by rewrite Hs.
    + cbn in Hk. lia.
Qed.

Lemma fetchData_store st s : (fetchData st s).2 = spent s.
Proof.
  unfold fetchData, getEmigrants, getDocs. rewrite next_outcome_spent.
  destruct (script s) as [|[|c] sc]; done.
Qed.

Lemma fetchData_state st s :
  editingId (fetchData st s).1 = editingId st ∧
  editForm (fetchData st s).1 = editForm st ∧
  (rejects s = false → records (fetchData st s).1 = with_id <$> docs s).
Proof.
  unfold fetchData, getEmigrants, getDocs, rejects. rewrite next_outcome_spent.
  destruct (script s) as [|[|c] sc]; done.
Qed.

Lemma updateDoc_outcome id data s :
  updateDoc id data s
  = match script s with
    | rejected code :: _ => (rejected code, spent s)
    | _ =>
        if has_doc id s
        then (fulfilled, with_docs (update_in id data <$> docs s) (spent s))
        else (rejected "not-found", spent s)
    end.
Proof.
  unfold updateDoc. rewrite next_outcome_spent.
  destruct (script s) as [|[|c] sc]; done.
Qed.

Lemma union_covered (payload old : obj) :
  dom old ⊆ dom payload → payload ∪ old = payload.
Proof.
  intros Hdom. apply map_eq. intros k. rewrite lookup_union.
  destruct (payload !! k) eqn:Hp; [by destruct (old !! k)|].
  destruct (old !! k) eqn:Ho; [|done].
  assert (k ∈ dom payload) as Hk by (apply Hdom, elem_of_dom; eauto).
  apply elem_of_dom in Hk as [? Hk]. congruence.
Qed.

End Store.

(** ** The year list *)

Section Years.

Import Page.

Lemma Set_add_all_elem l : ∀ seen x,
  x ∈ Set_add_all seen l ↔ x ∈ seen ∨ x ∈ l.
Proof.
  induction l as [|y l IH]; intros seen x; cbn.
  - rewrite elem_of_nil. tauto.
  - case_bool_decide as Hy.
    + rewrite IH, elem_of_cons. intuition congruence.
    + rewrite IH, elem_of_app, list_elem_of_singleton, elem_of_cons. tauto.
Qed.

Lemma Set_add_all_NoDup l : ∀ seen, NoDup seen → NoDup (Set_add_all seen l).
Proof.
  induction l as [|y l IH]; intros seen Hs; cbn; [done|].
  case_bool_decide as Hy; apply IH; [done|].
  apply NoDup_app. repeat split; [done| |apply NoDup_singleton].
  intros x Hx ->%list_elem_of_singleton. done.
Qed.

Lemma ArrayFromSet_elem l x : x ∈ ArrayFromSet l ↔ x ∈ l.
Proof. unfold ArrayFromSet. rewrite Set_add_all_elem, elem_of_nil. tauto. Qed.

Lemma ArrayFromSet_NoDup l : NoDup (ArrayFromSet l).
Proof. apply Set_add_all_NoDup, NoDup_nil_2. Qed.

Lemma sort_insert_perm {A} (cmp : A → A → number) x l :
  sort_insert cmp x l ≡ₚ x :: l.
Proof.
  induction l as [|y l IH]; cbn; [done|].
  destruct (keeps_order (cmp x y)); [done|].
  rewrite IH. apply perm_swap.
Qed.

Lemma sort_perm {A} (cmp : A → A → number) l : sort cmp l ≡ₚ l.
Proof.
  induction l as [|x l IH]; cbn; [done|].
  rewrite sort_insert_perm. by rewrite IH.
Qed.

Lemma sort_insert_Num x zs :
  StronglySorted Z.le zs →
  ∃ zs', sort_insert sub_number (Num x) (Num <$> zs) = Num <$> zs' ∧
         zs' ≡ₚ x :: zs ∧ StronglySorted Z.le zs'.
Proof.
  induction zs as [|y zs IH]; intros Hs.
  - exists [x]. repeat split; [done|]. repeat constructor.
  - inversion Hs as [|?? Hs' Hy]; subst. cbn.
    destruct (x - y <=? 0) eqn:Hxy.
    + exists (x :: y :: zs). repeat split; [done|].
      constructor; [done|]. constructor; [lia|].
      eapply Forall_impl; [exact Hy|]. cbn. lia.
    + destruct (IH Hs') as (zs' & Heq & Hp & Hsorted).
      exists (y :: zs'). rewrite Heq. repeat split.
      * rewrite Hp. apply perm_swap.
      * constructor; [done|]. rewrite Hp. constructor; [lia|done].
Qed.

(** On numbers without [NaN] the comparator [(a, b) => a - b] is
    consistent, and the sort puts them in ascending order. *)
Lemma sort_Num zs :
  ∃ zs', sort sub_number (Num <$> zs) = Num <$> zs' ∧
         zs' ≡ₚ zs ∧ StronglySorted Z.le zs'.
Proof.
  induction zs as [|x zs (zs1 & Heq & Hp & Hs)].
  - exists []. repeat split; constructor.
  - cbn. unfold sort in Heq. rewrite Heq.
    destruct (sort_insert_Num x zs1 Hs) as (zs2 & Heq2 & Hp2 & Hs2).
    exists zs2. repeat split; [done| |done]. by rewrite Hp2, Hp.
Qed.

Lemma sorted_le_NoDup_lt zs :
  StronglySorted Z.le zs → NoDup zs → StronglySorted Z.lt zs.
Proof.
  induction 1 as [|x zs Hs IH Hx]; intros Hnd; [constructor|].
  apply NoDup_cons in Hnd as [Hnotin Hnd].
  constructor; [by apply IH|].
  rewrite Forall_forall in Hx |- *. intros y Hy.
  specialize (Hx y Hy). assert (x ≠ y) by (intros ->; done). lia.
Qed.

Lemma truthy_count v :
  ToBoolean v = true → Spec.is_count v = true → ∃ z, v = int z ∧ z ≠ 0.
Proof.
  destruct v as [| |s|[|z]]; try done.
  - cbn. intros Hs Hs'. apply bool_decide_eq_true_1 in Hs'.
    by rewrite Hs' in Hs.
  - intros Hz _. exists z. split; [done|].
    cbn in Hz. apply negb_true_iff, Z.eqb_neq in Hz. done.
Qed.

Lemma all_ints (l : list value) :
  Forall (fun v => ∃ z, v = int z) l → ∃ zs, l = int <$> zs.
Proof.
  induction 1 as [|v l [z ->] _ [zs ->]]; [by exists []|by exists (z :: zs)].
Qed.

(** The members of the year list, whatever the stored years are. *)
Lemma years_elem recs n :
  n ∈ years recs ↔
  ∃ r, r ∈ recs ∧ ToBoolean (get r "year") = true ∧ Number (get r "year") = n.
Proof.
  unfold years. rewrite sort_perm, list_elem_of_fmap.
  setoid_rewrite ArrayFromSet_elem.
  setoid_rewrite list_elem_of_In. setoid_rewrite filter_In.
  setoid_rewrite <- list_elem_of_In. setoid_rewrite list_elem_of_fmap.
  split.
  - intros (v & -> & (r & -> & Hr) & Hv). eauto.
  - intros (r & Hr & Hv & <-). eauto 10.
Qed.

Lemma years_ascending recs :
  Forall Spec.numeric_year recs →
  ∃ zs, years recs = Num <$> zs ∧ StronglySorted Z.lt zs ∧
        ∀ z, z ∈ zs ↔ z ≠ 0 ∧ ∃ r, r ∈ recs ∧ get r "year" = int z.
Proof.
  intros Hnum. unfold years.
  set (ys := List.filter ToBoolean ((fun r => get r "year") <$> recs)).
  assert (Forall (fun v => ∃ z, v = int z ∧ z ≠ 0) ys) as Hys.
  { rewrite Forall_forall. intros v Hv.
    apply list_elem_of_In, filter_In in Hv as [Hv Ht].
    apply list_elem_of_In, list_elem_of_fmap in Hv as (r & -> & Hr).
    rewrite Forall_forall in Hnum. by apply truthy_count, Hnum. }
  assert (Forall (fun v => ∃ z, v = int z) (ArrayFromSet ys)) as Hset.
  { rewrite Forall_forall. intros v Hv. rewrite ArrayFromSet_elem in Hv.
    rewrite Forall_forall in Hys. destruct (Hys v Hv) as (z & -> & _). eauto. }
  destruct (all_ints _ Hset) as [zs1 Hzs1].
  rewrite Hzs1, <- list_fmap_compose.
  change (Number ∘ int) with Num.
  destruct (sort_Num zs1) as (zs & -> & Hp & Hs).
  exists zs. split; [done|]. split.
  - apply sorted_le_NoDup_lt; [done|]. rewrite Hp.
    pose proof (ArrayFromSet_NoDup ys) as Hnd. rewrite Hzs1 in Hnd.
    by apply NoDup_fmap_1 in Hnd.
  - intros z. rewrite Hp.
    assert (z ∈ zs1 ↔ int z ∈ ArrayFromSet ys) as ->.
    { rewrite Hzs1. rewrite list_elem_of_fmap. split; [eauto|].
      intros (z' & [= ->] & ?). done. }
    rewrite ArrayFromSet_elem. unfold ys.
    rewrite list_elem_of_In, filter_In, <- list_elem_of_In, list_elem_of_fmap.
    cbn. rewrite negb_true_iff, Z.eqb_neq.
    split; [intros [(r & ? & ?) ?]|intros [? (r & ? & ?)]]; eauto.
Qed.

Lemma years_drop_falsy l1 r l2 :
  ToBoolean (get r "year") = false →
  years (l1 ++ r :: l2) = years (l1 ++ l2).
Proof.
  intros Hr. unfold years. do 3 f_equal.
  rewrite !fmap_app, fmap_cons, !List.filter_app. cbn. by rewrite Hr.
Qed.

Lemma falsy_year_Number (r : obj) :
  ToBoolean (get r "year") = false →
  Number (get r "year") = NaN ∨ Number (get r "year") = Num 0.
Proof.
  destruct (get r "year") as [| |s|[|z]]; cbn; auto.
  - intros Hs. apply negb_false_iff, bool_decide_eq_true_1 in Hs. subst. auto.
  - intros Hz. apply negb_false_iff, Z.eqb_eq in Hz. subst. auto.
Qed.

End Years.

(** ** Totals *)

Section Totals.

Import Page.

Lemma or_count r f :
  Spec.is_count (get r f) = true →
  orElse (get r f) (int 0) = int (Spec.count r f).
Proof.
  unfold Spec.count, orElse. destruct (get r f) as [| |s|[|z]]; try done.
  - cbn. intros ->%bool_decide_eq_true_1. done.
  - intros _. cbn. destruct (Z.eqb_spec z 0) as [->|]; done.
Qed.

Lemma total_from a recs f :
  Forall (fun r => Spec.is_count (get r f) = true) recs →
  foldl (fun sum item => add sum (orElse (get item f) (int 0))) (int a) recs
  = int (a + Spec.total recs f).
Proof.
  revert a. induction recs as [|r recs IH]; intros a Hall.
  - cbn. apply (f_equal int). lia.
  - inversion Hall; subst. cbn [foldl]. rewrite or_count by done.
    change (add (int a) (int (Spec.count r f))) with (int (a + Spec.count r f)).
    rewrite IH by done. apply (f_equal int). cbn [Spec.total foldr].
    fold (Spec.total recs f). lia.
Qed.

(** On records holding numbers the running sum of the code is the total of
    the specification. *)
Lemma total_numeric recs f :
  Forall (fun r => Spec.is_count (get r f) = true) recs →
  total recs f = int (Spec.total recs f).
Proof. intros H. unfold total. by rewrite total_from. Qed.

Lemma total_insert l1 r l2 f :
  Spec.total (l1 ++ r :: l2) f = Spec.total (l1 ++ l2) f + Spec.count r f.
Proof.
  induction l1 as [|x l1 IH]; cbn; [lia|].
  fold (Spec.total (l1 ++ r :: l2) f). fold (Spec.total (l1 ++ l2) f). lia.
Qed.

Lemma filteredRecords_Forall (P : obj → Prop) recs y :
  Forall P recs → Forall P (filteredRecords recs y).
Proof.
  unfold filteredRecords. case_bool_decide; [done|].
  rewrite !Forall_forall. intros Hall r Hr.
  apply list_elem_of_In, filter_In in Hr as [Hr _]. by apply Hall, list_elem_of_In.
Qed.

Lemma numeric_field fields recs f :
  Forall (Spec.numeric_fields fields) recs → f ∈ fields →
  Forall (fun r => Spec.is_count (get r f) = true) recs.
Proof.
  intros H Hf. eapply Forall_impl; [exact H|].
  intros r Hr. unfold Spec.numeric_fields in Hr.
  rewrite Forall_forall in Hr. by apply Hr.
Qed.

Lemma grand_from fields : ∀ a recs all,
  Forall (Spec.numeric_fields all) recs → fields ⊆ all →
  foldl (fun t c => add t (total recs c)) (int a) fields
  = int (a + Spec.grandTotal recs fields).
Proof.
  induction fields as [|f fields IH]; intros a recs all Hnum Hsub.
  - cbn. apply (f_equal int). lia.
  - cbn [foldl]. rewrite (total_numeric recs f).
    2:{ eapply numeric_field; [done|]. apply Hsub. by left. }
    change (add (int a) (int (Spec.total recs f))) with (int (a + Spec.total recs f)).
    rewrite (IH _ _ all); [|done|].
    + apply (f_equal int). cbn [Spec.grandTotal foldr].
      fold (Spec.grandTotal recs fields). lia.
    + intros x Hx. apply Hsub. by right.
Qed.

Lemma totalEmigrants_numeric data y :
  Forall (Spec.numeric_fields FlowMapPage.countries) data →
  FlowMapPage.totalEmigrants data y
  = int (Spec.grandTotal (filteredRecords data y) FlowMapPage.countries).
Proof.
  intros H. unfold FlowMapPage.totalEmigrants, FlowMapPage.filteredRecords.
  rewrite (grand_from _ 0 _ FlowMapPage.countries); [done| |done].
  by apply filteredRecords_Forall.
Qed.

Lemma inner_totals (cur : obj) fields : ∀ (acc : obj) f,
  NoDup fields →
  get (foldl (fun acc field =>
                set acc field (add (get acc field) (orElse (get cur field) (int 0))))
             acc fields) f
  = if bool_decide (f ∈ fields)
    then add (get acc f) (orElse (get cur f) (int 0)) else get acc f.
Proof.
  induction fields as [|x fields IH]; intros acc f Hnd; [done|].
  apply NoDup_cons in Hnd as [Hx Hnd]. cbn [foldl]. rewrite IH by done.
  unfold set, get. destruct (decide (f = x)) as [->|Hne].
  - rewrite (bool_decide_eq_false_2 _ Hx).
    rewrite bool_decide_eq_true_2 by left. by rewrite lookup_insert_eq.
  - rewrite lookup_insert_ne by done.
    destruct (decide (f ∈ fields)) as [Hin|Hnin].
    + rewrite !bool_decide_eq_true_2; [done|by right|done].
    + rewrite !bool_decide_eq_false_2; [done| |done].
      rewrite elem_of_cons. tauto.
Qed.

Lemma NoDup_by_computation (l : list string) :
  bool_decide (NoDup l) = true → NoDup l.
Proof. apply bool_decide_eq_true_1. Qed.

Lemma totals_from recs : ∀ (acc : obj) f,
  f ∈ BarChartPage.civilStatusFields →
  get (foldl (fun acc cur =>
           foldl (fun acc field =>
                    set acc field (add (get acc field) (orElse (get cur field) (int 0))))
                 acc BarChartPage.civilStatusFields) acc recs) f
  = foldl (fun sum item => add sum (orElse (get item f) (int 0))) (get acc f) recs.
Proof.
  induction recs as [|r recs IH]; intros acc f Hf; [done|].
  cbn [foldl]. rewrite IH by done. f_equal.
  rewrite inner_totals by (by apply NoDup_by_computation).
  by rewrite bool_decide_eq_true_2.
Qed.

(** Each entry of [totals] is the running sum of its field. *)
Lemma totals_total recs f :
  f ∈ BarChartPage.civilStatusFields →
  get (BarChartPage.totals recs) f = total recs f.
Proof.
  intros Hf. unfold BarChartPage.totals. rewrite totals_from by done.
  unfold total. f_equal.
  revert Hf. unfold BarChartPage.civilStatusFields.
  rewrite !elem_of_cons, elem_of_nil.
  intros [->|[->|[->|[->|[->|[->|[]]]]]]]; done.
Qed.

End Totals.

(** ** Rows and columns *)

Section Rows.

Import Page.

Lemma orElse_true a b :
  ToBoolean (orElse a b) = true ↔ ToBoolean a = true ∨ ToBoolean b = true.
Proof.
  unfold orElse. destruct (ToBoolean a) eqn:Ha; [tauto|].
  split; [tauto|]. intros [?|?]; [done|done].
Qed.

Lemma firstOf_falsy (row : obj) hs :
  (∀ k, k ∈ hs → ToBoolean (get row k) = false) → firstOf row hs = int 0.
Proof.
  induction hs as [|k hs IH]; intros H; [done|].
  cbn. unfold orElse at 1. rewrite H by left.
  apply IH. intros k' Hk'. apply H. by right.
Qed.

Lemma firstOf_only (row : obj) hs v :
  (∀ k, k ∈ hs → get row k = v ∨ ToBoolean (get row k) = false) →
  (∃ k, k ∈ hs ∧ get row k = v) →
  firstOf row hs = orElse v (int 0).
Proof.
  destruct (ToBoolean v) eqn:Hv.
  - induction hs as [|k hs IH]; intros Hall (k' & Hk' & Hget).
    + by apply elem_of_nil in Hk'.
    + cbn. destruct (Hall k) as [Hk|Hk]; [by left| |].
      * rewrite Hk. unfold orElse. by rewrite Hv.
      * unfold orElse at 1. rewrite Hk. apply IH.
        -- intros k2 Hk2. apply Hall. by right.
        -- apply elem_of_cons in Hk' as [->|Hk']; [congruence|eauto].
  - intros Hall _. unfold orElse. rewrite Hv. apply firstOf_falsy.
    intros k Hk. destruct (Hall k Hk) as [->|?]; done.
Qed.

(** A value under one of the spellings tried and nothing under the others:
    which spelling it is does not matter. *)
Lemma firstOf_set (row : obj) hs h v :
  h ∈ hs → (∀ k, k ∈ hs → ToBoolean (get row k) = false) →
  firstOf (set row h v) hs = orElse v (int 0).
Proof.
  intros Hh Hrow. apply firstOf_only.
  - intros k Hk. unfold set, get. destruct (decide (k = h)) as [->|Hne].
    + left. by rewrite lookup_insert_eq.
    + right. rewrite lookup_insert_ne by done. by apply Hrow.
  - exists h. split; [done|]. unfold set, get. by rewrite lookup_insert_eq.
Qed.

Lemma same_columns (fields : list string) f :
  f ∈ fields → (f, f) ∈ (fun f => (f, f)) <$> fields.
Proof. intros Hf. apply list_elem_of_fmap. eauto. Qed.

Lemma fold_columns_get (mk : string * string → value) cols : ∀ (acc : obj) c,
  NoDup cols.*2 → c ∈ cols →
  get (foldl (fun record c => set record c.2 (mk c)) acc cols) c.2 = mk c.
Proof.
  induction cols as [|x cols IH] using rev_ind; intros acc c Hnd Hc.
  - by apply elem_of_nil in Hc.
  - rewrite foldl_app. cbn. rewrite fmap_app in Hnd.
    apply NoDup_app in Hnd as (Hnd & Hdisj & _).
    apply elem_of_app in Hc as [Hc|Hc].
    + unfold set, get at 1. rewrite lookup_insert_ne.
      * by apply IH.
      * intros Heq. apply (Hdisj c.2).
        -- apply list_elem_of_fmap. eauto.
        -- cbn. rewrite <- Heq. by left.
    + apply list_elem_of_singleton in Hc as ->.
      unfold set, get. by rewrite lookup_insert_eq.
Qed.

Lemma fold_columns_other (mk : string * string → value) cols : ∀ (acc : obj) k,
  k ∉ cols.*2 →
  get (foldl (fun record c => set record c.2 (mk c)) acc cols) k = get acc k.
Proof.
  induction cols as [|x cols IH]; intros acc k Hk; [done|].
  rewrite fmap_cons, not_elem_of_cons in Hk. destruct Hk as [Hx Hk].
  cbn [foldl]. rewrite IH by done.
  unfold set, get. by rewrite lookup_insert_ne.
Qed.

Section Columns.

Context (columns : list (string * string)).
Context (rowValid : obj -> bool) (rowYear : obj -> value).
Context (headers : string * string -> list string).

Lemma recordFromRow_field row c :
  NoDup columns.*2 → c ∈ columns →
  get (recordFromRow columns rowYear headers row) c.2
  = NumberOr0 (firstOf row (headers c)).
Proof.
  intros Hnd Hc. unfold recordFromRow.
  by rewrite (fold_columns_get (fun c => NumberOr0 (firstOf row (headers c)))).
Qed.

Lemma getRecordFromForm_field sourceForm c :
  NoDup columns.*2 → c ∈ columns →
  get (getRecordFromForm columns sourceForm) c.2
  = NumberOr0 (get sourceForm c.1).
Proof.
  intros Hnd Hc. unfold getRecordFromForm.
  by rewrite (fold_columns_get (fun c => NumberOr0 (get sourceForm c.1))).
Qed.

Lemma getRecordFromForm_year sourceForm :
  "year" ∉ columns.*2 →
  get (getRecordFromForm columns sourceForm) "year"
  = VNum (Number (get sourceForm "year")).
Proof.
  intros H. unfold getRecordFromForm.
  by rewrite (fold_columns_other (fun c => NumberOr0 (get sourceForm c.1))).
Qed.

Lemma recordFromRow_year row :
  "year" ∉ columns.*2 →
  get (recordFromRow columns rowYear headers row) "year" = rowYear row.
Proof.
  intros H. unfold recordFromRow.
  rewrite (fold_columns_other (fun c => NumberOr0 (firstOf row (headers c)))) by done.
  done.
Qed.

Lemma recordsToAdd_elem rows rec :
  rec ∈ recordsToAdd columns rowValid rowYear headers rows ↔
  ∃ row, row ∈ rows ∧ rowValid row = true ∧
         rec = recordFromRow columns rowYear headers row.
Proof.
  unfold recordsToAdd. rewrite list_elem_of_fmap.
  setoid_rewrite list_elem_of_In. setoid_rewrite filter_In.
  split; intros (row & ? & ?); exists row; tauto.
Qed.

End Columns.

End Rows.

(** ** The aggregator *)

Section Aggregator.

Import Page.

(** C1, as amended. On records that hold numbers, the total of a country is
    the sum of its field over the records shown, [totalEmigrants] is the sum
    of these totals over all countries, and the percentage column shows
    total / grand total * 100 to one decimal ([toFixed(1)]) when the grand
    total is positive, and 0 when it is zero or negative: the division is
    guarded by [totalEmigrants > 0]. *)
Theorem percentage_guarded data selectedYear country :
  Forall (Spec.numeric_fields FlowMapPage.countries) data →
  country ∈ FlowMapPage.countries →
  let shown := FlowMapPage.filteredRecords data selectedYear in
  let t := Spec.total shown country in
  let g := Spec.grandTotal shown FlowMapPage.countries in
  total shown country = int t ∧
  FlowMapPage.totalEmigrants data selectedYear = int g ∧
  (0 < g → FlowMapPage.percentage data selectedYear country = Spec.percentage t g) ∧
  (g <= 0 → FlowMapPage.percentage data selectedYear country = int 0).
Proof.
  intros Hnum Hc shown t g.
  assert (total shown country = int t) as Ht.
  { apply total_numeric. eapply numeric_field; [|done].
    by apply filteredRecords_Forall. }
  assert (FlowMapPage.totalEmigrants data selectedYear = int g) as Hg.
  { by apply totalEmigrants_numeric. }
  split; [done|]. split; [done|].
  unfold FlowMapPage.percentage. fold shown. rewrite Ht, Hg.
  unfold FlowMapPage.share, greater, Spec.percentage. cbn [Number int].
  split; intros Hgt.
  - assert ((0 <? g) = true) as -> by lia. assert ((g =? 0) = false) as -> by lia. done.
  - assert ((0 <? g) = false) as -> by lia. done.
Qed.

(** One record with 1 emigrant to the USA and 2 to Canada: a third, 33.3;
    one record with none: 0. *)
Lemma percentage_guarded_witness :
  Forall (Spec.numeric_fields FlowMapPage.countries)
         [ ({[ "year" := int 2020; "USA" := int 1; "CANADA" := int 2 ]} : obj) ] ∧
  "USA" ∈ FlowMapPage.countries ∧
  FlowMapPage.percentage
    [ {[ "year" := int 2020; "USA" := int 1; "CANADA" := int 2 ]} ] "All" "USA"
  = Str "33.3" ∧
  FlowMapPage.percentage [ {[ "year" := int 2020 ]} ] "2020" "USA" = int 0.
Proof.
  assert ("USA" ∈ FlowMapPage.countries) as Hin by (by left).
  assert (Forall (Spec.numeric_fields FlowMapPage.countries)
            [ ({[ "year" := int 2020; "USA" := int 1; "CANADA" := int 2 ]} : obj) ])
    as H1 by (repeat constructor).
  assert (Forall (Spec.numeric_fields FlowMapPage.countries)
            [ ({[ "year" := int 2020 ]} : obj) ])
    as H0 by (repeat constructor).
  split; [exact H1|]. split; [exact Hin|]. split.
  - destruct (percentage_guarded _ "All" "USA" H1 Hin) as (_ & _ & Hpos & _).
    rewrite Hpos; [vm_compute; reflexivity|]. vm_compute. reflexivity.
  - destruct (percentage_guarded _ "2020" "USA" H0 Hin) as (_ & _ & _ & Hzero).
    apply Hzero. vm_compute. discriminate.
Defined.

(** What [toFixed(1)] makes of a third, and of 3 in 2000: the double for
    0.15 lies below 0.15. *)
Lemma percentage_examples :
  FlowMapPage.share (int 1) (int 3) = Str "33.3" ∧
  FlowMapPage.share (int 2) (int 3) = Str "66.7" ∧
  FlowMapPage.share (int 3) (int 2000) = Str "0.1" ∧
  FlowMapPage.share (int 5) (int 5) = Str "100.0" ∧
  FlowMapPage.share (int 0) (int 0) = int 0.
Proof. repeat split. Qed.

(** C1, the claim as stated fails: with a negative grand total (5 returns
    entered for the USA against 2 departures to Canada) the specification's
    percentage is 166.7, the page shows 0. *)
Lemma percentage_negative_grand_total :
  total (FlowMapPage.filteredRecords
           [ {[ "year" := int 2020; "USA" := int (-5); "CANADA" := int 2 ]} ] "All")
        "USA" = int (-5) ∧
  FlowMapPage.totalEmigrants
    [ {[ "year" := int 2020; "USA" := int (-5); "CANADA" := int 2 ]} ] "All"
  = int (-3) ∧
  Spec.percentage (-5) (-3) = Str "166.7" ∧
  FlowMapPage.percentage
    [ {[ "year" := int 2020; "USA" := int (-5); "CANADA" := int 2 ]} ] "All" "USA"
  = int 0.
Proof. repeat split. Qed.

(** C6, as amended. When the stored years are numbers (or absent), the
    year list is strictly ascending, hence sorted and free of duplicates
    however many records share a year; its members are exactly the years
    of the records that are not 0 (a falsy year is filtered out before the
    [Set] is built); and it does not depend on the selected year. *)
Theorem year_list recs :
  Forall Spec.numeric_year recs →
  ∃ zs, BarChartPage.years recs = Num <$> zs ∧ StronglySorted Z.lt zs ∧
        (∀ z, z ∈ zs ↔ z ≠ 0 ∧ ∃ r, r ∈ recs ∧ get r "year" = int z) ∧
        (∀ st selected, records st = recs →
           TreemapPage.years (records (setSelectedYear selected st))
           = BarChartPage.years recs).
Proof.
  intros H. destruct (years_ascending recs H) as (zs & Hzs & Hs & Hmem).
  exists zs. split; [exact Hzs|]. split; [exact Hs|]. split; [exact Hmem|].
  intros st selected <-. done.
Qed.

(** Five records: 2020 twice, 2019, a year 0 and a record without year. *)
Lemma year_list_witness :
  Forall Spec.numeric_year
    [ ({[ "year" := int 2020 ]} : obj); {[ "year" := int 2019 ]};
      {[ "year" := int 2020 ]}; {[ "year" := int 0 ]}; ∅ ] ∧
  BarChartPage.years
    [ {[ "year" := int 2020 ]}; {[ "year" := int 2019 ]};
      {[ "year" := int 2020 ]}; {[ "year" := int 0 ]}; ∅ ]
  = [Num 2019; Num 2020] ∧
  ∃ zs, BarChartPage.years
          [ {[ "year" := int 2020 ]}; {[ "year" := int 2019 ]};
            {[ "year" := int 2020 ]}; {[ "year" := int 0 ]}; ∅ ]
        = Num <$> zs ∧ StronglySorted Z.lt zs.
Proof.
  assert (Forall Spec.numeric_year
    [ ({[ "year" := int 2020 ]} : obj); {[ "year" := int 2019 ]};
      {[ "year" := int 2020 ]}; {[ "year" := int 0 ]}; ∅ ]) as H
    by (repeat constructor).
  split; [exact H|]. split; [vm_compute; reflexivity|].
  destruct (year_list _ H) as (zs & Hzs & Hs & _). by exists zs.
Defined.

(** C6, the claim as stated fails: a record of year 0 has its year among
    the year values present, and not in the list. *)
Lemma year_zero_not_listed :
  Spec.distinctYears [ {[ "year" := int 0; "single" := int 5 ]} ] = [Num 0] ∧
  BarChartPage.years [ {[ "year" := int 0; "single" := int 5 ]} ] = [].
Proof. repeat split. Qed.

(** C10. A record whose year is falsy contributes nothing to the year
    list: the falsy years are filtered out before the [Set] is built and
    before the conversion to numbers. The "All" filter keeps every record,
    this one too, and its counts are in the totals. No year that can be
    selected isolates it: what a selectable year shows is empty or
    contains a record with a truthy year; and when the stored years are
    numbers (or absent), no selectable year shows it at all. *)
Theorem falsy_year_record l1 r l2 :
  ToBoolean (get r "year") = false →
  let recs := l1 ++ r :: l2 in
  BarChartPage.years recs = BarChartPage.years (l1 ++ l2) ∧
  BarChartPage.filteredRecords recs "All" = recs ∧
  r ∈ BarChartPage.filteredRecords recs "All" ∧
  (Forall (Spec.numeric_fields BarChartPage.civilStatusFields) recs →
   ∀ f, f ∈ BarChartPage.civilStatusFields →
        get (BarChartPage.totals (BarChartPage.filteredRecords recs "All")) f
        = int (Spec.total (l1 ++ l2) f + Spec.count r f)) ∧
  (∀ y, y ∈ TreemapPage.years recs →
        TreemapPage.filteredRecords recs (option_value y) = [] ∨
        ∃ r', r' ∈ TreemapPage.filteredRecords recs (option_value y) ∧
              ToBoolean (get r' "year") = true) ∧
  (Forall Spec.numeric_year (l1 ++ l2) →
   ∀ y, y ∈ BarChartPage.years recs →
        r ∉ BarChartPage.filteredRecords recs (option_value y)).
Proof.
  intros Hr recs.
  assert (years recs = years (l1 ++ l2)) as Hsame by by apply years_drop_falsy.
  split; [done|]. split; [done|]. split; [|split; [|split]].
  - change (BarChartPage.filteredRecords recs "All") with recs.
    apply elem_of_app. right. by left.
  - intros Hfields f Hf. change (BarChartPage.filteredRecords recs "All") with recs.
    rewrite totals_total by done.
    rewrite total_numeric by (by eapply numeric_field).
    apply (f_equal int), total_insert.
  - intros y Hy. apply years_elem in Hy as (r' & Hin & Htrue & Hnum).
    unfold TreemapPage.filteredRecords, filteredRecords.
    rewrite bool_decide_eq_false_2 by apply option_value_not_All.
    rewrite Number_option_value. destruct y as [|z].
    + left. clear. induction recs as [|x recs IH]; [done|].
      cbn. by destruct (Number (get x "year")).
    + right. exists r'. split; [|done].
      apply list_elem_of_In, filter_In. split; [by apply list_elem_of_In|].
      rewrite Hnum. apply Z.eqb_refl.
  - intros Hyears y Hy. unfold BarChartPage.years in Hy. rewrite Hsame in Hy.
    destruct (years_ascending _ Hyears) as (zs & Hzs & _ & Hmem).
    rewrite Hzs in Hy. apply list_elem_of_fmap in Hy as (z & -> & Hz).
    apply Hmem in Hz as [Hz0 _].
    unfold BarChartPage.filteredRecords, filteredRecords.
    rewrite bool_decide_eq_false_2 by apply option_value_not_All.
    rewrite list_elem_of_In, filter_In. intros [_ Heq].
    rewrite Number_option_value in Heq.
    destruct (falsy_year_Number r Hr) as [Hn|Hn]; rewrite Hn in Heq; [done|].
    unfold strict_eq_number in Heq. apply Z.eqb_eq in Heq. congruence.
Qed.

(** A record of year 0 between a record of 2019 and one of 2020. *)
Lemma falsy_year_record_witness :
  ToBoolean (get ({[ "year" := int 0; "single" := int 5 ]} : obj) "year") = false ∧
  BarChartPage.years
    [ {[ "year" := int 2019; "single" := int 1 ]};
      {[ "year" := int 0; "single" := int 5 ]};
      {[ "year" := int 2020; "single" := int 2 ]} ]
  = BarChartPage.years
    [ {[ "year" := int 2019; "single" := int 1 ]};
      {[ "year" := int 2020; "single" := int 2 ]} ] ∧
  get (BarChartPage.totals
         (BarChartPage.filteredRecords
            [ {[ "year" := int 2019; "single" := int 1 ]};
              {[ "year" := int 0; "single" := int 5 ]};
              {[ "year" := int 2020; "single" := int 2 ]} ] "All")) "single"
  = int 8.
Proof.
  assert (ToBoolean (get ({[ "year" := int 0; "single" := int 5 ]} : obj) "year")
          = false) as Hr by reflexivity.
  destruct (falsy_year_record
              [ {[ "year" := int 2019; "single" := int 1 ]} ]
              {[ "year" := int 0; "single" := int 5 ]}
              [ {[ "year" := int 2020; "single" := int 2 ]} ] Hr)
    as (Hy & _ & _ & Ht & _).
  split; [exact Hr|]. split; [exact Hy|].
  etrans; [apply (Ht ltac:(repeat constructor) "single"); by left|].
  vm_compute. reflexivity.
Defined.

End Aggregator.

(** ** The importer *)

Section Importer.

Import Page Firestore emigrantsService.

(** C2, as amended. Each page has its own test of a CSV row. The civil
    status, sex and age pages accept a row exactly when its [year] column
    (that spelling only) is not empty and converts to a number; the
    occupation and education pages accept it exactly when [year] or [Year]
    is not empty, the destination page exactly when [year], [Year] or
    [YEAR] is not empty, numeric or not, and store the year as
    [Number(...) || 0], which is 0 when it is not a number. On every page
    the records built are those of the rows that pass the page's test, and
    of no other row. *)
Theorem row_acceptance_per_page (row : obj) :
  (BarChartPage.rowValid row = true ↔
     ToBoolean (get row "year") = true ∧ isNaN (get row "year") = false) ∧
  LineChartPage.rowValid row = BarChartPage.rowValid row ∧
  DensityPlotPage.rowValid row = BarChartPage.rowValid row ∧
  (BarChartPage.rowValid row = true → Spec.hasNumericYear row = true) ∧
  (TreemapPage.rowValid row = true ↔
     ToBoolean (get row "year") = true ∨ ToBoolean (get row "Year") = true) ∧
  HorizontalChartPage.rowValid row = TreemapPage.rowValid row ∧
  (FlowMapPage.rowValid row = true ↔
     ToBoolean (get row "year") = true ∨ ToBoolean (get row "Year") = true
     ∨ ToBoolean (get row "YEAR") = true) ∧
  get (BarChartPage.recordFromRow row) "year" = VNum (Number (get row "year")) ∧
  get (TreemapPage.recordFromRow row) "year"
  = NumberOr0 (orElse (get row "year") (get row "Year")) ∧
  get (FlowMapPage.recordFromRow row) "year"
  = NumberOr0 (orElse (orElse (get row "year") (get row "Year")) (get row "YEAR")) ∧
  (∀ v, isNaN v = true → NumberOr0 v = int 0) ∧
  (∀ rows rec,
     (rec ∈ BarChartPage.recordsToAdd rows ↔
        ∃ r, r ∈ rows ∧ BarChartPage.rowValid r = true
             ∧ rec = BarChartPage.recordFromRow r) ∧
     (rec ∈ TreemapPage.recordsToAdd rows ↔
        ∃ r, r ∈ rows ∧ TreemapPage.rowValid r = true
             ∧ rec = TreemapPage.recordFromRow r) ∧
     (rec ∈ FlowMapPage.recordsToAdd rows ↔
        ∃ r, r ∈ rows ∧ FlowMapPage.rowValid r = true
             ∧ rec = FlowMapPage.recordFromRow r)).
Proof.
  assert (BarChartPage.rowValid row = true ↔
     ToBoolean (get row "year") = true ∧ isNaN (get row "year") = false) as Hbar.
  { unfold BarChartPage.rowValid. rewrite andb_true_iff, negb_true_iff. tauto. }
  split; [exact Hbar|]. split; [done|]. split; [done|]. split.
  { intros [Ht Hn]%Hbar. unfold Spec.hasNumericYear. cbn. by rewrite Ht, Hn. }
  split. { unfold TreemapPage.rowValid. apply orElse_true. }
  split; [done|]. split.
  { unfold FlowMapPage.rowValid. rewrite !orElse_true. tauto. }
  split.
  { apply (recordFromRow_year BarChartPage.columns BarChartPage.rowYear
             BarChartPage.headers).
    apply (bool_decide_eq_true_1 _). reflexivity. }
  split.
  { apply (recordFromRow_year TreemapPage.columns TreemapPage.rowYear
             TreemapPage.headers).
    apply (bool_decide_eq_true_1 _). reflexivity. }
  split.
  { apply (recordFromRow_year FlowMapPage.columns FlowMapPage.rowYear
             FlowMapPage.headers).
    apply (bool_decide_eq_true_1 _). reflexivity. }
  split.
  { intros v Hv. unfold NumberOr0, isNaN in *. by destruct (Number v). }
  intros rows rec. repeat split; try apply recordsToAdd_elem;
    intros H; by apply recordsToAdd_elem in H.
Qed.

(** C2, the claim as stated fails: the destination page accepts a row
    whose year is the text [abc], and stores it under year 0. *)
Lemma non_numeric_year_accepted :
  Spec.hasNumericYear {[ "year" := Str "abc"; "USA" := Str "12" ]} = false ∧
  FlowMapPage.rowValid {[ "year" := Str "abc"; "USA" := Str "12" ]} = true ∧
  FlowMapPage.recordsToAdd [ {[ "year" := Str "abc"; "USA" := Str "12" ]} ]
  = [ FlowMapPage.recordFromRow {[ "year" := Str "abc"; "USA" := Str "12" ]} ] ∧
  get (FlowMapPage.recordFromRow {[ "year" := Str "abc"; "USA" := Str "12" ]}) "year"
  = int 0 ∧
  get (FlowMapPage.recordFromRow {[ "year" := Str "abc"; "USA" := Str "12" ]}) "USA"
  = int 12.
Proof. repeat split. Qed.

(** C3, as amended. The value of a category is that of the first column,
    among the spellings its page tries, that holds a truthy value,
    converted with [Number(value) || 0], and 0 when none does. The
    spellings are: the name, its lower case and its lower case with white
    space collapsed on the occupation and destination pages; the display
    name, the camelCase alias, and the lower case of each on the education
    page; the name, the name capitalised and the name with a space before
    each capital on the civil status page; the name and the name
    capitalised on the sex page; the name, the name with its first hyphen
    turned into a space and its lower case on the age page. A value under
    any one of the spellings tried resolves as under the canonical one; in
    particular [Single] resolves as [single]. *)
Theorem column_resolution_per_page (row : obj) :
  (∀ f, f ∈ TreemapPage.occuFields →
     get (TreemapPage.recordFromRow row) f
     = NumberOr0 (firstOf row (Spec.spellings f))) ∧
  (∀ f, f ∈ FlowMapPage.countries →
     get (FlowMapPage.recordFromRow row) f
     = NumberOr0 (firstOf row (Spec.spellings f))) ∧
  (∀ c, c ∈ HorizontalChartPage.eduFieldMappings →
     get (HorizontalChartPage.recordFromRow row) c.2
     = NumberOr0 (firstOf row [c.1; c.2; toLowerCase c.1; toLowerCase c.2])) ∧
  (∀ f, f ∈ BarChartPage.civilStatusFields →
     get (BarChartPage.recordFromRow row) f
     = NumberOr0 (firstOf row [f; capitalize f; trim (replace_capitals f)])) ∧
  (∀ f, f ∈ LineChartPage.sexFields →
     get (LineChartPage.recordFromRow row) f
     = NumberOr0 (firstOf row [f; capitalize f])) ∧
  (∀ f, f ∈ DensityPlotPage.ageGroups →
     get (DensityPlotPage.recordFromRow row) f
     = NumberOr0 (firstOf row [f; replace_hyphen f; toLowerCase f])) ∧
  (∀ hs, (∀ k, k ∈ hs → ToBoolean (get row k) = false) →
     NumberOr0 (firstOf row hs) = int 0 ∧
     ∀ h v, h ∈ hs → firstOf (set row h v) hs = orElse v (int 0)) ∧
  (ToBoolean (get row "single") = false →
   ToBoolean (get row "Single") = false →
   ∀ v, get (BarChartPage.recordFromRow (set row "Single" v)) "single"
        = get (BarChartPage.recordFromRow (set row "single" v)) "single").
Proof.
  repeat split.
  - intros f Hf.
    apply (recordFromRow_field TreemapPage.columns TreemapPage.rowYear
             TreemapPage.headers row (f, f));
      [by apply NoDup_by_computation|by apply same_columns].
  - intros f Hf.
    apply (recordFromRow_field FlowMapPage.columns FlowMapPage.rowYear
             FlowMapPage.headers row (f, f));
      [by apply NoDup_by_computation|by apply same_columns].
  - intros c Hc.
    apply (recordFromRow_field HorizontalChartPage.eduFieldMappings
             HorizontalChartPage.rowYear HorizontalChartPage.headers row c);
      [by apply NoDup_by_computation|done].
  - intros f Hf.
    apply (recordFromRow_field BarChartPage.columns BarChartPage.rowYear
             BarChartPage.headers row (f, f));
      [by apply NoDup_by_computation|by apply same_columns].
  - intros f Hf.
    apply (recordFromRow_field LineChartPage.columns LineChartPage.rowYear
             LineChartPage.headers row (f, f));
      [by apply NoDup_by_computation|by apply same_columns].
  - intros f Hf.
    apply (recordFromRow_field DensityPlotPage.columns DensityPlotPage.rowYear
             DensityPlotPage.headers row (f, f));
      [by apply NoDup_by_computation|by apply same_columns].
  - by rewrite firstOf_falsy.
  - intros h v Hh. by apply firstOf_set.
  - intros Hs HS v.
    assert ("single" ∈ BarChartPage.civilStatusFields) as Hin by by left.
    unfold BarChartPage.recordFromRow.
    rewrite !(recordFromRow_field BarChartPage.columns BarChartPage.rowYear
                BarChartPage.headers _ ("single", "single"));
      [|by apply NoDup_by_computation|by apply same_columns
       |by apply NoDup_by_computation|by apply same_columns].
    f_equal. cbn [BarChartPage.headers fst].
    rewrite !firstOf_set; [done| | | |].
    + by left.
    + intros k Hk. vm_compute in Hk.
      repeat (apply elem_of_cons in Hk as [->|Hk]); try done.
      by apply elem_of_nil in Hk.
    + right. by left.
    + intros k Hk. vm_compute in Hk.
      repeat (apply elem_of_cons in Hk as [->|Hk]); try done.
      by apply elem_of_nil in Hk.
Qed.

(** C3, the claim as stated fails: on the civil status page the lower-cased
    spelling of [notReported] is not tried; a column [notreported] holding
    7 is read as 0. *)
Lemma lower_cased_header_not_tried :
  BarChartPage.rowValid {[ "year" := Str "2020"; "notreported" := Str "7" ]} = true ∧
  toLowerCase "notReported" = "notreported" ∧
  NumberOr0 (firstOf {[ "year" := Str "2020"; "notreported" := Str "7" ]}
                     (Spec.spellings "notReported")) = int 7 ∧
  get (BarChartPage.recordFromRow
         {[ "year" := Str "2020"; "notreported" := Str "7" ]}) "notReported"
  = int 0.
Proof. repeat split. Qed.

(** C4, as amended. The file of the scenario with its last row written
    [2020,80,] (three fields, the third empty), imported on the civil
    status page into an empty collection: the parser delivers two rows and
    no error, two records are stored, 2019 with single 100 and married 50,
    2020 with single 80 and married 0, the other categories 0; after the
    reload the year filter offers 2019 and 2020, the total of single is 100
    under 2019 and 180 under All. *)
Theorem import_scenario :
  let file := {| Papa.name := "emigrants.csv";
                 Papa.contents := Some (Papa.text_of_lines
                   ["year,single,married"; "2019,100,50"; "2020,80,"]) |} in
  let out := BarChartPage.handleCSVUpload (Some file)
               (initial BarChartPage.defaultForm) Firestore.empty in
  Papa.parse (Papa.text_of_lines ["year,single,married"; "2019,100,50"; "2020,80,"])
  = {| Papa.data :=
         [ {[ "year" := Str "2019"; "single" := Str "100"; "married" := Str "50" ]};
           {[ "year" := Str "2020"; "single" := Str "80"; "married" := Str "" ]} ];
       Papa.errors := [] |} ∧
  (docs out.2).*2
  = [ {[ "year" := int 2019; "single" := int 100; "married" := int 50;
         "widower" := int 0; "separated" := int 0; "divorced" := int 0;
         "notReported" := int 0 ]};
      {[ "year" := int 2020; "single" := int 80; "married" := int 0;
         "widower" := int 0; "separated" := int 0; "divorced" := int 0;
         "notReported" := int 0 ]} ] ∧
  BarChartPage.years (records out.1) = [Num 2019; Num 2020] ∧
  get (BarChartPage.totals (BarChartPage.filteredRecords (records out.1) "2019"))
      "single" = int 100 ∧
  get (BarChartPage.totals (BarChartPage.filteredRecords (records out.1) "All"))
      "single" = int 180.
Proof. repeat split. Qed.

(** C4, the claim as stated fails: the last row of the file, [2020,80,,],
    has four fields under a header of three; the parser reports it, and the
    page stops on a parse error before storing anything. *)
Lemma import_scenario_extra_field :
  Papa.errors (Papa.parse (Papa.text_of_lines
                 ["year,single,married"; "2019,100,50"; "2020,80,,"]))
  = [ {| Papa.type := "FieldMismatch"; Papa.code := "TooManyFields";
         Papa.row := 1 |} ] ∧
  docs (BarChartPage.handleCSVUpload
          (Some {| Papa.name := "emigrants.csv";
                   Papa.contents := Some (Papa.text_of_lines
                     ["year,single,married"; "2019,100,50"; "2020,80,,"]) |})
          (initial BarChartPage.defaultForm) Firestore.empty).2 = [] ∧
  msg (BarChartPage.handleCSVUpload
          (Some {| Papa.name := "emigrants.csv";
                   Papa.contents := Some (Papa.text_of_lines
                     ["year,single,married"; "2019,100,50"; "2020,80,,"]) |})
          (initial BarChartPage.defaultForm) Firestore.empty).1
  = {| text := "❌ Error parsing CSV file"; type := "error" |}.
Proof. repeat split. Qed.

Section AnyPage.

Context (columns : list (string * string)) (defaultForm : obj).
Context (rowValid : obj -> bool) (rowYear : obj -> value).
Context (headers : string * string -> list string).
Context (failureMessage : string -> string).

(** C5. An import leaves the store as it was when the parser reports an
    error, and when the file cannot be read. Otherwise the rows that the
    parser delivers, which are the lines of the file after the header in
    their order, are gone through in that order: the rows that pass the
    test of the page are kept, each gives its record, and the records are
    added one call after the other in the order of their rows. When no
    call rejects, the documents added are these records, in that order;
    and when the call for the accepted row number [k] rejects, the [k]
    accepted rows before it are stored and stay stored, and no call is
    made for the rows after it. *)
Theorem import_is_sequential results st s :
  let rows := Papa.data results in
  let recs := recordFromRow columns rowYear headers <$> List.filter rowValid rows in
  let out := complete columns rowValid rowYear headers results st s in
  (Papa.errors results ≠ [] → out.2 = s) ∧
  (∀ name,
     (handleCSVUpload columns rowValid rowYear headers
        (Some {| Papa.name := name; Papa.contents := None |}) st s).2 = s) ∧
  (Papa.errors results = [] →
   Forall (eq fulfilled) (take (length recs) (script s)) →
   docs out.2 = docs s ++ zip (pretty <$> seq (next_id s) (length recs)) recs ∧
   (docs out.2).*2 = (docs s).*2 ++ recs) ∧
  (∀ k code rest,
     Papa.errors results = [] →
     script s = replicate k fulfilled ++ rejected code :: rest →
     (k < length recs)%nat →
     docs out.2 = docs s ++ zip (pretty <$> seq (next_id s) k) (take k recs) ∧
     (docs out.2).*2 = (docs s).*2 ++ take k recs ∧
     script out.2 = rest) ∧
  (∀ rows1 row rows2,
     rows = rows1 ++ row :: rows2 → rowValid row = true →
     recs = (recordFromRow columns rowYear headers <$> List.filter rowValid rows1)
            ++ recordFromRow columns rowYear headers row
            :: (recordFromRow columns rowYear headers <$> List.filter rowValid rows2)) ∧
  (∀ f txt header lines,
     endsWith (toLowerCase (Papa.name f)) ".csv" = true →
     Papa.contents f = Some txt →
     Papa.fields_of <$> Papa.lines txt = header :: lines →
     Papa.data (Papa.parse txt) = Papa.row_object header <$> lines ∧
     handleCSVUpload columns rowValid rowYear headers (Some f) st s
     = complete columns rowValid rowYear headers (Papa.parse txt)
         (setCsvFileName (Papa.name f) st) s).
Proof.
  intros rows recs out. unfold out, complete.
  change (recordsToAdd columns rowValid rowYear headers (Papa.data results))
    with recs.
  split; [|split; [|split; [|split; [|split]]]].
  - intros He. destruct (Papa.errors results); done.
  - intros name. unfold handleCSVUpload. cbn. by case_match.
  - intros He Hs. rewrite He. cbn [length Nat.ltb Nat.leb].
    rewrite (addAll_ok recs s Hs).
    match goal with |- context [fetchData ?a ?b] =>
      pose proof (fetchData_store a b) as Hf; destruct (fetchData a b) end.
    cbn in Hf |- *. rewrite Hf. cbn. split; [done|].
    rewrite fmap_app, snd_zip; [done|]. by rewrite length_fmap, length_seq.
  - intros k code rest He Hs Hk. rewrite He. cbn [length Nat.ltb Nat.leb].
    rewrite (addAll_fault recs s k code rest Hs Hk). cbn.
    split; [done|]. split; [|done].
    rewrite fmap_app, snd_zip; [done|].
    rewrite length_fmap, length_seq, length_take. lia.
  - intros rows1 row rows2 Hrows Hrow. unfold recs. rewrite Hrows.
    rewrite List.filter_app. cbn [List.filter]. rewrite Hrow.
    by rewrite fmap_app, fmap_cons.
  - intros f txt header lines Hname Hcontents Hlines. split.
    + unfold Papa.parse. by rewrite Hlines.
    + unfold handleCSVUpload. by rewrite Hname, Hcontents.
Qed.

(** ** The editable table *)

Lemma run_app es1 es2 p :
  run columns defaultForm rowValid rowYear headers failureMessage (es1 ++ es2) p
  = run columns defaultForm rowValid rowYear headers failureMessage es2
      (run columns defaultForm rowValid rowYear headers failureMessage es1 p).
Proof. unfold run. apply foldl_app. Qed.

(** Typing in the row touches the edit form and nothing else. *)
Lemma typing_keeps edits st s :
  ∃ f, run columns defaultForm rowValid rowYear headers failureMessage
           (typing edits) (st, s)
       = (setEditForm f st, s).
Proof.
  revert st. induction edits as [|e edits IH]; intros st.
  - exists (editForm st). by destruct st.
  - destruct (IH (handleEditChange e.1 e.2 st)) as [f Hf].
    exists f. etrans; [exact Hf|done].
Qed.

(** C7. Edit on a row, any typing in the row, then Cancel: the store is
    what it was (every document, and no call was made), the identifier of
    the edited row is cleared, the edit form is empty, and the rest of the
    page state is untouched. *)
Theorem edit_then_cancel r edits st s :
  run columns defaultForm rowValid rowYear headers failureMessage
      (ClickEdit r :: typing edits ++ [ClickCancel]) (st, s)
  = ({| records := records st; selectedYear := selectedYear st;
        editingId := null; editForm := ∅; csvFileName := csvFileName st;
        msg := msg st; loading := loading st; form := form st |}, s).
Proof.
  change (ClickEdit r :: typing edits ++ [ClickCancel])
    with ([ClickEdit r] ++ typing edits ++ [ClickCancel]).
  rewrite !run_app.
  destruct (typing_keeps edits (handleEdit columns r st) s) as [f Hf].
  change (run columns defaultForm rowValid rowYear headers failureMessage
              [ClickEdit r] (st, s))
    with (handleEdit columns r st, s).
  rewrite Hf. done.
Qed.

(** C9. Add with an empty year: the page shows the error "Year is
    required" and nothing else changes; the store is what it was and no
    call was made to it. *)
Theorem add_without_year st s :
  get (form st) "year" = Str "" →
  handleAdd columns defaultForm st s
  = (showMessage "❌ Year is required" "error" st, s).
Proof. intros H. unfold handleAdd. by rewrite H. Qed.

(** C8, as amended. Save sends one update that carries the whole record:
    every category field converted with [Number(x) || 0] (what is not a
    number becomes 0), and the year converted with [Number] alone, which
    gives the same whenever the year is a number or empty, as it is in
    the numeric box of the row. When the update rejects (the call fails,
    or the document is gone) the row stays in edit mode with its form, an
    error message is shown and no document changes. When it goes through,
    the fields sent replace those of the document (which is then exactly
    the record sent if it held no other field), the other documents are
    untouched, the row leaves edit mode, the form is emptied, and the
    collection is fetched again. The education page does the same once
    the id and the year have passed its checks; when they do not (the
    year box left empty, for one), it shows an error, stays in edit mode
    and sends nothing. *)
Theorem save_outcome id st s :
  NoDup ("year" :: columns.*2) →
  let payload := getRecordFromForm columns (editForm st) in
  let out := handleSave columns failureMessage id st s in
  get payload "year" = VNum (Number (get (editForm st) "year")) ∧
  (∀ c, c ∈ columns → get payload c.2 = Spec.savedField (editForm st) c.1) ∧
  (rejects s = true ∨ id ∉ (docs s).*1 →
     (∃ code, out.1 = showMessage (failureMessage code) "error" st) ∧
     editingId out.1 = editingId st ∧ editForm out.1 = editForm st ∧
     type (msg out.1) = "error" ∧ out.2 = spent s) ∧
  (rejects s = false → id ∈ (docs s).*1 →
     editingId out.1 = null ∧ editForm out.1 = ∅ ∧
     type (msg out.1) = "success" ∧
     docs out.2 = update_in id payload <$> docs s ∧
     (∀ old, (id, old) ∈ docs s → (id, payload ∪ old) ∈ docs out.2) ∧
     (∀ old, (id, old) ∈ docs s → dom old ⊆ dom payload →
             (id, payload) ∈ docs out.2) ∧
     (∀ d, d ∈ docs s → d.1 ≠ id → d ∈ docs out.2) ∧
     script out.2 = tail (tail (script s)) ∧
     (rejects (spent s) = false → records out.1 = with_id <$> docs out.2)) ∧
  (id = "" ∨ ToBoolean (get (editForm st) "year") = false
   ∨ isNaN (get (editForm st) "year") = true →
     ∃ text, HorizontalChartPage.handleSave id st s
             = (showMessage text "error" st, s)) ∧
  (id ≠ "" → ToBoolean (get (editForm st) "year") = true →
   isNaN (get (editForm st) "year") = false →
     HorizontalChartPage.handleSave id st s
     = handleSave HorizontalChartPage.eduFieldMappings
         HorizontalChartPage.errorMessage id st s) ∧
  (isNaN (get (editForm st) "year") = false →
     get payload "year" = Spec.savedField (editForm st) "year").
Proof.
  intros Hnd payload out. apply NoDup_cons in Hnd as [Hyear Hnd].
  assert (isNaN (get (editForm st) "year") = false →
          get payload "year" = Spec.savedField (editForm st) "year") as Hsame.
  { intros Hn. unfold payload. rewrite getRecordFromForm_year by done.
    unfold Spec.savedField, NumberOr0, orElse, isNaN in *.
    destruct (Number (get (editForm st) "year")) as [|z]; [done|]. cbn.
    by destruct (Z.eqb_spec z 0) as [->|]. }
  split; [by apply getRecordFromForm_year|].
  split; [intros c Hc; by apply getRecordFromForm_field|].
  unfold out, handleSave, updateEmigrant. fold payload.
  rewrite updateDoc_outcome. unfold has_doc, rejects.
  split; [|split; [|split; [|split; [|exact Hsame]]]].
  - intros Hfail. destruct (script s) as [|[|code] sc] eqn:Hs.
    + destruct Hfail as [?|Hid]; [done|].
      rewrite (bool_decide_eq_false_2 _ Hid). cbn. eauto 10.
    + destruct Hfail as [?|Hid]; [done|].
      rewrite (bool_decide_eq_false_2 _ Hid). cbn. eauto 10.
    + cbn. eauto 10.
  - intros Hok Hid.
    assert (match script s with
            | rejected code :: _ => (rejected code, spent s)
            | _ => if bool_decide (id ∈ (docs s).*1)
                   then (fulfilled, with_docs (update_in id payload <$> docs s) (spent s))
                   else (rejected "not-found", spent s)
            end = (fulfilled, with_docs (update_in id payload <$> docs s) (spent s)))
      as ->.
    { rewrite (bool_decide_eq_true_2 _ Hid).
      destruct (script s) as [|[|code] sc]; done. }
    set (s1 := with_docs (update_in id payload <$> docs s) (spent s)).
    set (st1 := setEditForm ∅ (setEditingId null st)).
    pose proof (fetchData_store st1 s1) as Hstore.
    destruct (fetchData_state st1 s1) as (He & Hf & Hr).
    destruct (fetchData st1 s1) as [st2 s2] eqn:Hfetch. cbn in Hstore, He, Hf, Hr |- *.
    subst s2.
    repeat split; try done.
    + intros old Hold. apply list_elem_of_fmap.
      exists (id, old). split; [|done]. unfold update_in. cbn.
      by rewrite bool_decide_eq_true_2.
    + intros old Hold Hdom. apply list_elem_of_fmap.
      exists (id, old). split; [|done]. unfold update_in. cbn.
      rewrite bool_decide_eq_true_2 by done. by rewrite union_covered.
    + intros d Hd Hne. apply list_elem_of_fmap.
      exists d. split; [|done]. unfold update_in.
      by rewrite bool_decide_eq_false_2.
  - intros Hbad. unfold HorizontalChartPage.handleSave.
    case_bool_decide as Hid; [eauto|].
    destruct Hbad as [?|[Hy|Hy]]; [done|..]; rewrite Hy; cbn;
      rewrite ?orb_true_r; eauto.
  - intros Hid Hy Hn. unfold HorizontalChartPage.handleSave.
    rewrite (bool_decide_eq_false_2 _ Hid), Hy, Hn. done.
Qed.

End AnyPage.

End Importer.

(** ** Instances *)

Section Witnesses.

Import Page Firestore.

(** The add form as the page mounts it: its year is empty. *)
Lemma add_without_year_witness :
  get (form (initial BarChartPage.defaultForm)) "year" = Str "" ∧
  BarChartPage.handleAdd (initial BarChartPage.defaultForm) Firestore.empty
  = (showMessage "❌ Year is required" "error" (initial BarChartPage.defaultForm),
     Firestore.empty).
Proof.
  split; [reflexivity|].
  apply (add_without_year BarChartPage.columns BarChartPage.defaultForm).
  reflexivity.
Defined.

(** The record of 2019 of the scenario, edited to 60 married and saved: the
    document holds exactly the record with 60 married, and the row is back
    to viewing. *)
Lemma save_outcome_witness :
  NoDup ("year" :: BarChartPage.columns.*2) ∧
  editingId
    (BarChartPage.handleSave "0"
       (handleEditChange "married" "60"
          (BarChartPage.handleEdit
             {[ "id" := Str "0"; "year" := int 2019; "single" := int 100;
                "married" := int 50 ]}
             (initial BarChartPage.defaultForm)))
       {| docs := [("0", {[ "year" := int 2019; "single" := int 100;
                            "married" := int 50 ]})];
          next_id := 1; script := [] |}).1 = null ∧
  docs
    (BarChartPage.handleSave "0"
       (handleEditChange "married" "60"
          (BarChartPage.handleEdit
             {[ "id" := Str "0"; "year" := int 2019; "single" := int 100;
                "married" := int 50 ]}
             (initial BarChartPage.defaultForm)))
       {| docs := [("0", {[ "year" := int 2019; "single" := int 100;
                            "married" := int 50 ]})];
          next_id := 1; script := [] |}).2
  = [("0", {[ "year" := int 2019; "single" := int 100; "married" := int 60;
              "widower" := int 0; "separated" := int 0; "divorced" := int 0;
              "notReported" := int 0 ]})].
Proof.
  assert (NoDup ("year" :: BarChartPage.columns.*2)) as Hnd
    by (apply NoDup_by_computation; reflexivity).
  split; [exact Hnd|].
  destruct (save_outcome BarChartPage.columns updateFailed "0"
              (handleEditChange "married" "60"
                 (BarChartPage.handleEdit
                    {[ "id" := Str "0"; "year" := int 2019; "single" := int 100;
                       "married" := int 50 ]}
                    (initial BarChartPage.defaultForm)))
              {| docs := [("0", {[ "year" := int 2019; "single" := int 100;
                                   "married" := int 50 ]})];
                 next_id := 1; script := [] |} Hnd)
    as (_ & _ & _ & Hok & _).
  destruct Hok as (He & _ & _ & Hd & _); [reflexivity|by left|].
  split; [exact He|]. etrans; [exact Hd|]. reflexivity.
Defined.

(** Three rows, the store rejecting the second call: the first record is
    stored and stays, the third is never sent. *)
Lemma import_stops_at_rejection :
  (docs (BarChartPage.handleCSVUpload
           (Some {| Papa.name := "emigrants.csv";
                    Papa.contents := Some (Papa.text_of_lines
                      ["year,single"; "2019,100"; "2020,80"; "2021,70"]) |})
           (initial BarChartPage.defaultForm)
           {| docs := []; next_id := 0;
              script := [fulfilled; rejected "unavailable"] |}).2).*2
  = [ {[ "year" := int 2019; "single" := int 100; "married" := int 0;
         "widower" := int 0; "separated" := int 0; "divorced" := int 0;
         "notReported" := int 0 ]} ] ∧
  script (BarChartPage.handleCSVUpload
           (Some {| Papa.name := "emigrants.csv";
                    Papa.contents := Some (Papa.text_of_lines
                      ["year,single"; "2019,100"; "2020,80"; "2021,70"]) |})
           (initial BarChartPage.defaultForm)
           {| docs := []; next_id := 0;
              script := [fulfilled; rejected "unavailable"] |}).2 = [].
Proof. repeat split. Qed.

(** A rejected update: the row stays in edit mode, with its form. *)
Lemma save_rejected :
  editingId
    (BarChartPage.handleSave "0"
       (BarChartPage.handleEdit
          {[ "id" := Str "0"; "year" := int 2019; "single" := int 100 ]}
          (initial BarChartPage.defaultForm))
       {| docs := [("0", {[ "year" := int 2019; "single" := int 100 ]})];
          next_id := 1; script := [rejected "permission-denied"] |}).1
  = Str "0" ∧
  msg
    (BarChartPage.handleSave "0"
       (BarChartPage.handleEdit
          {[ "id" := Str "0"; "year" := int 2019; "single" := int 100 ]}
          (initial BarChartPage.defaultForm))
       {| docs := [("0", {[ "year" := int 2019; "single" := int 100 ]})];
          next_id := 1; script := [rejected "permission-denied"] |}).1
  = {| text := "❌ Error updating record"; type := "error" |} ∧
  msg
    (HorizontalChartPage.handleSave "0"
       (HorizontalChartPage.handleEdit
          {[ "id" := Str "0"; "year" := int 2019; "collegeLevel" := int 100 ]}
          (initial ∅))
       {| docs := [("0", {[ "year" := int 2019; "collegeLevel" := int 100 ]})];
          next_id := 1; script := [rejected "permission-denied"] |}).1
  = {| text := "❌ Permission denied - check Firebase rules"; type := "error" |}.
Proof. repeat split. Qed.

(** C8, the claim as stated fails on the education page. A row is put in
    edit mode, its year box is emptied, and Save is pressed, on a store
    that would accept the update. The claim has the empty year saved as 0
    by a full-record update, after which the row is back to viewing: that
    is what the Save of the other pages does. The Save of the education
    page sends nothing: no store call is made, the document keeps its
    year, an error is shown and the row stays in edit mode. The document
    is the record the page makes of the year 2020 with 12 college
    graduates. *)
Lemma save_with_cleared_year_refused :
  let d : string * obj :=
    ("0", HorizontalChartPage.convertToSafeData
            {[ "year" := Str "2020"; "College Graduate" := Str "12" ]}) in
  let s := {| docs := [d]; next_id := 1; script := [] |} in
  let es := [ClickEdit (with_id d); EditChange "year" ""; ClickSave "0"] in
  let st := initial HorizontalChartPage.defaultForm in
  let out := HorizontalChartPage.run es (st, s) in
  let claimed :=
    run HorizontalChartPage.eduFieldMappings HorizontalChartPage.defaultForm
        HorizontalChartPage.rowValid HorizontalChartPage.rowYear
        HorizontalChartPage.headers HorizontalChartPage.errorMessage es (st, s) in
  Spec.savedField (editForm out.1) "year" = int 0 ∧
  (editingId claimed.1 = null ∧
   (λ d, get d.2 "year") <$> docs claimed.2 = [int 0] ∧
   script claimed.2 = []) ∧
  out.2 = s ∧
  (λ d, get d.2 "year") <$> docs out.2 = [int 2020] ∧
  editingId out.1 = Str "0" ∧
  msg out.1 = {| text := "❌ Please enter a valid year"; type := "error" |}.
Proof. repeat split. Qed.

End Witnesses.
(** * Further properties of the pages *)

(** ** Writing to the store *)

Section Writes.

Import Firestore emigrantsService Page.

Lemma deleteDoc_outcome id s :
  deleteDoc id s
  = match script s with
    | rejected code :: _ => (rejected code, spent s)
    | _ =>
        (fulfilled,
         with_docs (List.filter (fun d => negb (bool_decide (d.1 = id))) (docs s))
                   (spent s))
    end.
Proof.
  unfold deleteDoc. rewrite next_outcome_spent.
  destruct (script s) as [|[|c] sc]; done.
Qed.

Lemma addDoc_outcome data s :
  addDoc data s
  = match script s with
    | rejected code :: _ => (rejected code, spent s)
    | _ =>
        (fulfilled, {| docs := docs s ++ [(pretty (next_id s), data)];
                       next_id := S (next_id s);
                       script := tail (script s) |})
    end.
Proof.
  unfold addDoc. rewrite next_outcome_spent.
  destruct s as [d n [|[|c] sc]]; reflexivity.
Qed.

(** What [fetchData] leaves on the page: the documents of the store when
    the call goes through, the records it had when the call rejects. *)
Lemma fetchData_records st s :
  records (fetchData st s).1
  = if rejects s then records st else with_id <$> docs s.
Proof.
  unfold fetchData, getEmigrants, getDocs, rejects. rewrite next_outcome_spent.
  destruct (script s) as [|[|c] sc]; done.
Qed.

Lemma fetchData_keeps st s :
  editingId (fetchData st s).1 = editingId st ∧
  editForm (fetchData st s).1 = editForm st ∧
  form (fetchData st s).1 = form st ∧
  selectedYear (fetchData st s).1 = selectedYear st ∧
  csvFileName (fetchData st s).1 = csvFileName st ∧
  loading (fetchData st s).1 = false.
Proof.
  unfold fetchData, getEmigrants, getDocs. rewrite next_outcome_spent.
  destruct (script s) as [|[|c] sc]; done.
Qed.

Lemma filter_other_id (ds : list (string * obj)) id :
  id ∉ ds.*1 → List.filter (fun d => negb (bool_decide (d.1 = id))) ds = ds.
Proof.
  induction ds as [|d ds IH]; [done|].
  rewrite fmap_cons, not_elem_of_cons. intros [Hd Hds]. cbn.
  rewrite bool_decide_eq_false_2 by done. cbn. by rewrite IH.
Qed.

(** X1. Delete. When the user declines the confirmation nothing happens. When
    the call rejects, the page shows an error, nothing else on the page
    changes and no document changes. When it goes through, the document
    of that id is gone, the other documents are kept in their order (all
    of them when no document has that id: deleting what is not there
    succeeds), the row being edited stays in edit mode, and the collection
    is fetched again. The success message is shown whatever the second
    call does: when the fetch rejects, the table keeps the records it
    had, the deleted one included. *)
Theorem delete_outcome confirmed id st s :
  let out := handleDelete confirmed id st s in
  (confirmed = false → out = (st, s)) ∧
  (confirmed = true → rejects s = true →
     (∃ text, out.1 = showMessage text "error" st) ∧
     out.2 = spent s ∧ docs out.2 = docs s) ∧
  (confirmed = true → rejects s = false →
     docs out.2 = List.filter (fun d => negb (bool_decide (d.1 = id))) (docs s) ∧
     (id ∉ (docs out.2).*1) ∧
     (∀ d, d ∈ docs s → d.1 ≠ id → d ∈ docs out.2) ∧
     (id ∉ (docs s).*1 → docs out.2 = docs s) ∧
     script out.2 = tail (tail (script s)) ∧
     type (msg out.1) = "success" ∧
     editingId out.1 = editingId st ∧ editForm out.1 = editForm st ∧
     (rejects (spent s) = false → records out.1 = with_id <$> docs out.2) ∧
     (rejects (spent s) = true → records out.1 = records st)).
Proof.
  cbv zeta. split; [by intros ->|].
  unfold handleDelete, deleteEmigrant. rewrite deleteDoc_outcome.
  split; intros -> Hrej; cbn [negb]; unfold rejects in Hrej.
  - destruct (script s) as [|[|c] sc] eqn:Hs; [done|done|].
    split; [eexists; reflexivity|]. split; [reflexivity|done].
  - set (kept := List.filter (fun d => negb (bool_decide (d.1 = id))) (docs s)).
    set (s1 := with_docs kept (spent s)).
    assert (match script s with
            | rejected code :: _ => (rejected code, spent s)
            | _ => (fulfilled, s1)
            end = (fulfilled, s1)) as -> by (destruct (script s) as [|[|c] sc]; done).
    pose proof (fetchData_store st s1) as Hst.
    pose proof (fetchData_records st s1) as Hrec.
    pose proof (fetchData_keeps st s1) as (Hid & Hform & _).
    destruct (fetchData st s1) as [st2 s2]. cbn in *. subst s2.
    split; [done|]. split.
    { rewrite list_elem_of_fmap. intros (d & -> & Hd).
      apply list_elem_of_In, filter_In in Hd as [_ Hd].
      by rewrite bool_decide_eq_true_2 in Hd. }
    split.
    { intros d Hd Hne. apply list_elem_of_In, filter_In.
      split; [by apply list_elem_of_In|]. by rewrite bool_decide_eq_false_2. }
    split; [intros Hno; by apply filter_other_id|].
    split; [done|]. split; [done|]. split; [done|]. split; [done|].
    change (rejects s1) with (rejects (spent s)) in Hrec.
    split; intros Hr; by rewrite Hr in Hrec.
Qed.


(** *** The ids the store gives *)

Lemma well_formed_spec s :
  well_formed s = true ↔
  NoDup (docs s).*1 ∧
  ∀ id, id ∈ (docs s).*1 → ∃ n, (n < next_id s)%nat ∧ id = pretty n.
Proof.
  unfold well_formed. rewrite andb_true_iff, bool_decide_eq_true, forallb_forall.
  apply and_iff_compat_l. split.
  - intros H id Hid. apply list_elem_of_In, H, bool_decide_eq_true in Hid.
    apply list_elem_of_fmap in Hid as (n & -> & Hn).
    apply elem_of_seq in Hn. exists n. split; [lia|done].
  - intros H id Hid. apply bool_decide_eq_true.
    destruct (H id) as (n & Hn & ->); [by apply list_elem_of_In|].
    apply list_elem_of_fmap. exists n. split; [done|]. apply elem_of_seq. lia.
Qed.

(** The ids given to the next [k] documents are new and distinct. *)
Lemma next_ids_fresh s k :
  well_formed s = true →
  NoDup ((docs s).*1 ++ (pretty <$> seq (next_id s) k)).
Proof.
  intros [Hnd Hids]%well_formed_spec. apply NoDup_app. split; [done|]. split.
  - intros id Hid Hnew. destruct (Hids id Hid) as (n & Hn & ->).
    apply list_elem_of_fmap in Hnew as (m & Heq & Hm).
    apply (inj pretty) in Heq as ->. apply elem_of_seq in Hm. lia.
  - apply NoDup_fmap_2; [apply _|apply NoDup_seq].
Qed.

Lemma well_formed_added s k (recs : list obj) :
  well_formed s = true → length recs = k →
  well_formed {| docs := docs s ++ zip (pretty <$> seq (next_id s) k) recs;
                 next_id := (next_id s + k)%nat;
                 script := drop k (script s) |} = true.
Proof.
  intros Hwf Hk. pose proof (next_ids_fresh s k Hwf) as Hfresh.
  apply well_formed_spec in Hwf as [Hnd Hids]. apply well_formed_spec. cbn.
  rewrite fmap_app, fst_zip by (rewrite length_fmap, length_seq; lia).
  split; [done|]. intros id [Hid|Hid]%elem_of_app.
  - destruct (Hids id Hid) as (n & Hn & ->). exists n. split; [lia|done].
  - apply list_elem_of_fmap in Hid as (n & -> & Hn). apply elem_of_seq in Hn.
    exists n. split; [lia|done].
Qed.

Section AnyColumns.

Context (columns : list (string * string)) (defaultForm : obj).
Context (rowValid : obj -> bool) (rowYear : obj -> value).
Context (headers : string * string -> list string).
Context (failureMessage : string -> string).

(** X2. Add with a year typed in, on a collection whose ids are ids the store
    has given out. When the call goes through, one document is created,
    under an id that no document had; it holds the record made from the
    form; the documents that were there are untouched and no two documents
    share an id; the add form is reset and the collection is fetched
    again, after which the table holds the documents of the collection,
    the new record with its id among them (in which place of the table it
    comes, the store decides). When the call rejects, no document is
    created, the form keeps what was typed and an error is shown. As for
    Delete, the success message is shown also when the fetch that follows
    rejects. *)
Theorem add_outcome st s :
  ToBoolean (get (form st) "year") = true →
  well_formed s = true →
  let record := getRecordFromForm columns (form st) in
  let id := pretty (next_id s) in
  let out := handleAdd columns defaultForm st s in
  (rejects s = true →
     (∃ text, out.1 = showMessage text "error" st) ∧
     out.2 = spent s ∧ docs out.2 = docs s) ∧
  (rejects s = false →
     (id ∉ (docs s).*1) ∧
     docs out.2 = docs s ++ [(id, record)] ∧
     NoDup (docs out.2).*1 ∧
     well_formed out.2 = true ∧
     script out.2 = tail (tail (script s)) ∧
     form out.1 = defaultForm ∧
     type (msg out.1) = "success" ∧
     (rejects (spent s) = false →
        records out.1 ≡ₚ with_id <$> docs out.2 ∧
        record ∪ {[ "id" := Str id ]} ∈ records out.1 ∧
        (∀ d, d ∈ docs s → with_id d ∈ records out.1)) ∧
     (rejects (spent s) = true → records out.1 = records st)).
Proof.
  intros Hyear Hwf. cbv zeta. unfold handleAdd, addEmigrant.
  rewrite Hyear. cbn [negb]. rewrite addDoc_outcome.
  split; intros Hrej; unfold rejects in Hrej.
  - destruct (script s) as [|[|c] sc] eqn:Hs; [done|done|].
    split; [eexists; reflexivity|]. split; [reflexivity|done].
  - set (record := getRecordFromForm columns (form st)).
    set (s1 := {| docs := docs s ++ [(pretty (next_id s), record)];
                  next_id := S (next_id s); script := tail (script s) |}).
    assert (match script s with
            | rejected code :: _ => (rejected code, spent s)
            | _ => (fulfilled, s1)
            end = (fulfilled, s1)) as -> by (destruct (script s) as [|[|c] sc]; done).
    pose proof (next_ids_fresh s 1 Hwf) as Hfresh. cbn in Hfresh.
    pose proof (well_formed_added s 1 [record] Hwf eq_refl) as Hwf1.
    cbn [seq fmap list_fmap zip zip_with] in Hwf1.
    assert (well_formed s1 = true) as Hwf2.
    { apply well_formed_spec in Hwf1. apply well_formed_spec. cbn in Hwf1 |- *.
      by rewrite Nat.add_1_r in Hwf1. }
    pose proof (fetchData_store (setForm defaultForm st) s1) as Hst.
    pose proof (fetchData_records (setForm defaultForm st) s1) as Hrec.
    pose proof (fetchData_keeps (setForm defaultForm st) s1) as (_ & _ & Hform & _).
    destruct (fetchData (setForm defaultForm st) s1) as [st2 s2].
    cbn in Hst, Hrec, Hform |- *. subst s2.
    split.
    { apply NoDup_app in Hfresh as (_ & Hdisj & _). intros Hin.
      apply (Hdisj _ Hin). left. }
    split; [done|]. split.
    { apply well_formed_spec in Hwf2 as [Hnd2 _]. exact Hnd2. }
    split; [exact Hwf2|].
    repeat (split; [done|]).
    change (rejects s1) with (rejects (spent s)) in Hrec.
    split; intros Hr; rewrite Hr in Hrec; [|done].
    rewrite Hrec. split; [done|]. unfold s1. cbn [docs].
    rewrite fmap_app. cbn [fmap list_fmap]. split.
    + apply elem_of_app. right. by left.
    + intros d Hd. apply elem_of_app. left. apply list_elem_of_fmap. eauto.
Qed.

End AnyColumns.

End Writes.

(** ** Uploading a file *)

Section Uploads.

Import Firestore emigrantsService Page.

Lemma tail_drop {A} n : ∀ l : list A, tail (drop n l) = drop (S n) l.
Proof.
  induction n as [|n IH]; intros [|x l]; cbn; done.
Qed.

Context (columns : list (string * string)).
Context (rowValid : obj -> bool) (rowYear : obj -> value).
Context (headers : string * string -> list string).

(** X3. An upload that the parser accepts and during which no [addDoc]
    rejects, on a collection whose ids are ids the store has given out.
    The rows the parser delivers, one for each line of the file after the
    header and in the order of the lines, are gone through in that order;
    those that pass the test of the page give their records, and these
    are added in the order of their rows, each under an id that no
    document had and that no other gets. The name of the file is cleared. The
    success message is set before the collection is fetched again, not
    after as Add and Delete do: when that fetch rejects, the page ends up
    showing the error of the fetch, with the table it had, although every
    record was stored. A file without any accepted row makes no [addDoc]
    call, reports success for 0 records and still fetches the
    collection. *)
Theorem upload_outcome results st s :
  Papa.errors results = [] →
  well_formed s = true →
  let accepted := List.filter rowValid (Papa.data results) in
  let recs := recordFromRow columns rowYear headers <$> accepted in
  let ids := pretty <$> seq (next_id s) (length accepted) in
  Forall (eq fulfilled) (take (length accepted) (script s)) →
  let out := complete columns rowValid rowYear headers results st s in
  let fetched := nth (length accepted) (script s) fulfilled in
  csvFileName out.1 = "" ∧
  docs out.2 = docs s ++ zip ids recs ∧
  (docs out.2).*2 = (docs s).*2 ++ recs ∧
  (docs out.2).*1 = (docs s).*1 ++ ids ∧
  NoDup ((docs s).*1 ++ ids) ∧
  well_formed out.2 = true ∧
  script out.2 = drop (S (length accepted)) (script s) ∧
  (fetched = fulfilled →
     type (msg out.1) = "success" ∧
     (∃ mark, text (msg out.1)
              = mark +:+ pretty (length accepted)
                +:+ " records uploaded successfully!") ∧
     records out.1 ≡ₚ with_id <$> docs out.2) ∧
  (fetched ≠ fulfilled →
     type (msg out.1) = "error" ∧ records out.1 = records st) ∧
  (accepted = [] → docs out.2 = docs s) ∧
  (∀ f txt,
     endsWith (toLowerCase (Papa.name f)) ".csv" = true →
     Papa.contents f = Some txt →
     handleCSVUpload columns rowValid rowYear headers (Some f) st s
     = complete columns rowValid rowYear headers (Papa.parse txt)
         (setCsvFileName (Papa.name f) st) s ∧
     (∀ header lines,
        Papa.fields_of <$> Papa.lines txt = header :: lines →
        Papa.data (Papa.parse txt) = Papa.row_object header <$> lines)).
Proof.
  intros Herr Hwf. cbv zeta.
  set (accepted := List.filter rowValid (Papa.data results)).
  set (recs := recordFromRow columns rowYear headers <$> accepted).
  assert (length recs = length accepted) as Hlen by apply length_fmap.
  rewrite <- Hlen. intros Hok.
  unfold complete. rewrite Herr. cbn [length Nat.ltb Nat.leb].
  change (recordsToAdd columns rowValid rowYear headers (Papa.data results))
    with recs.
  rewrite (addAll_ok recs s Hok).
  pose proof (next_ids_fresh s (length recs) Hwf) as Hfresh.
  pose proof (well_formed_added s (length recs) recs Hwf eq_refl) as Hwf1.
  set (s1 := {| docs := _; next_id := _; script := drop (length recs) (script s) |})
    in *.
  set (st1 := showMessage _ "success" _).
  pose proof (fetchData_store st1 s1) as Hstore.
  pose proof (fetchData_records st1 s1) as Hrecords.
  assert (rejects s1 = match nth (length recs) (script s) fulfilled with
                       | fulfilled => false
                       | rejected _ => true
                       end) as Hrej.
  { unfold rejects, s1. cbn [script].
    generalize (length recs). generalize (script s). clear.
    induction l as [|o l IH]; intros [|n]; cbn; done. }
  assert (msg (fetchData st1 s1).1
          = if rejects s1
            then {| text := "❌ Error fetching data"; type := "error" |}
            else msg st1) as Hmsg.
  { unfold fetchData, getEmigrants, getDocs, rejects. rewrite next_outcome_spent.
    destruct (script s1) as [|[|c] sc]; done. }
  destruct (fetchData st1 s1) as [st2 s2]. cbn [fst snd] in *. subst s2.
  assert ((docs s1).*1 = (docs s).*1 ++ (pretty <$> seq (next_id s) (length recs)))
    as Hids.
  { unfold s1. cbn [docs]. rewrite fmap_app, fst_zip; [done|].
    rewrite length_fmap, length_seq. done. }
  split; [done|]. split; [done|]. split.
  { unfold s1. cbn [docs spent]. rewrite fmap_app, snd_zip; [done|].
    rewrite length_fmap, length_seq. done. }
  split; [exact Hids|]. split; [exact Hfresh|]. split.
  { apply well_formed_spec in Hwf1. by apply well_formed_spec. }
  split.
  { unfold s1. cbn [script spent]. apply tail_drop. }
  rewrite Hrej in Hmsg, Hrecords.
  split.
  { intros Hf. rewrite Hf in Hmsg, Hrecords. cbn. rewrite Hmsg.
    split; [done|]. split; [by exists "✅ "|by rewrite Hrecords]. }
  split.
  { intros Hf. destruct (nth (length recs) (script s) fulfilled); [done|].
    split; [cbn; by rewrite Hmsg|done]. }
  split.
  { intros Hnil. unfold s1, recs. rewrite Hnil. cbn. by rewrite app_nil_r. }
  intros f txt Hname Hcontents. split.
  - unfold handleCSVUpload. by rewrite Hname, Hcontents.
  - intros header lines Hlines. unfold Papa.parse. by rewrite Hlines.
Qed.

End Uploads.

(** ** The ids of a collection *)

(** A collection that a page has written to keeps ids that the store has
    given out: whatever the user does, the ids stay distinct and the next
    id is new. *)

Section Ids.

Import Firestore emigrantsService Page.

Lemma well_formed_spent s : well_formed (spent s) = well_formed s.
Proof. done. Qed.

Lemma well_formed_addDoc data s :
  well_formed s = true → well_formed (addDoc data s).2 = true.
Proof.
  intros Hwf. rewrite addDoc_outcome.
  destruct (script s) as [|[|c] sc] eqn:Hs; try exact Hwf;
    (pose proof (next_ids_fresh s 1 Hwf) as Hfresh;
     apply well_formed_spec in Hwf as [Hnd Hids]; apply well_formed_spec; cbn;
     rewrite fmap_app; cbn in Hfresh |- *; split; [done|];
     intros id [Hid|Hid]%elem_of_app;
     [destruct (Hids id Hid) as (n & Hn & ->); exists n; split; [lia|done]
     |apply list_elem_of_singleton in Hid as ->; exists (next_id s); split; [lia|done]]).
Qed.

Lemma well_formed_addAll recs : ∀ s,
  well_formed s = true → well_formed (addAll recs s).2 = true.
Proof.
  induction recs as [|r recs IH]; intros s Hwf; [done|].
  cbn [addAll]. unfold addEmigrant.
  pose proof (well_formed_addDoc r s Hwf) as H1.
  destruct (addDoc r s) as [[|c] s1]; [by apply IH|done].
Qed.

Lemma well_formed_updateDoc id data s :
  well_formed s = true → well_formed (updateDoc id data s).2 = true.
Proof.
  intros Hwf. rewrite updateDoc_outcome.
  assert (well_formed (with_docs (update_in id data <$> docs s) (spent s)) = true).
  { unfold well_formed in *. cbn.
    assert ((update_in id data <$> docs s).*1 = (docs s).*1) as ->; [|done].
    rewrite <- list_fmap_compose. apply list_fmap_ext. intros i d _.
    unfold update_in, compose. by destruct (bool_decide (d.1 = id)). }
  destruct (script s) as [|[|c] sc]; try exact Hwf;
    by destruct (has_doc id s).
Qed.

Lemma well_formed_deleteDoc id s :
  well_formed s = true → well_formed (deleteDoc id s).2 = true.
Proof.
  intros Hwf. rewrite deleteDoc_outcome.
  assert (well_formed
            (with_docs (List.filter (fun d => negb (bool_decide (d.1 = id))) (docs s))
                       (spent s)) = true).
  { apply well_formed_spec in Hwf as [Hnd Hids]. apply well_formed_spec. cbn.
    assert ((List.filter (fun d => negb (bool_decide (d.1 = id))) (docs s)).*1
            `sublist_of` (docs s).*1) as Hsub.
    { clear. induction (docs s) as [|d ds IH]; [done|]. cbn.
      destruct (negb _); cbn; by constructor. }
    split; [by eapply sublist_NoDup|].
    intros x Hx. apply Hids. by eapply elem_of_sublist. }
  destruct (script s) as [|[|c] sc]; done.
Qed.

Context (columns : list (string * string)) (defaultForm : obj).
Context (rowValid : obj -> bool) (rowYear : obj -> value).
Context (headers : string * string -> list string).
Context (failureMessage : string -> string).

Lemma well_formed_step e st s :
  well_formed s = true →
  well_formed
    (step columns defaultForm rowValid rowYear headers failureMessage (st, s) e).2
  = true.
Proof.
  intros Hwf.
  assert (∀ st1 s1 (wrap : state → state),
            well_formed s1 = true →
            well_formed (let (st2, s2) := fetchData st1 s1 in (wrap st2, s2)).2 = true)
    as Hfetch.
  { intros st1 s1 wrap Hs1. pose proof (fetchData_store st1 s1) as H.
    destruct (fetchData st1 s1) as [st2 s2]. cbn in *. by subst s2. }
  destruct e as [name v|name v| |r|id| |confirmed id|file|y]; cbn [step fst snd];
    try exact Hwf.
  - unfold handleAdd. destruct (negb _); [exact Hwf|]. unfold addEmigrant.
    pose proof (well_formed_addDoc (getRecordFromForm columns (form st)) s Hwf) as H1.
    destruct (addDoc _ s) as [[|c] s1]; [by apply Hfetch|done].
  - unfold handleSave, updateEmigrant.
    pose proof (well_formed_updateDoc id (getRecordFromForm columns (editForm st))
                  s Hwf) as H1.
    destruct (updateDoc _ _ s) as [[|c] s1]; [by apply Hfetch|done].
  - unfold handleDelete. destruct (negb confirmed); [exact Hwf|].
    unfold deleteEmigrant. pose proof (well_formed_deleteDoc id s Hwf) as H1.
    destruct (deleteDoc _ s) as [[|c] s1]; [by apply Hfetch|done].
  - unfold handleCSVUpload. destruct file as [f|]; [|exact Hwf].
    destruct (negb _); [exact Hwf|].
    destruct (Papa.contents f) as [txt|]; [|exact Hwf].
    unfold complete. destruct (0 <? _)%nat; [exact Hwf|].
    set (recs := recordsToAdd columns rowValid rowYear headers _).
    pose proof (well_formed_addAll recs s Hwf) as H1.
    destruct (addAll recs s) as [[|c] s1]; [by apply Hfetch|done].
Qed.

(** From the empty collection, and from any collection whose ids the store
    has given out, every session leaves such a collection. *)
Lemma well_formed_run es : ∀ st s,
  well_formed s = true →
  well_formed
    (run columns defaultForm rowValid rowYear headers failureMessage es (st, s)).2
  = true.
Proof.
  unfold run. induction es as [|e es IH]; intros st s Hwf; [done|].
  cbn [foldl]. pose proof (well_formed_step e st s Hwf) as H1.
  destruct (step columns defaultForm rowValid rowYear headers failureMessage (st, s) e)
    as [st' s'].
  by apply IH.
Qed.

End Ids.

(** ** What the pages store *)

Section Stored.

Import Firestore emigrantsService Page.

Lemma NumberOr0_int v : NumberOr0 v = int (Reading.numberOr0 v).
Proof.
  unfold NumberOr0, Reading.numberOr0, orElse.
  destruct (Number v) as [|z]; [done|]. cbn.
  destruct (Z.eqb_spec z 0) as [->|]; done.
Qed.

Lemma is_int_lookup (o : obj) k :
  Reading.is_int (get o k) = true → ∃ z, o !! k = Some (int z).
Proof.
  unfold get. destruct (o !! k) as [[| |?|[|z]]|]; try done. by exists z.
Qed.

Lemma whole_spec fields (r : obj) :
  Reading.whole fields r = true ↔ ∀ f, f ∈ fields → Reading.is_int (get r f) = true.
Proof.
  unfold Reading.whole. rewrite forallb_forall.
  by setoid_rewrite list_elem_of_In.
Qed.

Lemma whole_union fields (payload old : obj) :
  Reading.whole fields payload = true →
  Reading.whole fields (payload ∪ old) = true.
Proof.
  rewrite !whole_spec. intros H f Hf.
  destruct (is_int_lookup payload f (H f Hf)) as [z Hz].
  unfold get. by rewrite (lookup_union_Some_l _ _ _ _ Hz).
Qed.

Lemma fold_set_dom {A} (key : A → string) (mk : A → value) cols : ∀ acc : obj,
  dom (foldl (fun o c => set o (key c) (mk c)) acc cols)
  = dom acc ∪ list_to_set (key <$> cols).
Proof.
  induction cols as [|c cols IH]; intros acc; cbn [foldl].
  - rewrite fmap_nil, list_to_set_nil. by rewrite (right_id_L ∅ (∪)).
  - rewrite IH. unfold set. rewrite dom_insert_L, fmap_cons, list_to_set_cons.
    rewrite (comm_L (∪) {[key c]} (dom acc)). by rewrite (assoc_L (∪)).
Qed.

Lemma fold_set_get {A} (key : A → string) (mk : A → value) cols : ∀ (acc : obj) c,
  NoDup (key <$> cols) → c ∈ cols →
  get (foldl (fun o c => set o (key c) (mk c)) acc cols) (key c) = mk c.
Proof.
  induction cols as [|x cols IH] using rev_ind; intros acc c Hnd Hc.
  - by apply elem_of_nil in Hc.
  - rewrite foldl_app. cbn. rewrite fmap_app in Hnd.
    apply NoDup_app in Hnd as (Hnd & Hdisj & _).
    apply elem_of_app in Hc as [Hc|Hc].
    + unfold set, get at 1. rewrite lookup_insert_ne.
      * by apply IH.
      * intros Heq. apply (Hdisj (key c)).
        -- apply list_elem_of_fmap. eauto.
        -- cbn. rewrite <- Heq. by left.
    + apply list_elem_of_singleton in Hc as ->.
      unfold set, get. by rewrite lookup_insert_eq.
Qed.

Lemma fold_set_other {A} (key : A → string) (mk : A → value) cols : ∀ (acc : obj) k,
  k ∉ key <$> cols →
  get (foldl (fun o c => set o (key c) (mk c)) acc cols) k = get acc k.
Proof.
  induction cols as [|x cols IH]; intros acc k Hk; [done|].
  rewrite fmap_cons, not_elem_of_cons in Hk. destruct Hk as [Hx Hk].
  cbn [foldl]. rewrite IH by done.
  unfold set, get. by rewrite lookup_insert_ne.
Qed.

Section AnyColumns.

Context (columns : list (string * string)) (defaultForm : obj).
Context (rowValid : obj -> bool) (rowYear : obj -> value).
Context (headers : string * string -> list string).
Context (failureMessage : string -> string).

Lemma recordFromRow_dom row :
  dom (recordFromRow columns rowYear headers row)
  = {[ "year" ]} ∪ list_to_set columns.*2.
Proof.
  unfold recordFromRow.
  rewrite (fold_set_dom snd (fun c => NumberOr0 (firstOf row (headers c)))).
  by rewrite dom_singleton_L.
Qed.

Lemma getRecordFromForm_dom form :
  dom (getRecordFromForm columns form) = {[ "year" ]} ∪ list_to_set columns.*2.
Proof.
  unfold getRecordFromForm.
  rewrite (fold_set_dom snd (fun c => NumberOr0 (get form c.1))).
  by rewrite dom_singleton_L.
Qed.

Lemma with_id_own (d : string * obj) :
  "id" ∉ dom d.2 → get (with_id d) "id" = Str d.1.
Proof.
  intros Hid%not_elem_of_dom. unfold with_id, get.
  rewrite lookup_union_r by done. by rewrite lookup_singleton_eq.
Qed.

(** X4. The record built from a CSV row and the record built from a form have
    one field for the year and one for each category of the page, and
    nothing else: a column of the file that the page does not know, and a
    field of the form that is not a category, are dropped. In particular
    no [id] field is written into a document, so that the [id] which the
    service puts on a record it reads, and which a field [id] of the
    document would override, is the id of the document. *)
Theorem record_fields row form :
  dom (recordFromRow columns rowYear headers row)
  = {[ "year" ]} ∪ list_to_set columns.*2 ∧
  dom (getRecordFromForm columns form) = {[ "year" ]} ∪ list_to_set columns.*2 ∧
  ("id" ∉ "year" :: columns.*2 →
   ∀ id,
     get (with_id (id, recordFromRow columns rowYear headers row)) "id" = Str id ∧
     get (with_id (id, getRecordFromForm columns form)) "id" = Str id) ∧
  (∀ (id : string) (data : obj) v,
     data !! "id" = Some v → get (with_id (id, data)) "id" = v).
Proof.
  split; [apply recordFromRow_dom|]. split; [apply getRecordFromForm_dom|]. split.
  - intros Hid id.
    assert ("id" ∉ ({[ "year" ]} ∪ list_to_set columns.*2 : gset string)) as Hdom.
    { rewrite elem_of_union, elem_of_singleton, elem_of_list_to_set.
      rewrite not_elem_of_cons in Hid. intros [?|?]; [by destruct Hid|].
      by destruct Hid. }
    split; apply with_id_own; cbn [snd];
      by rewrite ?recordFromRow_dom, ?getRecordFromForm_dom.
  - intros id data v Hv. unfold with_id, get. cbn [snd].
    by rewrite (lookup_union_Some_l _ _ _ _ Hv).
Qed.

Lemma whole_getRecordFromForm form :
  NoDup columns.*2 →
  Reading.whole columns.*2 (getRecordFromForm columns form) = true.
Proof.
  intros Hnd. apply whole_spec. intros f Hf.
  apply list_elem_of_fmap in Hf as (c & -> & Hc).
  rewrite (getRecordFromForm_field columns form c Hnd Hc), NumberOr0_int. done.
Qed.

Lemma whole_recordFromRow row :
  NoDup columns.*2 →
  Reading.whole columns.*2 (recordFromRow columns rowYear headers row) = true.
Proof.
  intros Hnd. apply whole_spec. intros f Hf.
  apply list_elem_of_fmap in Hf as (c & -> & Hc).
  rewrite (recordFromRow_field columns rowYear headers row c Hnd Hc), NumberOr0_int.
  done.
Qed.

(** *** What every handler keeps

    A property [P] of documents that the records made from forms and from
    rows have, and that writing one such record into a document keeps, is
    kept by every handler; and so is, for the records on the page, what
    [P] makes of a document once it is read. *)

Section Kept.

Context (P Q : obj → Prop).
Hypothesis P_form : ∀ form, P (getRecordFromForm columns form).
Hypothesis P_row : ∀ row, P (recordFromRow columns rowYear headers row).
Hypothesis P_union : ∀ a b : obj, P a → P b → P (a ∪ b).
Hypothesis Q_read : ∀ d : string * obj, P d.2 → Q (with_id d).

Local Abbreviation stored s := (Forall (fun d : string * obj => P d.2) (docs s)).
Local Abbreviation shown st := (Forall Q (records st)).

Lemma fetchData_invariant st s :
  stored s → shown st → stored (fetchData st s).2 ∧ shown (fetchData st s).1.
Proof.
  intros Hs Hst. rewrite fetchData_store, fetchData_records. split; [done|].
  destruct (rejects s); [done|].
  apply Forall_fmap. eapply Forall_impl; [exact Hs|].
  intros d Hd. cbn. by apply Q_read.
Qed.

Lemma addAll_invariant recs : ∀ s,
  Forall P recs → stored s → stored (addAll recs s).2.
Proof.
  induction recs as [|r recs IH]; intros s Hrecs Hs; [done|].
  apply Forall_cons in Hrecs as [Hr Hrecs]. cbn [addAll].
  unfold addEmigrant. rewrite addDoc_outcome.
  destruct (script s) as [|[|c] sc]; try done;
    apply IH; try done; cbn;
    (apply Forall_app; split; [done|by constructor]).
Qed.

Lemma step_invariant e st s :
  stored s → shown st →
  stored
    (step columns defaultForm rowValid rowYear headers failureMessage (st, s) e).2 ∧
  shown
    (step columns defaultForm rowValid rowYear headers failureMessage (st, s) e).1.
Proof.
  intros Hs Hst.
  assert (∀ st1 s1, stored s1 → shown st1 →
            ∀ wrap : state → state,
              (∀ x, records (wrap x) = records x) →
              stored (let (st2, s2) := fetchData st1 s1 in (wrap st2, s2)).2 ∧
              shown (let (st2, s2) := fetchData st1 s1 in (wrap st2, s2)).1)
    as Hfetch.
  { intros st1 s1 Hs1 Hst1 wrap Hwrap.
    destruct (fetchData_invariant st1 s1 Hs1 Hst1) as [H1 H2].
    destruct (fetchData st1 s1) as [st2 s2]. split; [exact H1|].
    cbn. by rewrite Hwrap. }
  destruct e as [name v|name v| |r|id| |confirmed id|file|y]; cbn [step fst snd];
    try (split; [exact Hs|exact Hst]).
  - (* Add *)
    unfold handleAdd. destruct (negb _); [split; [exact Hs|exact Hst]|].
    unfold addEmigrant. rewrite addDoc_outcome.
    set (s1 := {| docs := docs s ++ _; next_id := _; script := _ |}).
    assert (stored s1) as Hs1.
    { unfold s1. cbn. apply Forall_app. split; [done|].
      constructor; [|done]. apply P_form. }
    destruct (script s) as [|[|c] sc]; [| |split; [exact Hs|exact Hst]];
      by apply (Hfetch (setForm defaultForm st) s1 Hs1 Hst).
  - (* Save *)
    unfold handleSave, updateEmigrant. rewrite updateDoc_outcome.
    set (payload := getRecordFromForm columns (editForm st)).
    set (s1 := with_docs _ (spent s)).
    assert (stored s1) as Hs1.
    { unfold s1. cbn. apply Forall_fmap.
      eapply Forall_impl; [exact Hs|]. intros d Hd. unfold update_in. cbn.
      case_bool_decide; [|done]. cbn. apply P_union; [apply P_form|done]. }
    destruct (script s) as [|[|c] sc]; [| |split; [exact Hs|exact Hst]];
      (destruct (has_doc id s); [|split; [exact Hs|exact Hst]]);
      by apply (Hfetch (setEditForm ∅ (setEditingId null st)) s1 Hs1 Hst).
  - (* Delete *)
    unfold handleDelete. destruct (negb confirmed); [split; [exact Hs|exact Hst]|].
    unfold deleteEmigrant. rewrite deleteDoc_outcome.
    set (s1 := with_docs _ (spent s)).
    assert (stored s1) as Hs1.
    { unfold s1. cbn. rewrite Forall_forall. intros d Hd.
      apply list_elem_of_In, filter_In in Hd as [Hd _].
      rewrite Forall_forall in Hs.
      by apply Hs, list_elem_of_In. }
    destruct (script s) as [|[|c] sc]; [| |split; [exact Hs|exact Hst]];
      by apply (Hfetch st s1 Hs1 Hst).
  - (* Upload *)
    unfold handleCSVUpload. destruct file as [f|]; [|split; [exact Hs|exact Hst]].
    destruct (negb _); [split; [exact Hs|exact Hst]|].
    destruct (Papa.contents f) as [txt|]; [|split; [exact Hs|exact Hst]].
    unfold complete. destruct (0 <? _)%nat; [split; [exact Hs|exact Hst]|].
    set (recs := recordsToAdd columns rowValid rowYear headers _).
    assert (stored (addAll recs s).2) as Hs1.
    { apply addAll_invariant; [|done]. unfold recs, recordsToAdd.
      apply Forall_fmap, Forall_forall. intros row _. cbn. apply P_row. }
    destruct (addAll recs s) as [[|c] s1]; [|split; [exact Hs1|exact Hst]].
    by apply Hfetch.
Qed.

Lemma run_invariant es : ∀ st s,
  stored s → shown st →
  stored
    (run columns defaultForm rowValid rowYear headers failureMessage es (st, s)).2 ∧
  shown
    (run columns defaultForm rowValid rowYear headers failureMessage es (st, s)).1.
Proof.
  unfold run. induction es as [|e es IH]; intros st s Hs Hst; [by split|].
  cbn [foldl].
  destruct (step_invariant e st s Hs Hst) as [H1 H2].
  destruct (step columns defaultForm rowValid rowYear headers failureMessage (st, s) e)
    as [st' s'].
  by apply IH.
Qed.

End Kept.

Lemma all_whole_spec fields recs :
  Reading.all_whole fields recs = true
  ↔ Forall (fun r : obj => Reading.whole fields r = true) recs.
Proof.
  unfold Reading.all_whole. rewrite forallb_forall, Forall_forall.
  by setoid_rewrite list_elem_of_In.
Qed.

Lemma all_whole_docs fields (ds : list (string * obj)) :
  Reading.all_whole fields ds.*2 = true
  ↔ Forall (fun d : string * obj => Reading.whole fields d.2 = true) ds.
Proof. by rewrite all_whole_spec, Forall_fmap. Qed.

(** X5. Whatever the user does, in any order (typing, Add, Edit, Save, Cancel,
    Delete, uploads of any file, with store calls that go through or
    reject), a category field of a document never comes to hold a text,
    [NaN] or nothing: when every document and every record shown holds a
    number in each category field, this is still so afterwards. So the
    sums of the tables and charts never turn into concatenations of
    texts. *)
Theorem stored_counts_stay_numbers es st s :
  NoDup columns.*2 →
  Reading.all_whole columns.*2 (docs s).*2 = true →
  Reading.all_whole columns.*2 (records st) = true →
  let out :=
    run columns defaultForm rowValid rowYear headers failureMessage es (st, s) in
  Reading.all_whole columns.*2 (docs out.2).*2 = true ∧
  Reading.all_whole columns.*2 (records out.1) = true.
Proof.
  intros Hnd Hs Hst. cbv zeta. rewrite all_whole_docs, all_whole_spec.
  apply (run_invariant (fun r => Reading.whole columns.*2 r = true)
                       (fun r => Reading.whole columns.*2 r = true)).
  - intros form. by apply whole_getRecordFromForm.
  - intros row. by apply whole_recordFromRow.
  - intros a b Ha _. by apply whole_union.
  - intros d Hd. by apply whole_union.
  - by apply all_whole_docs.
  - by apply all_whole_spec.
Qed.

(** X6. Whatever the user does, the documents keep the same fields: when every
    document has exactly the year and the categories of the page (and
    every record shown these and its [id]), this is still so afterwards.
    No handler adds a field to a document or drops one, a Save replaces
    every field of the document it updates, and the [id] that the table
    shows for a document, with which Save and Delete address the store, is
    the id of that document. *)
Theorem stored_fields_stay es st s :
  "id" ∉ "year" :: columns.*2 →
  Forall (fun d : string * obj =>
            dom d.2 = {[ "year" ]} ∪ list_to_set columns.*2) (docs s) →
  Forall (fun r : obj =>
            dom r = {[ "year" ]} ∪ list_to_set columns.*2 ∪ {[ "id" ]}) (records st) →
  let out :=
    run columns defaultForm rowValid rowYear headers failureMessage es (st, s) in
  Forall (fun d : string * obj =>
            dom d.2 = {[ "year" ]} ∪ list_to_set columns.*2) (docs out.2) ∧
  Forall (fun r : obj =>
            dom r = {[ "year" ]} ∪ list_to_set columns.*2 ∪ {[ "id" ]})
         (records out.1) ∧
  Forall (fun d : string * obj =>
            get (with_id d) "id" = Str d.1 ∧
            ∀ form, getRecordFromForm columns form ∪ d.2
                    = getRecordFromForm columns form) (docs out.2).
Proof.
  intros Hid Hs Hst. cbv zeta.
  destruct (run_invariant
              (fun r => dom r = {[ "year" ]} ∪ list_to_set columns.*2)
              (fun r => dom r = {[ "year" ]} ∪ list_to_set columns.*2 ∪ {[ "id" ]})
              getRecordFromForm_dom recordFromRow_dom) with (es := es) (st := st) (s := s)
    as [H1 H2]; [| |done|done|].
  - intros a b Ha Hb. rewrite dom_union_L, Ha, Hb. by rewrite (idemp_L (∪)).
  - intros d Hd. unfold with_id. by rewrite dom_union_L, Hd, dom_singleton_L.
  - split; [exact H1|]. split; [exact H2|].
    eapply Forall_impl; [exact H1|]. intros d Hd. cbn in Hd. split.
    + apply with_id_own. rewrite Hd.
      rewrite elem_of_union, elem_of_singleton, elem_of_list_to_set.
      rewrite not_elem_of_cons in Hid. intros [?|?]; by destruct Hid.
    + intros form. apply union_covered. by rewrite Hd, getRecordFromForm_dom.
Qed.

End AnyColumns.

(** X7. The same on the education page, whose Save checks the id and the year
    before it calls the store: whatever the user does there, the category
    fields of the documents and of the records shown stay numbers. *)
Theorem education_counts_stay_numbers es st s :
  Reading.all_whole HorizontalChartPage.eduSafeFields (docs s).*2 = true →
  Reading.all_whole HorizontalChartPage.eduSafeFields (records st) = true →
  let out := HorizontalChartPage.run es (st, s) in
  Reading.all_whole HorizontalChartPage.eduSafeFields (docs out.2).*2 = true ∧
  Reading.all_whole HorizontalChartPage.eduSafeFields (records out.1) = true.
Proof.
  cbv zeta. unfold HorizontalChartPage.eduSafeFields.
  rewrite !all_whole_docs, !all_whole_spec.
  assert (NoDup HorizontalChartPage.eduFieldMappings.*2) as Hnd
    by (by apply NoDup_by_computation).
  unfold HorizontalChartPage.run. revert st s.
  induction es as [|e es IH]; intros st s Hs Hst; [by split|].
  cbn [foldl].
  assert (Forall (fun d : string * obj =>
            Reading.whole HorizontalChartPage.eduFieldMappings.*2 d.2 = true)
            (docs (HorizontalChartPage.step (st, s) e).2) ∧
          Forall (fun r : obj =>
            Reading.whole HorizontalChartPage.eduFieldMappings.*2 r = true)
            (records (HorizontalChartPage.step (st, s) e).1)) as [H1 H2].
  { pose proof (step_invariant HorizontalChartPage.eduFieldMappings
                  HorizontalChartPage.defaultForm HorizontalChartPage.rowValid
                  HorizontalChartPage.rowYear HorizontalChartPage.headers
                  HorizontalChartPage.errorMessage
                  (fun r => Reading.whole HorizontalChartPage.eduFieldMappings.*2 r = true)
                  (fun r => Reading.whole HorizontalChartPage.eduFieldMappings.*2 r = true)
                  (fun form => whole_getRecordFromForm _ form Hnd)
                  (fun row => whole_recordFromRow _ _ _ row Hnd)
                  (fun a b Ha _ => whole_union _ a b Ha)
                  (fun d Hd => whole_union _ _ _ Hd)
                  e st s Hs Hst) as Hstep.
    destruct e; try exact Hstep.
    unfold HorizontalChartPage.step, HorizontalChartPage.handleSave. cbn [fst snd].
    case_bool_decide; [by split|].
    destruct (_ || _); [by split|]. exact Hstep. }
  destruct (HorizontalChartPage.step (st, s) e) as [st' s']. by apply IH.
Qed.

End Stored.

(** ** Edit, then Save *)

Section RoundTrip.

Import Firestore emigrantsService Page.

(** The text the edit form shows for a stored number reads back as that
    number; 0 is shown as the empty text, which reads back as 0. *)
Lemma Number_shown z :
  Number (Str (ToString (orElse (VNum (Num z)) (Str "")))) = Num z.
Proof.
  unfold orElse. cbn [ToBoolean]. destruct (Z.eqb_spec z 0) as [->|Hz].
  - reflexivity.
  - cbn [negb ToString]. apply (Number_option_value (Num z)).
Qed.

Lemma fmap_fixed {A} (f : A → A) l : Forall (fun x => f x = x) l → f <$> l = l.
Proof. induction 1 as [|x l Hx _ IH]; [done|]. cbn. by rewrite Hx, IH. Qed.

Lemma same_id_same_doc (ds : list (string * obj)) d d' :
  NoDup ds.*1 → d ∈ ds → d' ∈ ds → d'.1 = d.1 → d' = d.
Proof.
  induction ds as [|x ds IH]; intros Hnd Hd Hd' Heq.
  - by apply elem_of_nil in Hd.
  - rewrite fmap_cons in Hnd. apply NoDup_cons in Hnd as [Hx Hnd].
    apply elem_of_cons in Hd as [->|Hd]; apply elem_of_cons in Hd' as [->|Hd'].
    + done.
    + exfalso. apply Hx. rewrite <- Heq. apply list_elem_of_fmap. eauto.
    + exfalso. apply Hx. rewrite Heq. apply list_elem_of_fmap. eauto.
    + by apply IH.
Qed.

Section AnyColumns.

Context (columns : list (string * string)) (defaultForm : obj).
Context (rowValid : obj -> bool) (rowYear : obj -> value).
Context (headers : string * string -> list string).
Context (failureMessage : string -> string).

Lemma formState_field r c :
  NoDup columns.*1 → c ∈ columns →
  get (formState columns r) c.1 = Str (ToString (orElse (get r c.2) (Str ""))).
Proof.
  intros Hnd Hc. unfold formState.
  by rewrite (fold_set_get fst
                (fun c => Str (ToString (orElse (get r c.2) (Str ""))))).
Qed.

Lemma formState_year r :
  "year" ∉ columns.*1 →
  get (formState columns r) "year"
  = Str (ToString (orElse (get r "year") (Str ""))).
Proof.
  intros Hy. unfold formState.
  by rewrite (fold_set_other fst
                (fun c => Str (ToString (orElse (get r c.2) (Str ""))))).
Qed.

Lemma get_with_id (d : string * obj) k :
  Reading.is_int (get d.2 k) = true → get (with_id d) k = get d.2 k.
Proof.
  intros H. destruct (is_int_lookup _ _ H) as [z Hz].
  unfold with_id, get. by rewrite (lookup_union_Some_l _ _ _ _ Hz), Hz.
Qed.

Lemma untouched_payload (d : string * obj) k :
  NoDup ("year" :: columns.*1) → NoDup ("year" :: columns.*2) →
  Reading.whole ("year" :: columns.*2) d.2 = true →
  k ∈ "year" :: columns.*2 →
  get (getRecordFromForm columns (formState columns (with_id d))) k = get d.2 k.
Proof.
  intros [Hy1 Hnd1]%NoDup_cons [Hy2 Hnd2]%NoDup_cons Hwhole Hk.
  rewrite whole_spec in Hwhole. pose proof (Hwhole k Hk) as Hint.
  pose proof (get_with_id d k Hint) as Hid.
  destruct (get d.2 k) as [| |?|[|z]] eqn:Hget; try done.
  apply elem_of_cons in Hk as [->|Hk].
  - rewrite getRecordFromForm_year, formState_year by done.
    by rewrite Hid, Number_shown.
  - apply list_elem_of_fmap in Hk as (c & -> & Hc).
    rewrite getRecordFromForm_field, formState_field by done.
    rewrite Hid, NumberOr0_int. unfold Reading.numberOr0.
    by rewrite Number_shown.
Qed.

Lemma untouched_union (d : string * obj) :
  NoDup ("year" :: columns.*1) → NoDup ("year" :: columns.*2) →
  Reading.whole ("year" :: columns.*2) d.2 = true →
  getRecordFromForm columns (formState columns (with_id d)) ∪ d.2 = d.2.
Proof.
  intros Hnd1 Hnd2 Hwhole.
  set (payload := getRecordFromForm columns (formState columns (with_id d))).
  apply map_subseteq_union, map_subseteq_spec. intros k x Hx.
  assert (k ∈ "year" :: columns.*2) as Hk.
  { assert (k ∈ dom payload) as Hdom by (apply elem_of_dom; eauto).
    unfold payload, getRecordFromForm in Hdom.
    rewrite (fold_set_dom snd), dom_singleton_L in Hdom.
    rewrite elem_of_union, elem_of_singleton, elem_of_list_to_set in Hdom.
    apply elem_of_cons. exact Hdom. }
  pose proof (untouched_payload d k Hnd1 Hnd2 Hwhole Hk) as Hget.
  fold payload in Hget. rewrite whole_spec in Hwhole.
  destruct (is_int_lookup _ _ (Hwhole k Hk)) as [z Hz].
  unfold get in Hget. rewrite Hx, Hz in Hget. cbn in Hget. by rewrite Hz, Hget.
Qed.

Lemma untouched_save (d : string * obj) st s :
  NoDup ("year" :: columns.*1) → NoDup ("year" :: columns.*2) →
  Reading.whole ("year" :: columns.*2) d.2 = true →
  NoDup (docs s).*1 → d ∈ docs s →
  docs (handleSave columns failureMessage d.1 (handleEdit columns (with_id d) st) s).2
  = docs s.
Proof.
  intros Hnd1 Hnd2 Hwhole Hids Hd.
  unfold handleSave, updateEmigrant. rewrite updateDoc_outcome.
  cbn [handleEdit editForm setEditForm setEditingId].
  set (payload := getRecordFromForm columns (formState columns (with_id d))).
  set (st1 := setEditForm ∅ _).
  set (s1 := with_docs _ (spent s)).
  assert (docs s1 = docs s) as Hs1.
  { unfold s1. cbn. apply fmap_fixed, Forall_forall. intros d' Hd'.
    unfold update_in. case_bool_decide as Heq; [|done].
    rewrite (same_id_same_doc (docs s) d d' Hids Hd Hd' Heq).
    unfold payload. rewrite untouched_union by done. by destruct d. }
  pose proof (fetchData_store st1 s1) as Hst.
  destruct (script s) as [|[|c] sc]; [| |done];
    (destruct (has_doc d.1 s); [|done]);
    destruct (fetchData st1 s1) as [st2 s2]; cbn in Hst |- *; by subst s2.
Qed.

(** X8. Edit on a row, then Save without typing anything, on a document whose
    year and categories are numbers. The record sent carries, for the year
    and for every category, the number the document holds (a 0 is shown as
    an empty box and comes back as 0), so writing it into the document
    changes nothing; after the two clicks the collection holds the same
    documents, and when the update goes through the row has left edit
    mode. *)
Theorem edit_then_save_unchanged d st s :
  NoDup ("year" :: columns.*1) → NoDup ("year" :: columns.*2) →
  Reading.whole ("year" :: columns.*2) d.2 = true →
  NoDup (docs s).*1 → d ∈ docs s → d.2 !! "id" = None →
  let payload := getRecordFromForm columns (formState columns (with_id d)) in
  let out :=
    run columns defaultForm rowValid rowYear headers failureMessage
        [ClickEdit (with_id d); ClickSave d.1] (st, s) in
  editingId (handleEdit columns (with_id d) st) = Str d.1 ∧
  (∀ k, k ∈ "year" :: columns.*2 → get payload k = get d.2 k) ∧
  payload ∪ d.2 = d.2 ∧
  docs out.2 = docs s ∧
  (rejects s = false → editingId out.1 = null ∧ editForm out.1 = ∅).
Proof.
  intros Hnd1 Hnd2 Hwhole Hids Hd Hnoid. cbv zeta.
  split.
  { cbn. unfold with_id, get. rewrite lookup_union_r by done.
    by rewrite lookup_singleton_eq. }
  split; [intros k Hk; by apply untouched_payload|].
  split; [by apply untouched_union|].
  split; [by apply untouched_save|].
  intros Hrej. cbn [run foldl step fst snd].
  unfold handleSave, updateEmigrant. rewrite updateDoc_outcome.
  assert (has_doc d.1 s = true) as ->.
  { apply bool_decide_eq_true_2, list_elem_of_fmap. eauto. }
  set (st1 := setEditForm ∅ _). set (s1 := with_docs _ (spent s)).
  pose proof (fetchData_keeps st1 s1) as (Hid & Hform & _).
  unfold rejects in Hrej.
  destruct (script s) as [|[|c] sc]; [| |done];
    destruct (fetchData st1 s1) as [st2 s2]; by split.
Qed.

End AnyColumns.

End RoundTrip.

(** ** Years and filters *)

Section Filters.

Import Firestore emigrantsService Page.

(** With a year [z] that is not 0 selected, the filter keeps the records
    whose year is [z], among records whose year is a number or absent. *)
Lemma filtered_by_year recs z :
  Forall Spec.numeric_year recs → z ≠ 0 →
  filteredRecords recs (option_value (Num z))
  = List.filter (fun r => bool_decide (get r "year" = int z)) recs.
Proof.
  intros Hnum Hz. unfold filteredRecords.
  rewrite bool_decide_eq_false_2 by apply option_value_not_All.
  rewrite Number_option_value. apply List.filter_ext_in.
  intros r Hr%list_elem_of_In. rewrite Forall_forall in Hnum.
  specialize (Hnum r Hr). unfold Spec.numeric_year in Hnum.
  destruct (get r "year") as [| |t|[|x]].
  - by rewrite bool_decide_eq_false_2.
  - rewrite bool_decide_eq_false_2 by done. cbn. by destruct z.
  - rewrite bool_decide_eq_false_2 by done.
    cbn in Hnum. apply bool_decide_eq_true_1 in Hnum as ->. cbn.
    by destruct z.
  - by rewrite bool_decide_eq_false_2.
  - cbn. destruct (Z.eqb_spec x z) as [->|Hne].
    + by rewrite bool_decide_eq_true_2.
    + rewrite bool_decide_eq_false_2; [done|]. intros [= ?]. done.
Qed.

Lemma years_listed recs y :
  Forall Spec.numeric_year recs → y ∈ years recs →
  ∃ z, y = Num z ∧ z ≠ 0 ∧ ∃ r, r ∈ recs ∧ get r "year" = int z.
Proof.
  intros Hnum Hy.
  destruct (years_ascending recs Hnum) as (zs & Hzs & _ & Hmem).
  rewrite Hzs in Hy. apply list_elem_of_fmap in Hy as (z & -> & Hz).
  apply Hmem in Hz as [Hz Hr]. eauto.
Qed.

(** X9. Every year the selector offers selects something: among records whose
    year is a number or absent, a listed year is a number that is not 0,
    choosing it shows exactly the records of that year, in the order of the
    table, and there is at least one. *)
Theorem listed_year_selects recs y :
  Forall Spec.numeric_year recs → y ∈ years recs →
  ∃ z, y = Num z ∧ z ≠ 0 ∧
       filteredRecords recs (option_value y)
       = List.filter (fun r => bool_decide (get r "year" = int z)) recs ∧
       filteredRecords recs (option_value y) ≠ [].
Proof.
  intros Hnum Hy.
  destruct (years_listed recs y Hnum Hy) as (z & -> & Hz & r & Hr & Hyear).
  exists z. split; [done|]. split; [done|].
  rewrite filtered_by_year by done. split; [done|].
  intros Hnil.
  assert (r ∈ List.filter (fun r => bool_decide (get r "year" = int z)) recs) as Hin.
  { apply list_elem_of_In, filter_In. split; [by apply list_elem_of_In|].
    by apply bool_decide_eq_true_2. }
  rewrite Hnil in Hin. by apply elem_of_nil in Hin.
Qed.

Lemma sorted_lt_NoDup zs : StronglySorted Z.lt zs → NoDup zs.
Proof.
  induction 1 as [|z zs _ IH Hz]; constructor; [|done].
  intros Hin. rewrite Forall_forall in Hz. specialize (Hz z Hin). lia.
Qed.

Lemma sum_no_match (v : value) (c : Z) zs :
  (∀ z, z ∈ zs → v ≠ int z) →
  Reading.sum ((fun z => if bool_decide (v = int z) then c else 0) <$> zs) = 0.
Proof.
  induction zs as [|z zs IH]; intros H; [done|].
  cbn. rewrite bool_decide_eq_false_2 by (apply H; left).
  fold (Reading.sum ((fun z => if bool_decide (v = int z) then c else 0) <$> zs)).
  rewrite IH; [done|]. intros z' Hz'. apply H. by right.
Qed.

Lemma sum_one_match (z0 c : Z) zs :
  NoDup zs → z0 ∈ zs →
  Reading.sum ((fun z => if bool_decide (int z0 = int z) then c else 0) <$> zs) = c.
Proof.
  induction zs as [|z zs IH]; intros Hnd Hin; [by apply elem_of_nil in Hin|].
  apply NoDup_cons in Hnd as [Hz Hnd]. cbn.
  fold (Reading.sum ((fun z => if bool_decide (int z0 = int z) then c else 0) <$> zs)).
  apply elem_of_cons in Hin as [->|Hin].
  - rewrite bool_decide_eq_true_2 by done.
    rewrite sum_no_match; [lia|]. intros z' Hz' [= ->]. done.
  - rewrite bool_decide_eq_false_2.
    + rewrite IH by done. lia.
    + intros [= ->]. done.
Qed.

Lemma sum_zero (zs : list Z) : Reading.sum ((fun _ => 0) <$> zs) = 0.
Proof.
  induction zs as [|z zs IH]; [done|]. cbn.
  fold (Reading.sum ((fun _ : Z => 0) <$> zs)). by rewrite IH.
Qed.

Lemma sum_add (g h : Z → Z) zs :
  Reading.sum ((fun z => g z + h z) <$> zs)
  = Reading.sum (g <$> zs) + Reading.sum (h <$> zs).
Proof.
  induction zs as [|z zs IH]; [done|]. cbn.
  fold (Reading.sum ((fun z => g z + h z) <$> zs)).
  fold (Reading.sum (g <$> zs)). fold (Reading.sum (h <$> zs)). lia.
Qed.

(** The records of each listed year and the records without a year split
    the table: their sums add up to the sum over all the records. *)
Lemma split_by_year f zs recs :
  NoDup zs → 0 ∉ zs →
  Forall (fun r => Spec.numeric_year r ∧
                   (ToBoolean (get r "year") = true →
                    ∃ z, z ∈ zs ∧ get r "year" = int z)) recs →
  Reading.sum
    ((fun z => Spec.total
                 (List.filter (fun r => bool_decide (get r "year" = int z)) recs) f)
       <$> zs)
  + Spec.total (List.filter (fun r => negb (ToBoolean (get r "year"))) recs) f
  = Spec.total recs f.
Proof.
  intros Hnd H0. induction 1 as [|r recs [Hnum Hr] _ IH].
  - cbn [List.filter Spec.total foldr]. by rewrite sum_zero.
  - cbn [Spec.total foldr]. fold (Spec.total recs f). rewrite <- IH.
    rewrite (list_fmap_ext _
      (fun z => (if bool_decide (get r "year" = int z) then Spec.count r f else 0)
                + Spec.total
                    (List.filter (fun r => bool_decide (get r "year" = int z)) recs) f)
      zs).
    2:{ intros i z _. cbn [List.filter]. by destruct (bool_decide _). }
    rewrite sum_add. cbn [List.filter].
    destruct (ToBoolean (get r "year")) eqn:Ht; cbn [negb].
    + destruct (Hr eq_refl) as (z0 & Hz0 & Hy). rewrite Hy.
      rewrite sum_one_match by done. lia.
    + rewrite sum_no_match.
      * cbn [Spec.total foldr].
        fold (Spec.total (List.filter (fun r => negb (ToBoolean (get r "year"))) recs) f).
        lia.
      * intros z Hz Hy. rewrite Hy in Ht. cbn in Ht.
        apply negb_false_iff, Z.eqb_eq in Ht. by subst.
Qed.

Lemma mass_submseteq l1 l2 f : l1 ⊆+ l2 → Reading.mass l1 f ≤ Reading.mass l2 f.
Proof.
  induction 1 as [|x l1 l2 _ IH|x y l|x l1 l2 _ IH|l1 l2 l3 _ IH1 _ IH2];
    cbn [Reading.mass foldr]; [done| | | |lia].
  - fold (Reading.mass l1 f). fold (Reading.mass l2 f). lia.
  - fold (Reading.mass l f). lia.
  - fold (Reading.mass l2 f). lia.
Qed.

Lemma total_within_mass l f : Z.abs (Spec.total l f) ≤ Reading.mass l f.
Proof.
  induction l as [|r l IH]; cbn [Spec.total Reading.mass foldr]; [done|].
  fold (Spec.total l f). fold (Reading.mass l f). lia.
Qed.

(** Within the mass of the whole table, the sum of a field over some of
    the records, taken in any order, is exact. *)
Lemma exact_within l recs f :
  Reading.exact (Reading.mass recs f) = true → l ⊆+ recs →
  Reading.exact (Spec.total l f) = true.
Proof.
  unfold Reading.exact. rewrite !Z.leb_le. intros Hrecs Hl.
  pose proof (mass_submseteq l recs f Hl). pose proof (total_within_mass l f).
  assert (0 ≤ Reading.mass recs f) by (pose proof (total_within_mass recs f); lia).
  lia.
Qed.

Lemma filter_submseteq (p : obj → bool) l : List.filter p l ⊆+ l.
Proof.
  induction l as [|r l IH]; cbn; [done|].
  destruct (p r); [by constructor|by apply submseteq_cons].
Qed.

(** X10. The views by year split the "All" view. Among records whose year is a
    number or absent and whose field [f] holds whole numbers (or nothing)
    that stay, added up in absolute value, within the range in which the
    arithmetic of the pages is exact, the total of [f] under "All" is the
    sum of its totals under each year of the selector, plus the total
    over the records that have no year (or year 0), which no year of the
    selector shows; and every sum that the pages form on the way is
    exact. *)
Theorem year_views_split recs f :
  Forall Spec.numeric_year recs →
  Forall (fun r => Spec.is_count (get r f) = true) recs →
  Reading.exact (Reading.mass recs f) = true →
  (∀ l, l ⊆+ recs → Reading.exact (Spec.total l f) = true) ∧
  ∃ ts,
    Forall2 (fun y t => total (filteredRecords recs (option_value y)) f = int t)
            (years recs) ts ∧
    Forall (fun t => Reading.exact t = true) ts ∧
    total (filteredRecords recs "All") f
    = int (Reading.sum ts
           + Spec.total
               (List.filter (fun r => negb (ToBoolean (get r "year"))) recs) f).
Proof.
  intros Hnum Hf Hmass.
  split; [intros l Hl; by apply (exact_within l recs)|].
  destruct (years_ascending recs Hnum) as (zs & Hzs & Hsorted & Hmem).
  set (by_year := fun z =>
         Spec.total (List.filter (fun r => bool_decide (get r "year" = int z)) recs) f).
  exists (by_year <$> zs). split; [|split].
  - rewrite Hzs. apply Forall2_fmap, Forall_Forall2_diag, Forall_forall.
    intros z Hz. apply Hmem in Hz as [Hz _].
    rewrite filtered_by_year by done. apply total_numeric.
    rewrite Forall_forall in Hf |- *. intros r Hr.
    apply list_elem_of_In, filter_In in Hr as [Hr _]. by apply Hf, list_elem_of_In.
  - apply Forall_fmap, Forall_forall. intros z _. cbn. unfold by_year.
    apply (exact_within _ recs); [done|apply filter_submseteq].
  - unfold filteredRecords. rewrite bool_decide_eq_true_2 by done.
    rewrite total_numeric by done. f_equal. unfold by_year.
    symmetry. apply split_by_year.
    + by apply sorted_lt_NoDup.
    + intros H0. apply Hmem in H0 as [H0 _]. done.
    + rewrite Forall_forall in Hnum |- *. intros r Hr. split; [by apply Hnum|].
      intros Ht. destruct (truthy_count _ Ht (Hnum r Hr)) as (z & Hy & Hz).
      exists z. split; [|done]. apply Hmem. eauto.
Qed.

End Filters.

(** ** A year that is 0 or missing *)

Section OddYears.

Import Firestore emigrantsService Page.

Lemma not_elem_by_computation (k : string) (l : list string) :
  bool_decide (k ∈ l) = false → k ∉ l.
Proof. apply bool_decide_eq_false_1. Qed.

(** X12. On the education page Save asks for a year that is a number. The edit
    form shows a year that is 0, [NaN] or missing as an empty box, so
    Save on such a row, with nothing typed, is refused: an error is shown,
    the row stays in edit mode and the store is not called. The pages that
    do not check the year send the record with the year 0 instead. *)
Theorem falsy_year_blocks_save r id st s :
  ToBoolean (get r "year") = false → id ≠ "" →
  get (editForm (HorizontalChartPage.handleEdit r st)) "year" = Str "" ∧
  HorizontalChartPage.handleSave id (HorizontalChartPage.handleEdit r st) s
  = (showMessage "❌ Please enter a valid year" "error"
       (HorizontalChartPage.handleEdit r st), s) ∧
  get (TreemapPage.getRecordFromForm (editForm (TreemapPage.handleEdit r st))) "year"
  = int 0.
Proof.
  intros Hfalsy Hid.
  assert (∀ cols, "year" ∉ cols.*1 → get (formState cols r) "year" = Str "") as Hbox.
  { intros cols Hcols. rewrite formState_year by done.
    unfold orElse. by rewrite Hfalsy. }
  assert (get (editForm (HorizontalChartPage.handleEdit r st)) "year" = Str "")
    as Hedu.
  { apply Hbox. by apply not_elem_by_computation. }
  split; [exact Hedu|]. split.
  - unfold HorizontalChartPage.handleSave.
    rewrite bool_decide_eq_false_2 by done. by rewrite Hedu.
  - unfold TreemapPage.getRecordFromForm.
    rewrite getRecordFromForm_year.
    + unfold TreemapPage.handleEdit. cbn [handleEdit editForm setEditForm setEditingId].
      rewrite Hbox; [done|]. by apply not_elem_by_computation.
    + by apply not_elem_by_computation.
Qed.

End OddYears.

(** ** A count that is a text *)

Section Texts.

Import Page.

Lemma total_stays_text recs f : ∀ s,
  ∃ s', foldl (fun sum item => add sum (orElse (get item f) (int 0))) (Str s) recs
        = Str s'.
Proof.
  induction recs as [|r recs IH]; intros s; [by exists s|].
  cbn [foldl]. apply IH.
Qed.

(** X13. The sum of a field is taken with [+], which joins texts. One record
    that holds a text where a count is expected, and the total of that
    field is no number any more but a text, the digits of what comes
    before and after it written one after the other. *)
Theorem total_of_text l1 r l2 f t :
  get r f = Str t → t ≠ "" →
  (∃ s, total (l1 ++ r :: l2) f = Str s) ∧
  total (l1 ++ [r]) f = Str (ToString (total l1 f) +:+ t).
Proof.
  intros Hr Ht.
  assert (orElse (get r f) (int 0) = Str t) as Hor.
  { rewrite Hr. unfold orElse. cbn. by rewrite bool_decide_eq_false_2. }
  assert (∀ v, add v (Str t) = Str (ToString v +:+ t)) as Hadd
    by (by intros [| |?|[|?]]).
  unfold total. rewrite !foldl_app. cbn [foldl]. rewrite Hor, Hadd.
  split; [|done].
  destruct (total_stays_text l2 f
              (ToString (foldl (fun sum item => add sum (orElse (get item f) (int 0)))
                               (int 0) l1) +:+ t)) as [s Hs].
  exists s. exact Hs.
Qed.

End Texts.

(** ** Sorting by a number *)

Section Sorting.

Context {A : Type} (cmp : A → A → number) (key : A → Z).

(** Where the comparator is the difference of two keys, the sort puts the
    keys in ascending order and keeps the elements of equal key in the
    order they had. *)
Lemma sort_insert_key x l :
  (∀ y, y ∈ l → cmp x y = Num (key x - key y)) →
  StronglySorted (fun a b => key a ≤ key b) l →
  StronglySorted (fun a b => key a ≤ key b) (sort_insert cmp x l) ∧
  ∀ z, List.filter (fun a => key a =? z) (sort_insert cmp x l)
       = List.filter (fun a => key a =? z) (x :: l).
Proof.
  induction l as [|y l IH]; intros Hcmp Hs.
  - split; [|done]. repeat constructor.
  - cbn [sort_insert]. rewrite (Hcmp y) by left. cbn [keeps_order].
    apply StronglySorted_inv in Hs as [Hs Hy].
    destruct (Z.leb_spec (key x - key y) 0) as [Hle|Hgt].
    + split; [|done]. constructor; [by constructor|].
      constructor; [lia|]. eapply Forall_impl; [exact Hy|]. cbn. lia.
    + destruct IH as [IHs IHf]; [intros; apply Hcmp; by right|done|].
      split.
      * constructor; [done|]. rewrite sort_insert_perm.
        constructor; [lia|done].
      * intros z. cbn [List.filter]. rewrite IHf. cbn [List.filter].
        destruct (Z.eqb_spec (key x) z), (Z.eqb_spec (key y) z); try done. lia.
Qed.

Lemma sort_key l :
  (∀ a b, a ∈ l → b ∈ l → cmp a b = Num (key a - key b)) →
  sort cmp l ≡ₚ l ∧
  StronglySorted (fun a b => key a ≤ key b) (sort cmp l) ∧
  ∀ z, List.filter (fun a => key a =? z) (sort cmp l)
       = List.filter (fun a => key a =? z) l.
Proof.
  intros Hcmp. split; [apply sort_perm|].
  induction l as [|x l IH]; [split; [constructor|done]|].
  destruct IH as [IHs IHf].
  { intros a b Ha Hb. apply Hcmp; by right. }
  change (sort cmp (x :: l)) with (sort_insert cmp x (sort cmp l)).
  destruct (sort_insert_key x (sort cmp l)) as [Hs Hf]; [|done|].
  { intros y Hy. rewrite sort_perm in Hy. apply Hcmp; [by left|by right]. }
  split; [done|]. intros z. rewrite Hf. cbn [List.filter]. by rewrite IHf.
Qed.

End Sorting.

(** ** Summary cards and charts *)

Section Charts.

Import Page.

Lemma foldl_same {A B} (f g : B → A → B) l : ∀ b,
  (∀ x b, x ∈ l → f b x = g b x) → foldl f b l = foldl g b l.
Proof.
  induction l as [|x l IH]; intros b H; [done|].
  cbn. rewrite (H x b) by left. apply IH. intros y b' Hy. apply H. by right.
Qed.

Lemma total_perm l1 l2 f : l1 ≡ₚ l2 → Spec.total l1 f = Spec.total l2 f.
Proof.
  induction 1 as [|x l1 l2 _ IH|x y l|l1 l2 l3 _ IH1 _ IH2];
    cbn [Spec.total foldr]; [done| | |congruence].
  - fold (Spec.total l1 f). fold (Spec.total l2 f). lia.
  - fold (Spec.total l f). lia.
Qed.

(** *** The summary card *)

Section AnyColumns.

Context (columns : list (string * string)).

Lemma totalBy_get recs c :
  NoDup columns.*1 → c ∈ columns →
  get (totalBy columns recs) c.1 = total recs c.2.
Proof.
  intros Hnd Hc. unfold totalBy.
  by rewrite (fold_set_get fst (fun c => total recs c.2)).
Qed.

Lemma grandTotal_fold recs :
  NoDup columns.*1 →
  grandTotal columns recs
  = foldl (fun sum f => add sum (total recs f)) (int 0) columns.*2.
Proof.
  intros Hnd. unfold grandTotal, ObjectValues.
  rewrite <- list_fmap_compose, !foldl_fmap.
  apply foldl_same. intros c b Hc. cbn. by rewrite totalBy_get.
Qed.

Lemma totals_get recs c :
  NoDup columns.*1 → c ∈ columns → c.1 ≠ "total" →
  get (totals columns recs) c.1 = total recs c.2.
Proof.
  intros Hnd Hc Hne. unfold totals, set, get at 1.
  rewrite lookup_insert_ne by done. by apply totalBy_get.
Qed.

Lemma totals_grand recs :
  get (totals columns recs) "total" = grandTotal columns recs.
Proof. unfold totals, set, get. by rewrite lookup_insert_eq. Qed.

Lemma grandTotal_numeric recs :
  NoDup columns.*1 → Forall (Spec.numeric_fields columns.*2) recs →
  grandTotal columns recs = int (Spec.grandTotal recs columns.*2).
Proof.
  intros Hnd Hnum. rewrite grandTotal_fold by done.
  by rewrite (grand_from _ 0 recs columns.*2).
Qed.

End AnyColumns.

Lemma same_columns_fst (fields : list string) :
  ((fun f => (f, f)) <$> fields).*1 = fields.
Proof. rewrite <- list_fmap_compose. apply list_fmap_id. Qed.

Lemma same_columns_snd (fields : list string) :
  ((fun f => (f, f)) <$> fields).*2 = fields.
Proof. rewrite <- list_fmap_compose. apply list_fmap_id. Qed.

Lemma same_columns_totals fields recs f :
  NoDup fields → f ∈ fields → f ≠ "total" →
  get (totals ((fun f => (f, f)) <$> fields) recs) f = total recs f.
Proof.
  intros Hnd Hf Hne.
  apply (totals_get ((fun f => (f, f)) <$> fields) recs (f, f)); [|by apply same_columns|done].
  by rewrite same_columns_fst.
Qed.

Lemma same_columns_grand fields recs :
  NoDup fields → Forall (Spec.numeric_fields fields) recs →
  get (totals ((fun f => (f, f)) <$> fields) recs) "total"
  = int (Spec.grandTotal recs fields).
Proof.
  intros Hnd Hnum. rewrite totals_grand, grandTotal_numeric.
  - by rewrite same_columns_snd.
  - by rewrite same_columns_fst.
  - by rewrite same_columns_snd.
Qed.

Lemma not_total (fields : list string) f :
  bool_decide ("total" ∈ fields) = false → f ∈ fields → f ≠ "total".
Proof. intros H%bool_decide_eq_false_1 Hf ->. done. Qed.

(** X14. The summary card of the age, occupation, education and destination
    pages shows, for each category, the sum of its field over all the
    records of the page, whatever year is selected, and as grand total
    the sum of these sums (on records that hold numbers). On the
    destination page the grand total of the card is what [totalEmigrants]
    is under "All"; on the age page the plot under "All" draws the numbers
    of the card. *)
Theorem summary_cards recs :
  (∀ g, g ∈ DensityPlotPage.ageGroups →
        get (DensityPlotPage.totals recs) g = total recs g) ∧
  (∀ f, f ∈ TreemapPage.occuFields →
        get (TreemapPage.totals recs) f = total recs f) ∧
  (∀ c, c ∈ HorizontalChartPage.eduFieldMappings →
        get (HorizontalChartPage.totals recs) c.1 = total recs c.2) ∧
  (∀ c, c ∈ FlowMapPage.countries →
        get (FlowMapPage.totals recs) c = total recs c) ∧
  get (FlowMapPage.totals recs) "total" = FlowMapPage.totalEmigrants recs "All" ∧
  DensityPlotPage.densityData (DensityPlotPage.filteredRecords recs "All")
  = (fun g => {| DensityPlotPage.ageGroup := g;
                 DensityPlotPage.total := get (DensityPlotPage.totals recs) g |})
      <$> DensityPlotPage.ageGroups ∧
  (Forall (Spec.numeric_fields DensityPlotPage.ageGroups) recs →
   get (DensityPlotPage.totals recs) "total"
   = int (Spec.grandTotal recs DensityPlotPage.ageGroups)) ∧
  (Forall (Spec.numeric_fields TreemapPage.occuFields) recs →
   get (TreemapPage.totals recs) "total"
   = int (Spec.grandTotal recs TreemapPage.occuFields)) ∧
  (Forall (Spec.numeric_fields HorizontalChartPage.eduSafeFields) recs →
   get (HorizontalChartPage.totals recs) "total"
   = int (Spec.grandTotal recs HorizontalChartPage.eduSafeFields)) ∧
  (Forall (Spec.numeric_fields FlowMapPage.countries) recs →
   get (FlowMapPage.totals recs) "total"
   = int (Spec.grandTotal recs FlowMapPage.countries)).
Proof.
  assert (NoDup DensityPlotPage.ageGroups) as Hage by (by apply NoDup_by_computation).
  assert (NoDup TreemapPage.occuFields) as Hoccu by (by apply NoDup_by_computation).
  assert (NoDup FlowMapPage.countries) as Hcountries
    by (by apply NoDup_by_computation).
  assert (NoDup HorizontalChartPage.eduFieldMappings.*1) as Hedu
    by (by apply NoDup_by_computation).
  assert (∀ g, g ∈ DensityPlotPage.ageGroups →
               get (DensityPlotPage.totals recs) g = total recs g) as Hdensity.
  { intros g Hg. apply same_columns_totals; [done|done|].
    by apply (not_total DensityPlotPage.ageGroups). }
  split; [exact Hdensity|]. split.
  { intros f Hf. apply same_columns_totals; [done|done|].
    by apply (not_total TreemapPage.occuFields). }
  split.
  { intros c Hc. apply totals_get; [done|done|].
    apply (not_total HorizontalChartPage.eduFieldMappings.*1); [done|].
    apply list_elem_of_fmap. eauto. }
  split.
  { intros c Hc. apply same_columns_totals; [done|done|].
    by apply (not_total FlowMapPage.countries). }
  split.
  { unfold FlowMapPage.totals, FlowMapPage.totalEmigrants,
      FlowMapPage.filteredRecords, filteredRecords, FlowMapPage.columns.
    rewrite bool_decide_eq_true_2 by done.
    rewrite totals_grand, grandTotal_fold by (by rewrite same_columns_fst).
    by rewrite same_columns_snd. }
  split.
  { unfold DensityPlotPage.densityData, DensityPlotPage.filteredRecords,
      filteredRecords.
    rewrite bool_decide_eq_true_2 by done.
    apply list_fmap_ext. intros i g Hg. rewrite Hdensity; [done|].
    by apply list_elem_of_lookup_2 in Hg. }
  split; [by apply same_columns_grand|]. split; [by apply same_columns_grand|].
  split; [|by apply same_columns_grand].
  intros Hnum. unfold HorizontalChartPage.totals.
  by rewrite totals_grand, grandTotal_numeric.
Qed.

End Charts.

(** *** The sex page: the rows by year, and the totals *)

Section LineChart.

Import Page.

Lemma byYear_difference (a b : obj) :
  isNaN (get a "year") = false → isNaN (get b "year") = false →
  LineChartPage.byYear a b = Num (Reading.year a - Reading.year b).
Proof.
  unfold isNaN, LineChartPage.byYear, Reading.year, Reading.numberOr0.
  by destruct (Number (get a "year")), (Number (get b "year")).
Qed.

(** X15. The table and the chart of the sex page list the records by year.
    When every year is a number (or a text that reads as one), the rows are
    the records of the page, each once, in ascending order of year, and
    the records of one year keep the order in which they were fetched. *)
Theorem sortedEmigrants_ascending recs :
  Forall (fun r => isNaN (get r "year") = false) recs →
  LineChartPage.sortedEmigrants recs ≡ₚ recs ∧
  StronglySorted (fun a b => Reading.year a ≤ Reading.year b)
                 (LineChartPage.sortedEmigrants recs) ∧
  ∀ z, List.filter (fun r => Reading.year r =? z) (LineChartPage.sortedEmigrants recs)
       = List.filter (fun r => Reading.year r =? z) recs.
Proof.
  intros Hnum. apply sort_key. intros a b Ha Hb.
  rewrite Forall_forall in Hnum. apply byYear_difference; by apply Hnum.
Qed.

Lemma line_totals_from l : ∀ (acc : obj) m f t,
  Forall (Spec.numeric_fields LineChartPage.sexFields) l →
  get acc "male" = int m → get acc "female" = int f → get acc "total" = int t →
  let out :=
    foldl (fun acc cur =>
             let acc1 :=
               set acc "male" (add (get acc "male") (orElse (get cur "male") (int 0))) in
             let acc2 :=
               set acc1 "female"
                   (add (get acc1 "female") (orElse (get cur "female") (int 0))) in
             set acc2 "total"
                 (add (get acc2 "total")
                      (add (orElse (get cur "male") (int 0))
                           (orElse (get cur "female") (int 0)))))
          acc l in
  get out "male" = int (m + Spec.total l "male") ∧
  get out "female" = int (f + Spec.total l "female") ∧
  get out "total" = int (t + (Spec.total l "male" + Spec.total l "female")).
Proof.
  induction l as [|r l IH]; intros acc m f t Hnum Hm Hf Ht; cbv zeta.
  - cbn. rewrite Hm, Hf, Ht. repeat split; apply (f_equal int); lia.
  - apply Forall_cons in Hnum as [Hr Hnum]. cbn [foldl].
    unfold Spec.numeric_fields, LineChartPage.sexFields in Hr.
    apply Forall_cons in Hr as [Hrm Hr]. apply Forall_cons in Hr as [Hrf _].
    rewrite !or_count by done.
    lazymatch goal with
    | |- context [foldl ?F ?acc' l] => set (acc1 := acc')
    end.
    destruct (IH acc1 (m + Spec.count r "male") (f + Spec.count r "female")
                 (t + (Spec.count r "male" + Spec.count r "female")) Hnum)
      as (H1 & H2 & H3).
    + unfold acc1, set, get at 1. rewrite !lookup_insert_ne by done.
      rewrite lookup_insert_eq. cbn. by rewrite Hm.
    + unfold acc1, set, get at 1. rewrite lookup_insert_ne by done.
      rewrite lookup_insert_eq. cbn.
      unfold get. rewrite lookup_insert_ne by done. fold (get acc "female").
      by rewrite Hf.
    + unfold acc1, set, get at 1. rewrite lookup_insert_eq. cbn.
      unfold get at 1. rewrite !lookup_insert_ne by done. fold (get acc "total").
      by rewrite Ht.
    + cbv zeta in H1, H2, H3. rewrite H1, H2, H3.
      cbn [Spec.total foldr]. fold (Spec.total l "male"). fold (Spec.total l "female").
      repeat split; apply (f_equal int); lia.
Qed.

(** X16. The totals of the sex page, on records whose counts of men and of
    women are whole numbers (or absent) that stay, added up in absolute
    value, within the range in which the arithmetic of the page is exact:
    the sum of the men, the sum of the women, and a total that is the sum
    of the two; every sum the page forms on the way, over some of the
    records, is exact; the order the rows are sorted in does not matter. *)
Theorem line_chart_totals recs :
  Forall (Spec.numeric_fields LineChartPage.sexFields) recs →
  Reading.exact (Reading.mass recs "male" + Reading.mass recs "female") = true →
  (∀ l, l ⊆+ recs →
        Reading.exact (Spec.total l "male") = true ∧
        Reading.exact (Spec.total l "female") = true ∧
        Reading.exact (Spec.total l "male" + Spec.total l "female") = true) ∧
  get (LineChartPage.totals recs) "male" = int (Spec.total recs "male") ∧
  get (LineChartPage.totals recs) "female" = int (Spec.total recs "female") ∧
  get (LineChartPage.totals recs) "total"
  = int (Spec.total recs "male" + Spec.total recs "female") ∧
  add (get (LineChartPage.totals recs) "male")
      (get (LineChartPage.totals recs) "female")
  = get (LineChartPage.totals recs) "total".
Proof.
  intros Hnum Hmass. split.
  { intros l Hl. unfold Reading.exact in *. rewrite !Z.leb_le in *.
    pose proof (mass_submseteq l recs "male" Hl).
    pose proof (mass_submseteq l recs "female" Hl).
    pose proof (total_within_mass l "male").
    pose proof (total_within_mass l "female").
    repeat split; lia. }
  unfold LineChartPage.totals.
  assert (LineChartPage.sortedEmigrants recs ≡ₚ recs) as Hperm by apply sort_perm.
  assert (Forall (Spec.numeric_fields LineChartPage.sexFields)
                 (LineChartPage.sortedEmigrants recs)) as Hsorted
    by (by rewrite Hperm).
  destruct (line_totals_from (LineChartPage.sortedEmigrants recs)
              {[ "male" := int 0; "female" := int 0; "total" := int 0 ]}
              0 0 0 Hsorted) as (H1 & H2 & H3); [done..|].
  cbv zeta in H1, H2, H3. rewrite H1, H2, H3.
  rewrite !(total_perm _ _ _ Hperm). repeat split.
Qed.

End LineChart.

(** *** The education page: the bars *)

Section Bars.

Import Page.

(** X17. The chart of the education page has one bar for each of the fourteen
    levels, also for a level whose total is 0. On records whose counts are
    numbers, the bar of a level carries the sum of its field over the
    records shown, the bars come least total first, and levels of equal
    total keep the order of the page's list. *)
Theorem education_bars_ascending recs selected :
  Forall (Spec.numeric_fields HorizontalChartPage.eduSafeFields) recs →
  let shown := HorizontalChartPage.filteredRecords recs selected in
  let bars := HorizontalChartPage.chartData shown in
  let listed :=
    (fun c => {| HorizontalChartPage.name := c.1;
                 HorizontalChartPage.total := int (Spec.total shown c.2) |})
      <$> HorizontalChartPage.eduFieldMappings in
  bars ≡ₚ listed ∧
  HorizontalChartPage.name <$> bars ≡ₚ HorizontalChartPage.eduDisplayNames ∧
  StronglySorted
    (fun a b => Reading.numberOr0 (HorizontalChartPage.total a)
                ≤ Reading.numberOr0 (HorizontalChartPage.total b)) bars ∧
  ∀ z, List.filter
         (fun b => Reading.numberOr0 (HorizontalChartPage.total b) =? z) bars
       = List.filter
           (fun b => Reading.numberOr0 (HorizontalChartPage.total b) =? z) listed.
Proof.
  intros Hnum. cbv zeta.
  set (shown := HorizontalChartPage.filteredRecords recs selected).
  assert (Forall (Spec.numeric_fields HorizontalChartPage.eduSafeFields) shown)
    as Hshown by (by apply filteredRecords_Forall).
  unfold HorizontalChartPage.chartData.
  assert ((fun c : string * string =>
             {| HorizontalChartPage.name := c.1;
                HorizontalChartPage.total := total shown c.2 |})
            <$> HorizontalChartPage.eduFieldMappings
          = (fun c => {| HorizontalChartPage.name := c.1;
                         HorizontalChartPage.total := int (Spec.total shown c.2) |})
              <$> HorizontalChartPage.eduFieldMappings) as ->.
  { apply list_fmap_ext. intros i c Hc. f_equal. apply total_numeric.
    eapply numeric_field; [exact Hshown|].
    apply list_elem_of_fmap. exists c. split; [done|].
    by apply list_elem_of_lookup_2 in Hc. }
  set (listed := _ <$> HorizontalChartPage.eduFieldMappings).
  destruct (sort_key HorizontalChartPage.byTotal
              (fun b => Reading.numberOr0 (HorizontalChartPage.total b)) listed)
    as (Hperm & Hsorted & Hstable).
  { intros a b Ha Hb.
    apply list_elem_of_fmap in Ha as (ca & -> & _).
    apply list_elem_of_fmap in Hb as (cb & -> & _). done. }
  split; [done|]. split; [|by split].
  rewrite Hperm. unfold listed. rewrite <- list_fmap_compose. done.
Qed.

End Bars.

(** *** The occupation page: the treemap *)

Section Treemap.

Import Page.

Lemma fold_update (g : string → value → value) fields : ∀ (acc : obj) f,
  NoDup fields →
  get (foldl (fun acc f => set acc f (g f (get acc f))) acc fields) f
  = if bool_decide (f ∈ fields) then g f (get acc f) else get acc f.
Proof.
  induction fields as [|x fields IH]; intros acc f Hnd; [done|].
  apply NoDup_cons in Hnd as [Hx Hnd]. cbn [foldl]. rewrite IH by done.
  unfold set, get. destruct (decide (f = x)) as [->|Hne].
  - rewrite (bool_decide_eq_false_2 _ Hx).
    rewrite bool_decide_eq_true_2 by left. by rewrite lookup_insert_eq.
  - rewrite lookup_insert_ne by done.
    destruct (decide (f ∈ fields)) as [Hin|Hnin].
    + rewrite !bool_decide_eq_true_2; [done|by right|done].
    + rewrite !bool_decide_eq_false_2; [done| |done].
      rewrite elem_of_cons. tauto.
Qed.

Lemma orElse_int n : orElse (int n) (int 0) = int n.
Proof. unfold orElse. cbn. by destruct (Z.eqb_spec n 0) as [->|]. Qed.

Lemma clamped_nonneg recs f : 0 ≤ Reading.clamped recs f.
Proof.
  induction recs as [|r recs IH]; cbn; [done|].
  fold (Reading.clamped recs f). lia.
Qed.

Lemma rawTotals_from recs : ∀ (acc : obj) f a,
  f ∈ TreemapPage.occuFields → get acc f = int a →
  get (foldl (fun acc cur =>
                foldl (fun acc f =>
                         let value :=
                           VNum (Math_max (Number (NumberOr0 (get cur f))) (Num 0)) in
                         set acc f (add (orElse (get acc f) (int 0)) value))
                      acc TreemapPage.occuFields)
             acc recs) f
  = int (a + Reading.clamped recs f).
Proof.
  induction recs as [|r recs IH]; intros acc f a Hf Hacc.
  - cbn. rewrite Hacc. apply (f_equal int). lia.
  - cbn [foldl].
    rewrite (IH _ f (a + Z.max (Reading.numberOr0 (get r f)) 0)); [|done|].
    + apply (f_equal int). cbn [Reading.clamped foldr].
      fold (Reading.clamped recs f). lia.
    + cbv zeta.
      rewrite (fold_update
                 (fun f old =>
                    add (orElse old (int 0))
                        (VNum (Math_max (Number (NumberOr0 (get r f))) (Num 0)))))
        by (by apply NoDup_by_computation).
      rewrite bool_decide_eq_true_2 by done.
      by rewrite Hacc, orElse_int, NumberOr0_int.
Qed.

Lemma rawTotals_get filtered f :
  f ∈ TreemapPage.occuFields →
  get (TreemapPage.rawTotals filtered) f = int (Reading.clamped filtered f).
Proof.
  intros Hf. unfold TreemapPage.rawTotals.
  rewrite (rawTotals_from filtered _ f 0); [done|done|].
  unfold get. erewrite elem_of_list_to_map_1; [done| |].
  - by apply NoDup_by_computation.
  - apply list_elem_of_fmap. eauto.
Qed.

Lemma clamped_total recs f :
  Forall (fun r => ∃ z, get r f = int z ∧ 0 ≤ z) recs →
  Reading.clamped recs f = Spec.total recs f.
Proof.
  induction 1 as [|r recs (z & Hz & Hpos) _ IH]; [done|].
  cbn. fold (Reading.clamped recs f). fold (Spec.total recs f).
  unfold Reading.numberOr0, Spec.count. rewrite Hz. cbn. lia.
Qed.

Lemma sorted_weaken {A} (R1 R2 : A → A → Prop) l :
  (∀ a b, R1 a b → R2 a b) → StronglySorted R1 l → StronglySorted R2 l.
Proof.
  intros H. induction 1 as [|x l _ IH Hx]; constructor; [done|].
  eapply Forall_impl; [exact Hx|]. cbn. auto.
Qed.

Lemma sum_perm l1 l2 : l1 ≡ₚ l2 → Reading.sum l1 = Reading.sum l2.
Proof.
  induction 1 as [|x l1 l2 _ IH|x y l|l1 l2 l3 _ IH1 _ IH2];
    cbn [Reading.sum foldr]; [done| | |congruence].
  - fold (Reading.sum l1). fold (Reading.sum l2). lia.
  - fold (Reading.sum l). lia.
Qed.

(** The sum of the positive ones among numbers that are not negative is
    the sum of all of them. *)
Lemma sum_positive (n : string → Z) fields :
  (∀ f, 0 ≤ n f) →
  Reading.sum (n <$> List.filter (fun f => 0 <? n f) fields)
  = Reading.sum (n <$> fields).
Proof.
  intros Hn. induction fields as [|f fields IH]; [done|].
  cbn [List.filter]. destruct (Z.ltb_spec 0 (n f)) as [Hpos|Hzero].
  - cbn. fold (Reading.sum (n <$> List.filter (fun f => 0 <? n f) fields)).
    fold (Reading.sum (n <$> fields)). lia.
  - rewrite IH. cbn. fold (Reading.sum (n <$> fields)). specialize (Hn f). lia.
Qed.

Lemma totalRaw_from (raw : obj) (n : string → Z) fields : ∀ a,
  (∀ f, f ∈ fields → get raw f = int (n f)) →
  foldl (fun a b => add a (orElse b (int 0))) (int a) (ObjectValues fields raw)
  = int (a + Reading.sum (n <$> fields)).
Proof.
  unfold ObjectValues.
  induction fields as [|f fields IH]; intros a H.
  - cbn. apply (f_equal int). lia.
  - cbn [fmap list_fmap foldl]. rewrite (H f) by left. rewrite orElse_int.
    change (add (int a) (int (n f))) with (int (a + n f)).
    rewrite IH by (intros; apply H; by right).
    apply (f_equal int). cbn. fold (Reading.sum (n <$> fields)). lia.
Qed.

Lemma clamped_submseteq l1 l2 f :
  l1 ⊆+ l2 → Reading.clamped l1 f ≤ Reading.clamped l2 f.
Proof.
  induction 1 as [|x l1 l2 _ IH|x y l|x l1 l2 _ IH|l1 l2 l3 _ IH1 _ IH2];
    cbn [Reading.clamped foldr]; [done| | | |lia].
  - fold (Reading.clamped l1 f). fold (Reading.clamped l2 f). lia.
  - fold (Reading.clamped l f). lia.
  - fold (Reading.clamped l2 f). lia.
Qed.

Lemma sum_submseteq (n : string → Z) fs1 fs2 :
  (∀ f, 0 ≤ n f) → fs1 ⊆+ fs2 →
  0 ≤ Reading.sum (n <$> fs1) ≤ Reading.sum (n <$> fs2).
Proof.
  intros Hn.
  induction 1 as [|x l1 l2 _ IH|x y l|x l1 l2 _ IH|l1 l2 l3 _ IH1 _ IH2];
    cbn [fmap list_fmap Reading.sum foldr]; [done| | | |lia].
  - fold (Reading.sum (n <$> l1)). fold (Reading.sum (n <$> l2)).
    specialize (Hn x). lia.
  - fold (Reading.sum (n <$> l)). pose proof (Hn x). pose proof (Hn y).
    assert (0 ≤ Reading.sum (n <$> l)); [|lia].
    clear -Hn. induction l as [|z l IH]; cbn; [done|].
    fold (Reading.sum (n <$> l)). specialize (Hn z). lia.
  - fold (Reading.sum (n <$> l2)). specialize (Hn x). lia.
Qed.

Lemma sum_member (n : string → Z) fs f :
  (∀ f, 0 ≤ n f) → f ∈ fs → n f ≤ Reading.sum (n <$> fs).
Proof.
  intros Hn Hf.
  assert ([f] ⊆+ fs) as Hsub by (by apply singleton_submseteq_l).
  pose proof (sum_submseteq n [f] fs Hn Hsub) as H. cbn in H. lia.
Qed.

Lemma whole_field fields recs f :
  Reading.all_whole fields recs = true → f ∈ fields →
  Forall (fun r => ∃ z, get r f = int z ∧ Spec.count r f = z) recs.
Proof.
  intros Hall Hf. unfold Reading.all_whole in Hall.
  rewrite forallb_forall in Hall. apply Forall_forall. intros r Hr.
  specialize (Hall r (proj1 (list_elem_of_In _ _) Hr)).
  unfold Reading.whole in Hall. rewrite forallb_forall in Hall.
  specialize (Hall f (proj1 (list_elem_of_In _ _) Hf)).
  unfold Spec.count. destruct (get r f) as [| |?|[|z]]; try discriminate.
  by exists z.
Qed.

(** X18. The treemap, on records whose counts are whole numbers that stay,
    added up, within the range in which the arithmetic of the page is
    exact. The count of an occupation is the sum over the records shown of
    [Math.max(Number(x) || 0, 0)]: a negative number counts as 0, so no
    count is negative. There is one tile for each occupation whose count
    is positive, and none for the others; the tiles come largest count
    first, tiles of equal count in the order of the page's list; and the
    counts of the tiles add up to [totalRaw], the number the percentages
    of the tooltip are taken of. Every sum the page forms on the way, over
    some of the records or some of the occupations, is exact. When no
    count of an occupation in the records is negative, its count is the
    plain sum shown elsewhere on the page. *)
Theorem treemap_tiles filtered normalized :
  Reading.all_whole TreemapPage.occuFields filtered = true →
  Reading.exact
    (Reading.sum ((fun f => Reading.clamped filtered f) <$> TreemapPage.occuFields))
  = true →
  let raw := TreemapPage.rawTotals filtered in
  let tiles := TreemapPage.chartData raw normalized in
  let drawn :=
    (fun f => {| TreemapPage.name := f;
                 TreemapPage.size := get normalized f;
                 TreemapPage.value := int (Reading.clamped filtered f) |})
      <$> List.filter (fun f => 0 <? Reading.clamped filtered f)
                      TreemapPage.occuFields in
  (∀ f, f ∈ TreemapPage.occuFields →
        get raw f = int (Reading.clamped filtered f) ∧
        0 ≤ Reading.clamped filtered f ∧
        Reading.clamped filtered f
        = Reading.sum ((fun r => Z.max (Spec.count r f) 0) <$> filtered)) ∧
  tiles ≡ₚ drawn ∧
  Forall (fun t => 0 < Reading.numberOr0 (TreemapPage.value t)) tiles ∧
  StronglySorted
    (fun a b => Reading.numberOr0 (TreemapPage.value b)
                ≤ Reading.numberOr0 (TreemapPage.value a)) tiles ∧
  (∀ z, List.filter (fun t => Reading.numberOr0 (TreemapPage.value t) =? z) tiles
        = List.filter (fun t => Reading.numberOr0 (TreemapPage.value t) =? z) drawn) ∧
  TreemapPage.totalRaw raw
  = int (Reading.sum ((fun t => Reading.numberOr0 (TreemapPage.value t)) <$> tiles)) ∧
  (∀ l f, l ⊆+ filtered → f ∈ TreemapPage.occuFields →
          Reading.exact (Reading.clamped l f) = true) ∧
  (∀ fs, fs ⊆+ TreemapPage.occuFields →
         Reading.exact (Reading.sum ((fun f => Reading.clamped filtered f) <$> fs))
         = true) ∧
  (∀ f, f ∈ TreemapPage.occuFields →
        Forall (fun r => 0 ≤ Spec.count r f) filtered →
        get raw f = total filtered f).
Proof.
  intros Hwhole Hexact. cbv zeta.
  set (n := fun f => Reading.clamped filtered f).
  assert (∀ f, 0 ≤ n f) as Hn by (intros f; apply clamped_nonneg).
  set (raw := TreemapPage.rawTotals filtered).
  assert (∀ f, f ∈ TreemapPage.occuFields → get raw f = int (n f)) as Hraw
    by (intros f Hf; by apply rawTotals_get).
  set (drawn := _ <$> List.filter (fun f => 0 <? n f) TreemapPage.occuFields).
  assert (TreemapPage.chartData raw normalized
          = sort TreemapPage.byValueDescending drawn) as ->.
  { unfold TreemapPage.chartData, drawn. f_equal.
    rewrite (List.filter_ext_in
               (fun f => greater (orElse (get raw f) (int 0)) 0)
               (fun f => 0 <? n f)).
    2:{ intros f Hf%list_elem_of_In. by rewrite Hraw, orElse_int. }
    apply list_fmap_ext. intros i f Hf. f_equal.
    apply list_elem_of_lookup_2, list_elem_of_In, filter_In in Hf as [Hf _].
    apply list_elem_of_In in Hf. by rewrite Hraw, orElse_int. }
  destruct (sort_key TreemapPage.byValueDescending
              (fun t => - Reading.numberOr0 (TreemapPage.value t)) drawn)
    as (Hperm & Hsorted & Hstable).
  { intros a b Ha Hb.
    apply list_elem_of_fmap in Ha as (fa & -> & _).
    apply list_elem_of_fmap in Hb as (fb & -> & _).
    unfold TreemapPage.byValueDescending. cbn. f_equal. lia. }
  split.
  { intros f Hf. split; [by apply Hraw|]. split; [apply Hn|].
    unfold n. pose proof (whole_field _ _ f Hwhole Hf) as Hz. clear -Hz.
    induction Hz as [|r recs (z & Hr & Hc) _ IH]; [done|].
    cbn. fold (Reading.clamped recs f).
    fold (Reading.sum ((fun r => Z.max (Spec.count r f) 0) <$> recs)).
    rewrite IH. unfold Reading.numberOr0. rewrite Hr, Hc. done. }
  split; [done|]. split.
  { rewrite Hperm. unfold drawn. apply Forall_fmap, Forall_forall.
    intros f Hf. apply list_elem_of_In, filter_In in Hf as [_ Hf].
    cbn. by apply Z.ltb_lt. }
  split.
  { eapply sorted_weaken; [|exact Hsorted]. cbn. intros a b. lia. }
  split.
  { intros z. specialize (Hstable (- z)).
    assert (∀ t : TreemapPage.tile,
              (Reading.numberOr0 (TreemapPage.value t) =? z)
              = (- Reading.numberOr0 (TreemapPage.value t) =? - z)) as Hsame.
    { intros t.
      destruct (Z.eqb_spec (Reading.numberOr0 (TreemapPage.value t)) z),
               (Z.eqb_spec (- Reading.numberOr0 (TreemapPage.value t)) (- z));
        try done; lia. }
    rewrite !(List.filter_ext _ _ Hsame). exact Hstable. }
  split.
  { unfold TreemapPage.totalRaw.
    rewrite (totalRaw_from raw n) by done. apply (f_equal int).
    rewrite (sum_perm _ _ (fmap_Permutation _ _ _ Hperm)).
    unfold drawn. rewrite <- list_fmap_compose.
    change ((fun t => Reading.numberOr0 (TreemapPage.value t)) ∘ _) with n.
    by rewrite sum_positive. }
  fold n in Hexact. unfold Reading.exact in Hexact |- *.
  rewrite Z.leb_le in Hexact.
  split.
  { intros l f Hl Hf. apply Z.leb_le.
    pose proof (clamped_submseteq l filtered f Hl).
    pose proof (clamped_nonneg l f).
    pose proof (sum_member n TreemapPage.occuFields f Hn Hf). unfold n in *. lia. }
  split.
  { intros fs Hfs. apply Z.leb_le.
    pose proof (sum_submseteq n fs TreemapPage.occuFields Hn Hfs). lia. }
  intros f Hf Hpos. rewrite Hraw by done. unfold n.
  rewrite clamped_total.
  - symmetry. apply total_numeric.
    eapply Forall_impl; [exact (whole_field _ _ f Hwhole Hf)|].
    intros r (z & -> & _). done.
  - pose proof (whole_field _ _ f Hwhole Hf) as Hz.
    rewrite Forall_forall in Hz, Hpos |- *. intros r Hr.
    destruct (Hz r Hr) as (z & Hg & Hc). exists z. split; [done|].
    specialize (Hpos r Hr). cbn in Hpos. lia.
Qed.

End Treemap.

(** ** The input of the forecasting network *)

Section Flatten.

Context {A : Type}.

Lemma concat_length_uniform (seq : list (list A)) k :
  Forall (fun step => length step = k) seq →
  length (concat seq) = (length seq * k)%nat.
Proof.
  induction 1 as [|step seq Hstep _ IH]; [done|].
  cbn. rewrite length_app, IH, Hstep. done.
Qed.

Lemma concat_lookup_uniform (seq : list (list A)) k : ∀ i j step v,
  Forall (fun step => length step = k) seq →
  seq !! i = Some step → step !! j = Some v →
  concat seq !! (i * k + j)%nat = Some v.
Proof.
  induction seq as [|x seq IH]; intros i j step v Hall Hi Hj; [done|].
  apply Forall_cons in Hall as [Hx Hall]. cbn [concat].
  destruct i as [|i]; cbn in Hi.
  - injection Hi as ->. cbn. by apply lookup_app_l_Some.
  - rewrite lookup_app_r by (rewrite Hx; lia).
    replace (S i * k + j - length x)%nat with (i * k + j)%nat by (rewrite Hx; lia).
    by apply (IH i j step).
Qed.

(** X19. A sample of [lookback] time steps of [features] values each is
    flattened to one row of [lookback * features] values, the size the
    network is built for; the samples stay as many and in their order; and
    the value of feature [j] at time step [i] is at place
    [i * features + j] of the row. *)
Theorem flattened_samples (X : list (list (list A))) lookback features :
  Forall (fun seq => length seq = lookback ∧
                     Forall (fun step => length step = features) seq) X →
  length (mlpModel.flattenSequences X) = length X ∧
  Forall (fun row => length row = mlpModel.inputSize lookback features)
         (mlpModel.flattenSequences X) ∧
  ∀ n seq i j step v,
    X !! n = Some seq → seq !! i = Some step → step !! j = Some v →
    ∃ row, mlpModel.flattenSequences X !! n = Some row ∧
           row !! (i * features + j)%nat = Some v.
Proof.
  intros Hall. unfold mlpModel.flattenSequences, mlpModel.inputSize.
  split; [apply length_fmap|]. split.
  - apply Forall_fmap. eapply Forall_impl; [exact Hall|].
    intros seq [Hlen Hsteps]. cbn. by rewrite (concat_length_uniform seq features), Hlen.
  - intros n seq i j step v Hn Hi Hj. exists (concat seq).
    split; [by rewrite list_lookup_fmap, Hn|].
    rewrite Forall_forall in Hall.
    destruct (Hall seq (list_elem_of_lookup_2 _ _ _ Hn)) as [_ Hsteps].
    by apply (concat_lookup_uniform seq features i j step).
Qed.

End Flatten.

(** ** Instances of the properties above *)

Section FurtherInstances.

Import Page Firestore.

(** 2021 and 5 single typed into the add form of the civil-status page,
    then Add, on a collection of one document. *)
Lemma add_outcome_witness :
  let st :=
    handleChange "single" "5"
      (handleChange "year" "2021" (initial BarChartPage.defaultForm)) in
  let s := {| docs := [("0", {[ "year" := int 2019; "single" := int 1 ]})];
              next_id := 1; script := [] |} in
  ToBoolean (get (form st) "year") = true ∧
  well_formed s = true ∧
  ("1" ∉ (docs s).*1) ∧
  docs (BarChartPage.handleAdd st s).2
  = [("0", {[ "year" := int 2019; "single" := int 1 ]});
     ("1", {[ "year" := int 2021; "single" := int 5; "married" := int 0;
              "widower" := int 0; "separated" := int 0; "divorced" := int 0;
              "notReported" := int 0 ]})] ∧
  form (BarChartPage.handleAdd st s).1 = BarChartPage.defaultForm.
Proof.
  cbv zeta.
  set (st := handleChange "single" "5"
               (handleChange "year" "2021" (initial BarChartPage.defaultForm))).
  set (s := {| docs := [("0", {[ "year" := int 2019; "single" := int 1 ]})];
               next_id := 1; script := [] |}).
  assert (ToBoolean (get (form st) "year") = true) as Hy by reflexivity.
  assert (well_formed s = true) as Hwf by reflexivity.
  destruct (add_outcome BarChartPage.columns BarChartPage.defaultForm
              st s Hy Hwf) as [_ Hok].
  destruct Hok as (Hfresh & Hd & _ & _ & _ & Hf & _); [reflexivity|].
  split; [exact Hy|]. split; [exact Hwf|]. split; [exact Hfresh|].
  split; [|exact Hf].
  etrans; [exact Hd|]. reflexivity.
Defined.

(** A file of three rows, the second without a number for the year, on a
    collection of one document; both records are stored, in the order of
    their lines, then the fetch rejects. *)
Lemma upload_outcome_witness :
  let txt := Papa.text_of_lines ["year,single"; "2019,100"; "x,5"; "2020,80"] in
  let f := {| Papa.name := "Emigrants.CSV"; Papa.contents := Some txt |} in
  let s := {| docs := [("0", {[ "year" := int 2018 ]})]; next_id := 1;
              script := [fulfilled; fulfilled; rejected "unavailable"] |} in
  let st := setCsvFileName "Emigrants.CSV" (initial BarChartPage.defaultForm) in
  Papa.errors (Papa.parse txt) = [] ∧
  well_formed s = true ∧
  Forall (eq fulfilled)
    (take (length (List.filter BarChartPage.rowValid (Papa.data (Papa.parse txt))))
          (script s)) ∧
  (docs (BarChartPage.complete (Papa.parse txt) st s).2).*1 = ["0"; "1"; "2"] ∧
  (λ d, get d.2 "year") <$> docs (BarChartPage.complete (Papa.parse txt) st s).2
  = [int 2018; int 2019; int 2020] ∧
  type (msg (BarChartPage.complete (Papa.parse txt) st s).1) = "error" ∧
  BarChartPage.handleCSVUpload (Some f) (initial BarChartPage.defaultForm) s
  = BarChartPage.complete (Papa.parse txt) st s.
Proof.
  cbv zeta.
  set (txt := Papa.text_of_lines ["year,single"; "2019,100"; "x,5"; "2020,80"]).
  set (f := {| Papa.name := "Emigrants.CSV"; Papa.contents := Some txt |}).
  set (s := {| docs := [("0", {[ "year" := int 2018 ]})]; next_id := 1;
               script := [fulfilled; fulfilled; rejected "unavailable"] |}).
  set (st := setCsvFileName "Emigrants.CSV" (initial BarChartPage.defaultForm)).
  assert (Papa.errors (Papa.parse txt) = []) as H1 by reflexivity.
  assert (well_formed s = true) as H2 by reflexivity.
  assert (Forall (eq fulfilled)
            (take (length (List.filter BarChartPage.rowValid
                             (Papa.data (Papa.parse txt))))
                  (script s))) as H3 by (repeat constructor).
  destruct (upload_outcome BarChartPage.columns BarChartPage.rowValid
              BarChartPage.rowYear BarChartPage.headers (Papa.parse txt)
              st s H1 H2 H3)
    as (_ & Hdocs & _ & Hids & _ & _ & _ & _ & Hfail & _ & Hfile).
  destruct Hfail as [Hfail _]; [discriminate|].
  split; [exact H1|]. split; [exact H2|]. split; [exact H3|].
  split; [etrans; [exact Hids|]; reflexivity|].
  split; [unfold BarChartPage.complete; rewrite Hdocs; reflexivity|].
  split; [exact Hfail|].
  apply (Hfile f txt); reflexivity.
Defined.

(** A session on the civil-status page: a record added with a count that
    is not a number, a file uploaded with a count that is not a number and
    a row without year, an edit saved with a text for a count, a record
    deleted. *)
Lemma stored_counts_stay_numbers_witness :
  let es :=
    [ Change "year" "2021"; Change "single" "many"; ClickAdd;
      Upload (Some {| Papa.name := "emigrants.csv";
                      Papa.contents := Some (Papa.text_of_lines
                        ["year,single,married"; "2019,100,x"; ",7,7"; "2020,80,5"]) |});
      ClickEdit {[ "id" := Str "1"; "year" := int 2019; "single" := int 100 ]};
      EditChange "single" "a hundred"; ClickSave "1";
      ClickDelete true "0" ] in
  NoDup BarChartPage.columns.*2 ∧
  Reading.all_whole BarChartPage.columns.*2 (docs Firestore.empty).*2 = true ∧
  Reading.all_whole BarChartPage.columns.*2
    (records (initial BarChartPage.defaultForm)) = true ∧
  (docs (BarChartPage.run es (initial BarChartPage.defaultForm, Firestore.empty)).2).*1
  = ["1"; "2"] ∧
  Reading.all_whole BarChartPage.columns.*2
    (docs (BarChartPage.run es (initial BarChartPage.defaultForm, Firestore.empty)).2).*2
  = true ∧
  Reading.all_whole BarChartPage.columns.*2
    (records (BarChartPage.run es (initial BarChartPage.defaultForm, Firestore.empty)).1)
  = true.
Proof.
  cbv zeta.
  assert (NoDup BarChartPage.columns.*2) as Hnd
    by (apply NoDup_by_computation; reflexivity).
  split; [exact Hnd|]. split; [reflexivity|]. split; [reflexivity|].
  split; [vm_compute; reflexivity|].
  apply (stored_counts_stay_numbers BarChartPage.columns BarChartPage.defaultForm
           BarChartPage.rowValid BarChartPage.rowYear BarChartPage.headers
           updateFailed _ _ _ Hnd); reflexivity.
Defined.

(** The same session: the two documents left have the year and the six
    categories as their fields. *)
Lemma stored_fields_stay_witness :
  let es :=
    [ Change "year" "2021"; Change "single" "many"; ClickAdd;
      Upload (Some {| Papa.name := "emigrants.csv";
                      Papa.contents := Some (Papa.text_of_lines
                        ["year,single,married"; "2019,100,x"; ",7,7"; "2020,80,5"]) |});
      ClickEdit {[ "id" := Str "1"; "year" := int 2019; "single" := int 100 ]};
      EditChange "single" "a hundred"; ClickSave "1";
      ClickDelete true "0" ] in
  ("id" ∉ "year" :: BarChartPage.columns.*2) ∧
  Forall (fun d : string * obj =>
            dom d.2 = {[ "year" ]} ∪ list_to_set BarChartPage.columns.*2)
         (docs Firestore.empty) ∧
  Forall (fun r : obj =>
            dom r = {[ "year" ]} ∪ list_to_set BarChartPage.columns.*2 ∪ {[ "id" ]})
         (records (initial BarChartPage.defaultForm)) ∧
  length (docs (BarChartPage.run es
                  (initial BarChartPage.defaultForm, Firestore.empty)).2) = 2%nat ∧
  Forall (fun d : string * obj =>
            dom d.2 = {[ "year" ]} ∪ list_to_set BarChartPage.columns.*2)
         (docs (BarChartPage.run es
                  (initial BarChartPage.defaultForm, Firestore.empty)).2).
Proof.
  cbv zeta.
  assert ("id" ∉ "year" :: BarChartPage.columns.*2) as Hid
    by (apply not_elem_by_computation; reflexivity).
  assert (Forall (fun d : string * obj =>
                    dom d.2 = {[ "year" ]} ∪ list_to_set BarChartPage.columns.*2)
                 (docs Firestore.empty)) as Hs by constructor.
  assert (Forall (fun r : obj =>
                    dom r = {[ "year" ]} ∪ list_to_set BarChartPage.columns.*2
                            ∪ {[ "id" ]})
                 (records (initial BarChartPage.defaultForm))) as Hst by constructor.
  split; [exact Hid|]. split; [exact Hs|]. split; [exact Hst|].
  split; [vm_compute; reflexivity|].
  apply (stored_fields_stay BarChartPage.columns BarChartPage.defaultForm
           BarChartPage.rowValid BarChartPage.rowYear BarChartPage.headers
           updateFailed _ _ _ Hid Hs Hst).
Defined.

(** A session on the education page: a record added, its row edited, the
    year blanked, Save (refused), the year typed again, Save. *)
Lemma education_counts_stay_numbers_witness :
  let es :=
    [ Change "year" "2020"; Change "College Graduate" "12"; ClickAdd;
      ClickEdit {[ "id" := Str "0"; "year" := int 2020; "collegeGraduate" := int 12 ]};
      EditChange "year" ""; ClickSave "0";
      EditChange "year" "2021"; EditChange "College Graduate" "n/a"; ClickSave "0" ] in
  Reading.all_whole HorizontalChartPage.eduSafeFields (docs Firestore.empty).*2 = true ∧
  Reading.all_whole HorizontalChartPage.eduSafeFields
    (records (initial HorizontalChartPage.defaultForm)) = true ∧
  Reading.all_whole HorizontalChartPage.eduSafeFields
    (docs (HorizontalChartPage.run es
             (initial HorizontalChartPage.defaultForm, Firestore.empty)).2).*2
  = true ∧
  Reading.all_whole HorizontalChartPage.eduSafeFields
    (records (HorizontalChartPage.run es
                (initial HorizontalChartPage.defaultForm, Firestore.empty)).1)
  = true.
Proof.
  cbv zeta. split; [reflexivity|]. split; [reflexivity|].
  apply (education_counts_stay_numbers _ _ _); reflexivity.
Defined.

(** The record of 2019 of the civil-status page, Edit, then Save. *)
Lemma edit_then_save_unchanged_witness :
  let d : string * obj :=
    ("0", {[ "year" := int 2019; "single" := int 100; "married" := int 50;
             "widower" := int 0; "separated" := int 0; "divorced" := int 0;
             "notReported" := int 0 ]}) in
  let s := {| docs := [d]; next_id := 1; script := [] |} in
  NoDup ("year" :: BarChartPage.columns.*1) ∧
  NoDup ("year" :: BarChartPage.columns.*2) ∧
  Reading.whole ("year" :: BarChartPage.columns.*2) d.2 = true ∧
  NoDup (docs s).*1 ∧ d ∈ docs s ∧ d.2 !! "id" = None ∧
  docs (BarChartPage.run [ClickEdit (with_id d); ClickSave "0"]
          (initial BarChartPage.defaultForm, s)).2 = [d] ∧
  editingId (BarChartPage.run [ClickEdit (with_id d); ClickSave "0"]
               (initial BarChartPage.defaultForm, s)).1 = null.
Proof.
  cbv zeta.
  set (d := ("0", {[ "year" := int 2019; "single" := int 100; "married" := int 50;
                     "widower" := int 0; "separated" := int 0; "divorced" := int 0;
                     "notReported" := int 0 ]}) : string * obj).
  set (s := {| docs := [d]; next_id := 1; script := [] |}).
  assert (NoDup ("year" :: BarChartPage.columns.*1)) as H1
    by (apply NoDup_by_computation; reflexivity).
  assert (NoDup ("year" :: BarChartPage.columns.*2)) as H2
    by (apply NoDup_by_computation; reflexivity).
  assert (Reading.whole ("year" :: BarChartPage.columns.*2) d.2 = true) as H3
    by reflexivity.
  assert (NoDup (docs s).*1) as H4 by (apply NoDup_by_computation; reflexivity).
  assert (d ∈ docs s) as H5 by left.
  assert (d.2 !! "id" = None) as H6 by reflexivity.
  destruct (edit_then_save_unchanged BarChartPage.columns BarChartPage.defaultForm
              BarChartPage.rowValid BarChartPage.rowYear BarChartPage.headers
              updateFailed d (initial BarChartPage.defaultForm) s H1 H2 H3 H4 H5 H6)
    as (_ & _ & _ & Hdocs & Hedit).
  destruct Hedit as [Hedit _]; [reflexivity|].
  split; [exact H1|]. split; [exact H2|]. split; [exact H3|].
  split; [exact H4|]. split; [exact H5|]. split; [exact H6|].
  split; [exact Hdocs|exact Hedit].
Defined.

(** Four records: 2020 twice, 2019, and one of year 0. *)
Lemma listed_year_selects_witness :
  let recs : list obj :=
    [ {[ "year" := int 2020; "single" := int 1 ]}; {[ "year" := int 2019 ]};
      {[ "year" := int 2020; "single" := int 2 ]}; {[ "year" := int 0 ]} ] in
  Forall Spec.numeric_year recs ∧ Num 2020 ∈ years recs ∧
  filteredRecords recs (option_value (Num 2020))
  = [ {[ "year" := int 2020; "single" := int 1 ]};
      {[ "year" := int 2020; "single" := int 2 ]} ].
Proof.
  cbv zeta.
  set (recs := [ {[ "year" := int 2020; "single" := int 1 ]}; {[ "year" := int 2019 ]};
                 {[ "year" := int 2020; "single" := int 2 ]}; {[ "year" := int 0 ]} ]
               : list obj).
  assert (Forall Spec.numeric_year recs) as Hnum by (repeat constructor).
  assert (Num 2020 ∈ years recs) as Hy by (right; left).
  destruct (listed_year_selects recs (Num 2020) Hnum Hy) as (z & Hz & _ & Hf & _).
  split; [exact Hnum|]. split; [exact Hy|].
  etrans; [exact Hf|]. injection Hz as <-. reflexivity.
Defined.

(** The same four records: 3 single under 2020, none under 2019, none
    without a year. *)
Lemma year_views_split_witness :
  let recs : list obj :=
    [ {[ "year" := int 2020; "single" := int 1 ]}; {[ "year" := int 2019 ]};
      {[ "year" := int 2020; "single" := int 2 ]}; {[ "year" := int 0 ]} ] in
  Forall Spec.numeric_year recs ∧
  Forall (fun r => Spec.is_count (get r "single") = true) recs ∧
  Reading.exact (Reading.mass recs "single") = true ∧
  total (filteredRecords recs "All") "single" = int 3 ∧
  ∃ ts,
    Forall2 (fun y t => total (filteredRecords recs (option_value y)) "single" = int t)
            (years recs) ts ∧
    Forall (fun t => Reading.exact t = true) ts ∧
    total (filteredRecords recs "All") "single"
    = int (Reading.sum ts
           + Spec.total
               (List.filter (fun r => negb (ToBoolean (get r "year"))) recs) "single").
Proof.
  cbv zeta.
  set (recs := [ {[ "year" := int 2020; "single" := int 1 ]}; {[ "year" := int 2019 ]};
                 {[ "year" := int 2020; "single" := int 2 ]}; {[ "year" := int 0 ]} ]
               : list obj).
  assert (Forall Spec.numeric_year recs) as Hnum by (repeat constructor).
  assert (Forall (fun r => Spec.is_count (get r "single") = true) recs) as Hf
    by (repeat constructor).
  assert (Reading.exact (Reading.mass recs "single") = true) as Hm by reflexivity.
  split; [exact Hnum|]. split; [exact Hf|]. split; [exact Hm|].
  split; [reflexivity|].
  exact (proj2 (year_views_split recs "single" Hnum Hf Hm)).
Defined.

(** A record of the education page stored with the year 0. *)
Lemma falsy_year_blocks_save_witness :
  let r : obj := {[ "id" := Str "0"; "year" := int 0; "collegeGraduate" := int 3 ]} in
  let st := initial HorizontalChartPage.defaultForm in
  ToBoolean (get r "year") = false ∧ "0" ≠ "" ∧
  HorizontalChartPage.handleSave "0" (HorizontalChartPage.handleEdit r st)
    Firestore.empty
  = (showMessage "❌ Please enter a valid year" "error"
       (HorizontalChartPage.handleEdit r st), Firestore.empty).
Proof.
  cbv zeta.
  set (r := {[ "id" := Str "0"; "year" := int 0; "collegeGraduate" := int 3 ]} : obj).
  assert (ToBoolean (get r "year") = false) as H1 by reflexivity.
  assert ("0" ≠ "") as H2 by discriminate.
  destruct (falsy_year_blocks_save r "0" (initial HorizontalChartPage.defaultForm)
              Firestore.empty H1 H2) as (_ & Hsave & _).
  split; [exact H1|]. split; [exact H2|exact Hsave].
Defined.

(** A record whose count of single is the text "5", between records that
    hold 1 and 2: the total reads 152. *)
Lemma total_of_text_witness :
  get ({[ "year" := int 2020; "single" := Str "5" ]} : obj) "single" = Str "5" ∧
  "5" ≠ "" ∧
  total [ {[ "year" := int 2019; "single" := int 1 ]};
          {[ "year" := int 2020; "single" := Str "5" ]} ] "single" = Str "15" ∧
  total [ {[ "year" := int 2019; "single" := int 1 ]};
          {[ "year" := int 2020; "single" := Str "5" ]};
          {[ "year" := int 2021; "single" := int 2 ]} ] "single" = Str "152".
Proof.
  assert (get ({[ "year" := int 2020; "single" := Str "5" ]} : obj) "single" = Str "5")
    as H1 by reflexivity.
  assert ("5" ≠ "") as H2 by discriminate.
  destruct (total_of_text [ {[ "year" := int 2019; "single" := int 1 ]} ]
              {[ "year" := int 2020; "single" := Str "5" ]}
              [ {[ "year" := int 2021; "single" := int 2 ]} ] "single" "5" H1 H2)
    as [_ Ht].
  split; [exact H1|]. split; [exact H2|]. split; [|reflexivity].
  etrans; [exact Ht|]. reflexivity.
Defined.

(** Four records of the sex page, 2021 twice. *)
Lemma sortedEmigrants_ascending_witness :
  let recs : list obj :=
    [ {[ "year" := int 2021; "male" := int 1 ]}; {[ "year" := int 2019; "male" := int 2 ]};
      {[ "year" := int 2021; "male" := int 3 ]}; {[ "year" := int 2020; "male" := int 4 ]} ] in
  Forall (fun r => isNaN (get r "year") = false) recs ∧
  LineChartPage.sortedEmigrants recs
  = [ {[ "year" := int 2019; "male" := int 2 ]}; {[ "year" := int 2020; "male" := int 4 ]};
      {[ "year" := int 2021; "male" := int 1 ]}; {[ "year" := int 2021; "male" := int 3 ]} ] ∧
  StronglySorted (fun a b => Reading.year a ≤ Reading.year b)
                 (LineChartPage.sortedEmigrants recs).
Proof.
  cbv zeta.
  set (recs := [ {[ "year" := int 2021; "male" := int 1 ]};
                 {[ "year" := int 2019; "male" := int 2 ]};
                 {[ "year" := int 2021; "male" := int 3 ]};
                 {[ "year" := int 2020; "male" := int 4 ]} ] : list obj).
  assert (Forall (fun r => isNaN (get r "year") = false) recs) as H
    by (repeat constructor).
  destruct (sortedEmigrants_ascending recs H) as (_ & Hs & _).
  split; [exact H|]. split; [reflexivity|exact Hs].
Defined.

(** Two records of the sex page, one without women. *)
Lemma line_chart_totals_witness :
  let recs : list obj :=
    [ {[ "year" := int 2019; "male" := int 3; "female" := int 4 ]};
      {[ "year" := int 2018; "male" := int 1 ]} ] in
  Forall (Spec.numeric_fields LineChartPage.sexFields) recs ∧
  Reading.exact (Reading.mass recs "male" + Reading.mass recs "female") = true ∧
  get (LineChartPage.totals recs) "total" = int 8.
Proof.
  cbv zeta.
  set (recs := [ {[ "year" := int 2019; "male" := int 3; "female" := int 4 ]};
                 {[ "year" := int 2018; "male" := int 1 ]} ] : list obj).
  assert (Forall (Spec.numeric_fields LineChartPage.sexFields) recs) as H
    by (repeat constructor).
  assert (Reading.exact (Reading.mass recs "male" + Reading.mass recs "female")
          = true) as Hm by reflexivity.
  destruct (line_chart_totals recs H Hm) as (_ & _ & _ & Ht & _).
  split; [exact H|]. split; [exact Hm|]. etrans; [exact Ht|]. reflexivity.
Defined.

(** One record of the education page: twelve levels at 0, then the two
    levels that have a count. *)
Lemma education_bars_ascending_witness :
  let recs : list obj :=
    [ {[ "year" := int 2020; "collegeGraduate" := int 5; "elementaryLevel" := int 2 ]} ] in
  Forall (Spec.numeric_fields HorizontalChartPage.eduSafeFields) recs ∧
  HorizontalChartPage.name
    <$> drop 12 (HorizontalChartPage.chartData
                   (HorizontalChartPage.filteredRecords recs "All"))
  = ["Elementary Level"; "College Graduate"] ∧
  StronglySorted
    (fun a b => Reading.numberOr0 (HorizontalChartPage.total a)
                ≤ Reading.numberOr0 (HorizontalChartPage.total b))
    (HorizontalChartPage.chartData (HorizontalChartPage.filteredRecords recs "All")).
Proof.
  cbv zeta.
  set (recs := [ {[ "year" := int 2020; "collegeGraduate" := int 5;
                    "elementaryLevel" := int 2 ]} ] : list obj).
  assert (Forall (Spec.numeric_fields HorizontalChartPage.eduSafeFields) recs) as H
    by (repeat constructor).
  destruct (education_bars_ascending recs "All" H) as (_ & _ & Hs & _).
  split; [exact H|]. split; [vm_compute; reflexivity|exact Hs].
Defined.

(** Two records of the occupation page: 5 sales and 7 students, and one
    professional whose count is negative. *)
Lemma treemap_tiles_witness :
  let none : obj := list_to_map ((fun f => (f, int 0)) <$> TreemapPage.occuFields) in
  let filtered : list obj :=
    [ set (set none "Sales" (int 3)) "Students" (int 7);
      set (set none "Sales" (int 2)) "Professional" (int (-1)) ] in
  let tiles := TreemapPage.chartData (TreemapPage.rawTotals filtered) ∅ in
  Reading.all_whole TreemapPage.occuFields filtered = true ∧
  Reading.exact
    (Reading.sum ((fun f => Reading.clamped filtered f) <$> TreemapPage.occuFields))
  = true ∧
  (TreemapPage.name <$> tiles = ["Students"; "Sales"]) ∧
  (TreemapPage.value <$> tiles = [int 7; int 5]) ∧
  TreemapPage.totalRaw (TreemapPage.rawTotals filtered)
  = int (Reading.sum ((fun t => Reading.numberOr0 (TreemapPage.value t)) <$> tiles)).
Proof.
  cbv zeta.
  set (none := list_to_map ((fun f => (f, int 0)) <$> TreemapPage.occuFields) : obj).
  set (filtered := [ set (set none "Sales" (int 3)) "Students" (int 7);
                     set (set none "Sales" (int 2)) "Professional" (int (-1)) ]).
  assert (Reading.all_whole TreemapPage.occuFields filtered = true) as H1
    by (vm_compute; reflexivity).
  assert (Reading.exact
            (Reading.sum ((fun f => Reading.clamped filtered f)
                            <$> TreemapPage.occuFields)) = true) as H2
    by (vm_compute; reflexivity).
  destruct (treemap_tiles filtered ∅ H1 H2) as (_ & _ & _ & _ & _ & Hsum & _).
  split; [exact H1|]. split; [exact H2|].
  split; [vm_compute; reflexivity|]. split; [vm_compute; reflexivity|].
  exact Hsum.
Defined.

(** One sample of three time steps of two values. *)
Lemma flattened_samples_witness :
  Forall (fun seq : list (list Z) =>
            length seq = 3%nat ∧ Forall (fun step => length step = 2%nat) seq)
         [ [ [1; 2]; [3; 4]; [5; 6] ] ] ∧
  mlpModel.flattenSequences [ [ [1; 2]; [3; 4]; [5; 6] ] ] = [ [1; 2; 3; 4; 5; 6] ] ∧
  Forall (fun row : list Z => length row = mlpModel.inputSize 3 2)
         (mlpModel.flattenSequences [ [ [1; 2]; [3; 4]; [5; 6] ] ]).
Proof.
  assert (Forall (fun seq : list (list Z) =>
                    length seq = 3%nat ∧ Forall (fun step => length step = 2%nat) seq)
                 [ [ [1; 2]; [3; 4]; [5; 6] ] ]) as H
    by (repeat constructor).
  destruct (flattened_samples [ [ [1; 2]; [3; 4]; [5; 6] ] ] 3 2 H) as (_ & Hrows & _).
  split; [exact H|]. split; [reflexivity|exact Hrows].
Defined.

End FurtherInstances.
